(** * AF_XDP forwarder: UMEM freelist, ring pump and worker loop

    A shallow embedding of [xdp/xdp_fwd2.c] (module [Fwd2]) and of
    [xdp/xdp_fwd2_refactored.c] (module [Refactored]).

    - Machine integers are [Z] with the wrap-around written out ([u32],
      [u64], [s32]).
    - The frame freelist is a record holding the [free_addrs] array as a
      list and the [free_top] index; an access outside the array is a
      [Fault], never a silent no-op.
    - Everything the kernel, libxdp and libc decide (ring occupancy,
      descriptors, the needs-wakeup flags, allocation failures, the quit
      flag written by another thread) is read from an [oracle]; every call
      into them is recorded in a [trace], newest event first.
    - The UMEM area is a finite map from byte offsets to bytes; what the
      NIC wrote into a frame is part of the world a pump starts from.
    - [pthread_mutex_lock]/[unlock] bracket the bodies of the freelist
      operations; the embedding is sequential and leaves them out.
    - Spin loops take a [fuel] bound; a run that exhausts it stops with
      [OutOfFuel] and keeps its trace.
    - [main] of xdp_fwd2.c is embedded up to the creation of the worker
      threads; [main] of the refactored file is embedded up to the
      creation of its ports and, where that fails, through its cleanup.
      The statistics loops and the shutdown after the threads are joined
      are not embedded. *)

From Stdlib Require Import ZArith List Lia Bool.
From Stdlib.Strings Require Import Byte.
From stdpp Require Import base list gmap strings.

Local Open Scope Z_scope.

(* ===================================================================== *)
(** * Machine integers *)

Definition u32 (z : Z) : Z := z mod 2 ^ 32.
Definition u64 (z : Z) : Z := z mod 2 ^ 64.

(** [(int)x] for a 32-bit [x]: two's complement reading. *)
Definition s32 (z : Z) : Z :=
  let w := u32 z in if w <? 2 ^ 31 then w else w - 2 ^ 32.

(* ===================================================================== *)
(** * Data model *)

Record umem_mgr_params := {
  pp_n_frames : Z;
  pp_frame_size : Z;
  pp_mmap_flags : Z
}.

Record xsk_umem_config := {
  fill_size : Z;
  comp_size : Z;
  cfg_frame_size : Z;
  frame_headroom : Z;
  cfg_flags : Z
}.

(** [struct umem_mgr].  [free_addrs] is the malloc'ed array (its length is
    the number of [u64] slots allocated), [free_top] the next push index.
    [fq_initialized] exists in the refactored file only. *)
Record umem_mgr := {
  umem_cfg : xsk_umem_config;
  free_addrs : list Z;
  free_top : Z;
  n_frames : Z;
  frame_size : Z;
  fq_initialized : Z
}.

Definition set_free (fa : list Z) (top : Z) (u : umem_mgr) : umem_mgr :=
  {| umem_cfg := umem_cfg u; free_addrs := fa; free_top := top;
     n_frames := n_frames u; frame_size := frame_size u;
     fq_initialized := fq_initialized u |}.

Definition set_fq_initialized (v : Z) (u : umem_mgr) : umem_mgr :=
  {| umem_cfg := umem_cfg u; free_addrs := free_addrs u; free_top := free_top u;
     n_frames := n_frames u; frame_size := frame_size u;
     fq_initialized := v |}.

(** The stack the freelist denotes: [free_addrs[0 .. free_top)]. *)
Definition freelist (u : umem_mgr) : list Z :=
  take (Z.to_nat (free_top u)) (free_addrs u).

(** A manager as [umem_mgr_create] leaves it and as the operations keep it:
    the array has [n_frames] slots and [free_top] does not exceed it. *)
Definition umem_wf (u : umem_mgr) : Prop :=
  Z.of_nat (length (free_addrs u)) = n_frames u /\
  0 <= free_top u <= n_frames u /\ n_frames u < 2 ^ 32.

Inductive fault :=
| NullDeref
| OobLoad (i : Z)
| OobStore (i : Z).

Inductive res (A : Type) :=
| Ok (a : A)
| Fault (f : fault).
Arguments Ok {A} a.
Arguments Fault {A} f.

(** The loop [for (i = 0; i < got; i++) out[i] = u->free_addrs[--u->free_top];]
    shared by both files.  [out] collects [out[0], out[1], ...]. *)
Fixpoint umem_alloc_loop (n : nat) (u : umem_mgr) (out : list Z)
  : res (list Z * umem_mgr) :=
  match n with
  | O => Ok (out, u)
  | S n' =>
      let top := u32 (free_top u - 1) in
      match free_addrs u !! Z.to_nat top with
      | Some a => umem_alloc_loop n' (set_free (free_addrs u) top u) (out ++ [a])
      | None => Fault (OobLoad top)
      end
  end.

(** [u->free_addrs[u->free_top++] = addr;] *)
Definition push_frame (u : umem_mgr) (addr : Z) : res umem_mgr :=
  let i := free_top u in
  if i <? Z.of_nat (length (free_addrs u))
  then Ok (set_free (<[Z.to_nat i := addr]> (free_addrs u)) (u32 (i + 1)) u)
  else Fault (OobStore i).


(* ===================================================================== *)
(** * Ports, rings and the world the code runs in *)

Record xsk_socket_config := {
  rx_size : Z;
  tx_size : Z;
  libxdp_flags : Z;
  xdp_flags : Z;
  bind_flags : Z
}.

(** [struct port_params]; the [u] pointer of every port designates the one
    manager of the process ([umem] of the world). *)
Record port_params := {
  xsk_cfg : xsk_socket_config;
  iface : option string;
  iface_queue : Z
}.

(** [struct port].  The rings are kernel-shared memory and are named by
    [ring] below; [xsk] says whether the socket pointer is set.
    [umem_fq_initialized] exists in xdp_fwd2.c only. *)
Record port := {
  params : port_params;
  xsk : bool;
  umem_fq_initialized : Z;
  n_pkts_rx : Z;
  n_pkts_tx : Z
}.

(** A [struct port *] is the index of the object in [ports]. *)
Inductive ring :=
| RXQ (p : nat)       (* p->rxq *)
| TXQ (p : nat)       (* p->txq *)
| PORT_FQ (p : nat)   (* p->umem_fq, xdp_fwd2.c *)
| PORT_CQ (p : nat)   (* p->umem_cq, xdp_fwd2.c *)
| UMEM_FQ             (* u->fq, refactored *)
| UMEM_CQ.            (* u->cq, refactored *)

Inductive pollev := POLLIN | POLLOUT.

Inductive obj :=
| ObjUmemMgr          (* the calloc'ed struct umem_mgr *)
| ObjMapping          (* the mmap'ed UMEM area *)
| ObjKernelUmem       (* the xsk_umem handle *)
| ObjFreeAddrs        (* the malloc'ed free_addrs array *)
| ObjMutex
| ObjPort (p : nat)   (* a calloc'ed struct port *)
| ObjSocket (p : nat).

(** One constructor per call that leaves the process image. *)
Inductive event :=
| EvSetrlimit (rc : Z)
| EvCalloc (o : obj) (ok : bool)
| EvMalloc (o : obj) (ok : bool)
| EvFree (o : obj)
| EvMmap (len flags : Z) (ok : bool)
| EvMunmap (len : Z)
| EvUmemCreate (len : Z) (status : Z)
| EvUmemDelete
| EvMutexInit (rc : Z)
| EvMutexDestroy
| EvSocketCreate (p : nat) (ifname : option string) (queue : Z) (status : Z)
| EvSocketDelete (p : nat)
| EvPeek (r : ring) (nb n idx : Z)
| EvConsRelease (r : ring) (nb : Z)
| EvCompAddr (r : ring) (pos addr : Z)
| EvRxDesc (r : ring) (pos addr len : Z)
| EvReserve (r : ring) (nb n idx : Z)
| EvFillAddr (r : ring) (pos addr : Z)
| EvTxDesc (r : ring) (pos addr len : Z)
| EvSubmit (r : ring) (nb : Z)
| EvNbFree (r : ring) (nb n : Z)
| EvNeedsWakeup (r : ring) (b : bool)
| EvPoll (sock : nat) (ev : pollev) (timeout : Z)
| EvSendto (sock : nat)
| EvUsleep (us : Z)
| EvSetAffinity (cpu : Z)
| EvPrint (msg : string).

(** [struct thread_data] of xdp_fwd2.c: two arrays of
    [MAX_PORTS_PER_THREAD] port pointers ([None] is NULL). *)
Record thread_data := {
  ports_rx : list (option nat);
  ports_tx : list (option nat);
  n_ports_rx : Z;
  cpu_core_id : Z
}.

(** The file-scope variables of xdp_fwd2.c. *)
Record globals := {
  g_port_params : list port_params;
  g_ports : list (option nat);
  n_ports : Z;
  g_thread_data : list thread_data;
  n_threads : Z
}.

Record world := {
  oracle : nat -> Z;          (* answers of kernel, libxdp and libc *)
  clock : nat;                (* index of the next answer *)
  trace : list event;         (* newest first *)
  umem : option umem_mgr;     (* the manager object, None before creation *)
  umem_area : gmap Z byte;    (* bytes of the mapping; absent keys read 0 *)
  ports : list port;          (* the struct port objects ever calloc'ed *)
  globs : globals
}.

Definition set_clock (c : nat) (w : world) : world :=
  {| oracle := oracle w; clock := c; trace := trace w; umem := umem w;
     umem_area := umem_area w; ports := ports w; globs := globs w |}.
Definition set_trace (t : list event) (w : world) : world :=
  {| oracle := oracle w; clock := clock w; trace := t; umem := umem w;
     umem_area := umem_area w; ports := ports w; globs := globs w |}.
Definition set_umem (u : option umem_mgr) (w : world) : world :=
  {| oracle := oracle w; clock := clock w; trace := trace w; umem := u;
     umem_area := umem_area w; ports := ports w; globs := globs w |}.
Definition set_umem_area (m : gmap Z byte) (w : world) : world :=
  {| oracle := oracle w; clock := clock w; trace := trace w; umem := umem w;
     umem_area := m; ports := ports w; globs := globs w |}.
Definition set_ports (ps : list port) (w : world) : world :=
  {| oracle := oracle w; clock := clock w; trace := trace w; umem := umem w;
     umem_area := umem_area w; ports := ps; globs := globs w |}.
Definition set_globs (g : globals) (w : world) : world :=
  {| oracle := oracle w; clock := clock w; trace := trace w; umem := umem w;
     umem_area := umem_area w; ports := ports w; globs := g |}.

(* ===================================================================== *)
(** * The monad: state, faults and fuel *)

Inductive stop :=
| Faulted (f : fault)   (* undefined behaviour reached *)
| OutOfFuel.            (* a spin loop was cut by the model *)

Inductive outcome (A : Type) :=
| Done (a : A) (w : world)
| Stop (s : stop) (w : world).
Arguments Done {A} a w.
Arguments Stop {A} s w.

Definition M (A : Type) : Type := world -> outcome A.

Definition ret {A} (a : A) : M A := fun w => Done a w.

Definition bind {A B} (m : M A) (f : A -> M B) : M B :=
  fun w => match m w with
           | Done a w' => f a w'
           | Stop s w' => Stop s w'
           end.

Declare Scope fwd_scope.
Delimit Scope fwd_scope with fwd.
Notation "x <- m ;; k" := (bind m (fun x => k))
  (at level 100, m at next level, right associativity) : fwd_scope.
Notation "m ;; k" := (bind m (fun _ => k))
  (at level 100, right associativity) : fwd_scope.
Local Open Scope fwd_scope.

(** The world an outcome ends in. *)
Definition final {A} (o : outcome A) : world :=
  match o with Done _ w => w | Stop _ w => w end.

Definition crash {A} (f : fault) : M A := fun w => Stop (Faulted f) w.
Definition out_of_fuel {A} : M A := fun w => Stop OutOfFuel w.

Definition ask : M Z :=
  fun w => Done (oracle w (clock w)) (set_clock (S (clock w)) w).
Definition ask_u32 : M Z := v <- ask ;; ret (u32 v).
Definition ask_u64 : M Z := v <- ask ;; ret (u64 v).
Definition ask_int : M Z := v <- ask ;; ret (s32 v).

Definition emit (e : event) : M unit :=
  fun w => Done tt (set_trace (e :: trace w) w).

(** Dereference of a [struct umem_mgr *]. *)
Definition get_umem : M umem_mgr :=
  fun w => match umem w with
           | Some u => Done u w
           | None => Stop (Faulted NullDeref) w
           end.

(** Run a freelist operation on the manager. *)
Definition with_umem {A} (f : umem_mgr -> res (A * umem_mgr)) : M A :=
  fun w => match umem w with
           | None => Stop (Faulted NullDeref) w
           | Some u => match f u with
                       | Ok (a, u') => Done a (set_umem (Some u') w)
                       | Fault e => Stop (Faulted e) w
                       end
           end.

Definition with_umem_ (f : umem_mgr -> res umem_mgr) : M unit :=
  with_umem (fun u => match f u with Ok u' => Ok (tt, u') | Fault e => Fault e end).

(** Read-modify-write of one [struct port]. *)
Definition update_port (p : nat) (f : port -> port) : M unit :=
  fun w => match ports w !! p with
           | Some q => Done tt (set_ports (<[p := f q]> (ports w)) w)
           | None => Stop (Faulted NullDeref) w
           end.

Definition get_globs : M globals := fun w => Done (globs w) w.
Definition put_globs (g : globals) : M unit := fun w => Done tt (set_globs g w).

(* ===================================================================== *)
(** * Calls into libc, the kernel and libxdp

    Each call records an event; what it returns is the oracle's next
    answer, narrowed to the C type of the result. *)

Definition ask_bool : M bool := v <- ask ;; ret (negb (v =? 0)).

Definition setrlimit_memlock : M Z :=
  rc <- ask_int ;; emit (EvSetrlimit rc) ;; ret rc.
Definition calloc (o : obj) : M bool :=
  ok <- ask_bool ;; emit (EvCalloc o ok) ;; ret ok.
Definition malloc (o : obj) : M bool :=
  ok <- ask_bool ;; emit (EvMalloc o ok) ;; ret ok.
Definition free (o : obj) : M unit := emit (EvFree o).
Definition mmap (len flags : Z) : M bool :=
  ok <- ask_bool ;; emit (EvMmap len flags ok) ;; ret ok.
Definition munmap (len : Z) : M unit := emit (EvMunmap len).
Definition xsk_umem__create (len : Z) : M Z :=
  st <- ask_int ;; emit (EvUmemCreate len st) ;; ret st.
Definition xsk_umem__delete : M unit := emit EvUmemDelete.
Definition pthread_mutex_init : M Z :=
  rc <- ask_int ;; emit (EvMutexInit rc) ;; ret rc.
Definition pthread_mutex_destroy : M unit := emit EvMutexDestroy.
Definition print (msg : string) : M unit := emit (EvPrint msg).

Definition xsk_ring_cons__peek (r : ring) (nb : Z) : M (Z * Z) :=
  n <- ask_u32 ;; idx <- ask_u32 ;; emit (EvPeek r nb n idx) ;; ret (n, idx).
Definition xsk_ring_cons__release (r : ring) (nb : Z) : M unit :=
  emit (EvConsRelease r nb).
Definition xsk_ring_cons__comp_addr (r : ring) (pos : Z) : M Z :=
  a <- ask_u64 ;; emit (EvCompAddr r pos a) ;; ret a.
Definition xsk_ring_cons__rx_desc (r : ring) (pos : Z) : M (Z * Z) :=
  a <- ask_u64 ;; l <- ask_u32 ;; emit (EvRxDesc r pos a l) ;; ret (a, l).
Definition xsk_ring_prod__reserve (r : ring) (nb : Z) : M (Z * Z) :=
  n <- ask_u32 ;; idx <- ask_u32 ;; emit (EvReserve r nb n idx) ;; ret (n, idx).
Definition xsk_ring_prod__fill_addr (r : ring) (pos addr : Z) : M unit :=
  emit (EvFillAddr r pos addr).
Definition xsk_ring_prod__tx_desc (r : ring) (pos addr len : Z) : M unit :=
  emit (EvTxDesc r pos addr len).
Definition xsk_ring_prod__submit (r : ring) (nb : Z) : M unit :=
  emit (EvSubmit r nb).
Definition xsk_ring_prod__needs_wakeup (r : ring) : M bool :=
  b <- ask_bool ;; emit (EvNeedsWakeup r b) ;; ret b.
Definition xsk_prod_nb_free (r : ring) (nb : Z) : M Z :=
  n <- ask_u32 ;; emit (EvNbFree r nb n) ;; ret n.
Definition poll (sock : nat) (ev : pollev) (timeout : Z) : M unit :=
  emit (EvPoll sock ev timeout).
Definition sendto (sock : nat) : M unit := emit (EvSendto sock).
Definition usleep (us : Z) : M unit := emit (EvUsleep us).

(** [xsk_socket__create_shared(&p->xsk, ...)]: the socket pointer is set
    when the status is 0. *)
Definition set_xsk (b : bool) (q : port) : port :=
  {| params := params q; xsk := b; umem_fq_initialized := umem_fq_initialized q;
     n_pkts_rx := n_pkts_rx q; n_pkts_tx := n_pkts_tx q |}.
Definition set_params (pr : port_params) (q : port) : port :=
  {| params := pr; xsk := xsk q; umem_fq_initialized := umem_fq_initialized q;
     n_pkts_rx := n_pkts_rx q; n_pkts_tx := n_pkts_tx q |}.
Definition set_umem_fq_initialized (v : Z) (q : port) : port :=
  {| params := params q; xsk := xsk q; umem_fq_initialized := v;
     n_pkts_rx := n_pkts_rx q; n_pkts_tx := n_pkts_tx q |}.
Definition incr_n_pkts_rx (q : port) : port :=
  {| params := params q; xsk := xsk q; umem_fq_initialized := umem_fq_initialized q;
     n_pkts_rx := u64 (n_pkts_rx q + 1); n_pkts_tx := n_pkts_tx q |}.
Definition incr_n_pkts_tx (q : port) : port :=
  {| params := params q; xsk := xsk q; umem_fq_initialized := umem_fq_initialized q;
     n_pkts_rx := n_pkts_rx q; n_pkts_tx := u64 (n_pkts_tx q + 1) |}.

Definition xsk_socket__create_shared (p : nat) (pr : port_params) : M Z :=
  st <- ask_int ;;
  emit (EvSocketCreate p (iface pr) (iface_queue pr) st) ;;
  (if st =? 0 then update_port p (set_xsk true) else ret tt) ;;
  ret st.

Definition zero_port : port :=
  {| params := {| xsk_cfg := {| rx_size := 0; tx_size := 0; libxdp_flags := 0;
                                xdp_flags := 0; bind_flags := 0 |};
                  iface := None; iface_queue := 0 |};
     xsk := false; umem_fq_initialized := 0; n_pkts_rx := 0; n_pkts_tx := 0 |}.

(** [calloc(1, sizeof(struct port))]: a zeroed object at a fresh index. *)
Definition calloc_port : M (option nat) :=
  fun w =>
    let p := length (ports w) in
    match calloc (ObjPort p) w with
    | Done true w' => Done (Some p) (set_ports (ports w' ++ [zero_port]) w')
    | Done false w' => Done None w'
    | Stop s w' => Stop s w'
    end.

Definition get_port (p : nat) : M port :=
  fun w => match ports w !! p with
           | Some q => Done q w
           | None => Stop (Faulted NullDeref) w
           end.

(** [port_free]: identical in both files. *)
Definition port_free (p : nat) : M unit :=
  q <- get_port p ;;
  (if xsk q then emit (EvSocketDelete p) else ret tt) ;;
  free (ObjPort p).

(** The loop [for (i = 0; i < got; i++) *fill_addr(fq, pos + i) = frames[i];]
    over the [got] addresses popped. *)
Fixpoint fill_loop (r : ring) (pos : Z) (frames : list Z) (i : Z) : M unit :=
  match frames with
  | [] => ret tt
  | a :: rest =>
      xsk_ring_prod__fill_addr r (u32 (pos + i)) a ;;
      fill_loop r pos rest (i + 1)
  end.

(** ** The UMEM area *)

Definition load_byte (m : gmap Z byte) (a : Z) : byte := default x00 (m !! a).

(** [total_sz = (size_t)n_frames * frame_size]. *)
Definition total_sz (nf fs : Z) : Z := u64 (nf * fs).

Definition load_bytes (a : Z) (n : nat) : M (list byte) :=
  u <- get_umem ;;
  if (0 <=? a) && (a + Z.of_nat n <=? total_sz (n_frames u) (frame_size u))
  then fun w => Done (map (fun k => load_byte (umem_area w) (a + Z.of_nat k)) (seq 0 n)) w
  else crash (OobLoad a).

Fixpoint write_bytes (m : gmap Z byte) (a : Z) (bs : list byte) : gmap Z byte :=
  match bs with
  | [] => m
  | b :: bs' => write_bytes (<[a := b]> m) (a + 1) bs'
  end.

Definition store_bytes (a : Z) (bs : list byte) : M unit :=
  u <- get_umem ;;
  if (0 <=? a) && (a + Z.of_nat (length bs) <=? total_sz (n_frames u) (frame_size u))
  then fun w => Done tt (set_umem_area (write_bytes (umem_area w) a bs) w)
  else crash (OobStore a).

(** [struct ether_header]: [ether_dhost] at offset 0, [ether_shost] at
    offset [ETH_ALEN], each [ETH_ALEN] bytes. *)
Definition ETH_ALEN : nat := 6.

(** Constants of the libxdp and kernel headers the defaults are built
    from; the headers are not part of the repository. *)
Record xsk_defs := {
  XSK_UMEM__DEFAULT_FRAME_SIZE : Z;
  XSK_RING_PROD__DEFAULT_NUM_DESCS : Z;
  XSK_RING_CONS__DEFAULT_NUM_DESCS : Z;
  XSK_UMEM__DEFAULT_FRAME_HEADROOM : Z;
  XDP_FLAGS_DRV_MODE : Z;
  XDP_USE_NEED_WAKEUP : Z
}.

(** [arr[i]] and [arr[i] = f(arr[i])] on a fixed-size array. *)
Definition load_at {A} (arr : list A) (i : Z) : M A :=
  match (if 0 <=? i then arr !! Z.to_nat i else None) with
  | Some x => ret x
  | None => crash (OobLoad i)
  end.

Definition store_at {A} (arr : list A) (i : Z) (f : A -> A) : M (list A) :=
  match (if 0 <=? i then arr !! Z.to_nat i else None) with
  | Some x => ret (<[Z.to_nat i := f x]> arr)
  | None => crash (OobStore i)
  end.

Definition set_g_port_params (v : list port_params) (g : globals) : globals :=
  {| g_port_params := v; g_ports := g_ports g; n_ports := n_ports g;
     g_thread_data := g_thread_data g; n_threads := n_threads g |}.
Definition set_g_ports (v : list (option nat)) (g : globals) : globals :=
  {| g_port_params := g_port_params g; g_ports := v; n_ports := n_ports g;
     g_thread_data := g_thread_data g; n_threads := n_threads g |}.
Definition set_n_ports (v : Z) (g : globals) : globals :=
  {| g_port_params := g_port_params g; g_ports := g_ports g; n_ports := v;
     g_thread_data := g_thread_data g; n_threads := n_threads g |}.
Definition set_g_thread_data (v : list thread_data) (g : globals) : globals :=
  {| g_port_params := g_port_params g; g_ports := g_ports g; n_ports := n_ports g;
     g_thread_data := v; n_threads := n_threads g |}.
Definition set_n_threads (v : Z) (g : globals) : globals :=
  {| g_port_params := g_port_params g; g_ports := g_ports g; n_ports := n_ports g;
     g_thread_data := g_thread_data g; n_threads := v |}.

Definition set_cpu_core_id (v : Z) (t : thread_data) : thread_data :=
  {| ports_rx := ports_rx t; ports_tx := ports_tx t; n_ports_rx := n_ports_rx t;
     cpu_core_id := v |}.
Definition set_ports_rx (v : list (option nat)) (t : thread_data) : thread_data :=
  {| ports_rx := v; ports_tx := ports_tx t; n_ports_rx := n_ports_rx t;
     cpu_core_id := cpu_core_id t |}.
Definition set_ports_tx (v : list (option nat)) (t : thread_data) : thread_data :=
  {| ports_rx := ports_rx t; ports_tx := v; n_ports_rx := n_ports_rx t;
     cpu_core_id := cpu_core_id t |}.
Definition set_n_ports_rx (v : Z) (t : thread_data) : thread_data :=
  {| ports_rx := ports_rx t; ports_tx := ports_tx t; n_ports_rx := v;
     cpu_core_id := cpu_core_id t |}.
Definition set_iface (v : option string) (pr : port_params) : port_params :=
  {| xsk_cfg := xsk_cfg pr; iface := v; iface_queue := iface_queue pr |}.
Definition set_iface_queue (v : Z) (pr : port_params) : port_params :=
  {| xsk_cfg := xsk_cfg pr; iface := iface pr; iface_queue := v |}.

(** What [getopt_long(argc, argv, "c:i:q:", ...)] returns, call after call,
    until EOF. *)
Inductive cli_opt :=
| OptC (optarg : string)
| OptI (optarg : string)
| OptQ (optarg : string)
| OptUnknown.

(** How [main] is left in the model: by [return], or with every worker's
    [thread_data] wired, at the point where the threads are created. *)
Inductive main_result :=
| Exit (code : Z)
| Launch.

Module Fwd2.

(** xdp_fwd2.c, [umem_alloc]: returns [(got, out, u')]. *)
Definition umem_alloc (u : umem_mgr) (want : Z) : res (Z * list Z * umem_mgr) :=
  let got := if want <=? free_top u then want else free_top u in
  match umem_alloc_loop (Z.to_nat got) u [] with
  | Ok (out, u') => Ok (got, out, u')
  | Fault f => Fault f
  end.

(** xdp_fwd2.c, [umem_free_one]: the push is not guarded. *)
Definition umem_free_one (u : umem_mgr) (addr : Z) : res umem_mgr :=
  push_frame u addr.

Definition MAX_PORTS_PER_THREAD : Z := 16.
Definition MAX_PORTS : Z := 64.
Definition MAX_THREADS : Z := 64.

(** xdp_fwd2.c, [umem_mgr_create]; [None] is the NULL result. *)
Definition umem_mgr_create (pp : umem_mgr_params) (cfg : xsk_umem_config)
  : M (option umem_mgr) :=
  let sz := total_sz (pp_n_frames pp) (pp_frame_size pp) in
  rc <- setrlimit_memlock ;;
  if negb (rc =? 0) then print "setrlimit RLIMIT_MEMLOCK" ;; ret None else
  ok <- calloc ObjUmemMgr ;;
  if negb ok then ret None else
  ok <- mmap sz (pp_mmap_flags pp) ;;
  if negb ok then print "mmap UMEM" ;; free ObjUmemMgr ;; ret None else
  st <- xsk_umem__create sz ;;
  if negb (st =? 0) then
    print "xsk_umem__create failed: %d" ;;
    munmap sz ;; free ObjUmemMgr ;; ret None
  else
  ok <- malloc ObjFreeAddrs ;;
  if negb ok then
    xsk_umem__delete ;; munmap sz ;; free ObjUmemMgr ;; ret None
  else
  let fa := map (fun i => u64 (Z.of_nat i * pp_frame_size pp))
                (seq 0 (Z.to_nat (pp_n_frames pp))) in
  rc <- pthread_mutex_init ;;
  if negb (rc =? 0) then
    free ObjFreeAddrs ;; xsk_umem__delete ;; munmap sz ;;
    free ObjUmemMgr ;; ret None
  else
  ret (Some {| umem_cfg := cfg; free_addrs := fa; free_top := pp_n_frames pp;
               n_frames := pp_n_frames pp; frame_size := pp_frame_size pp;
               fq_initialized := 0 |}).

(** xdp_fwd2.c, [port_init]; [None] is the NULL result. *)
Definition port_init (pr : port_params) : M (option nat) :=
  po <- calloc_port ;;
  match po with
  | None => ret None
  | Some p =>
      update_port p (set_params pr) ;;
      status <- xsk_socket__create_shared p pr ;;
      if negb (status =? 0) then
        print "xsk_socket__create_shared(%s,%u) failed: %d" ;;
        port_free p ;; ret None
      else
      u <- get_umem ;;
      let need := fill_size (umem_cfg u) in
      if 0 <? need then
        let need := if 4096 <? need then 4096 else need in
        a <- with_umem (fun u => umem_alloc u need) ;;
        let got := a.1 in
        let tmp := a.2 in
        if got =? 0 then
          print "Initial UMEM FQ fill: no frames" ;;
          port_free p ;; ret None
        else
        r <- xsk_ring_prod__reserve (PORT_FQ p) got ;;
        if negb (s32 r.1 =? s32 got) then
          print "FQ reserve %u got %d" ;;
          port_free p ;; ret None
        else
        fill_loop (PORT_FQ p) r.2 tmp 0 ;;
        xsk_ring_prod__submit (PORT_FQ p) got ;;
        update_port p (set_umem_fq_initialized 1) ;;
        ret (Some p)
      else ret (Some p)
  end.

(** xdp_fwd2.c, [swap_mac_addresses]; [data] is the offset of the packet
    in the UMEM area. *)
Definition swap_mac_addresses (data : Z) : M unit :=
  let src_addr := data + Z.of_nat ETH_ALEN in
  let dst_addr := data in
  tmp <- load_bytes src_addr ETH_ALEN ;;
  d <- load_bytes dst_addr ETH_ALEN ;;
  store_bytes src_addr d ;;
  store_bytes dst_addr tmp.

(** The loop [for (i = 0; i < n; i++) umem_free_one(u, *comp_addr(cq, pos + i));]. *)
Fixpoint cq_loop (k : nat) (r : ring) (pos i : Z) : M unit :=
  match k with
  | O => ret tt
  | S k' =>
      addr <- xsk_ring_cons__comp_addr r (u32 (pos + i)) ;;
      with_umem_ (fun u => umem_free_one u addr) ;;
      cq_loop k' r pos (i + 1)
  end.

(** Peek up to [want] completions of [tx], free them, release them: block 1
    of [port_pump_once], and again inside block 5 with [want = 64]. *)
Definition recycle_completions (tx : nat) (want : Z) : M unit :=
  c <- xsk_ring_cons__peek (PORT_CQ tx) want ;;
  cq_loop (Z.to_nat c.1) (PORT_CQ tx) c.2 0 ;;
  if negb (c.1 =? 0) then xsk_ring_cons__release (PORT_CQ tx) c.1 else ret tt.

(** [while (xsk_ring_prod__reserve(&tx->txq, 1, &tpos) != 1) ...] *)
Fixpoint tx_reserve_loop (fuel : nat) (tx : nat) : M Z :=
  match fuel with
  | O => out_of_fuel
  | S fuel' =>
      r <- xsk_ring_prod__reserve (TXQ tx) 1 ;;
      if r.1 =? 1 then ret r.2
      else
        b <- xsk_ring_prod__needs_wakeup (TXQ tx) ;;
        (if b then sendto tx else ret tt) ;;
        tx_reserve_loop fuel' tx
  end.

(** [while (umem_alloc(rx->params.u, 1, &fresh) != 1) ...] *)
Fixpoint fresh_frame_loop (fuel : nat) (rx tx : nat) : M Z :=
  match fuel with
  | O => out_of_fuel
  | S fuel' =>
      a <- with_umem (fun u => umem_alloc u 1) ;;
      if a.1 =? 1 then
        match a.2 with
        | fresh :: _ => ret fresh
        | [] => crash (OobLoad 0)  (* not reached: out[0] was written *)
        end
      else
        b <- xsk_ring_prod__needs_wakeup (PORT_FQ rx) ;;
        (if b then poll rx POLLIN 0 else ret tt) ;;
        recycle_completions tx 64 ;;
        fresh_frame_loop fuel' rx tx
  end.

(** [while (xsk_ring_prod__reserve(&rx->umem_fq, 1, &fpos) != 1) ...] *)
Fixpoint fq_reserve_loop (fuel : nat) (rx : nat) : M Z :=
  match fuel with
  | O => out_of_fuel
  | S fuel' =>
      r <- xsk_ring_prod__reserve (PORT_FQ rx) 1 ;;
      if r.1 =? 1 then ret r.2
      else
        b <- xsk_ring_prod__needs_wakeup (PORT_FQ rx) ;;
        (if b then poll rx POLLIN 0 else ret tt) ;;
        fq_reserve_loop fuel' rx
  end.

Section Pump.

(** libxdp's [xsk_umem__add_offset_to_addr]: the packet offset a ring
    address denotes ([xsk_umem__get_data] adds it to the area's base). *)
Variable xsk_umem__add_offset_to_addr : Z -> Z.

(** Blocks 4 and 5 of [port_pump_once]: put [(addr, len)] on the TX ring,
    then post one fresh frame on the Fill ring. *)
Definition transmit_and_replenish (fuel : nat) (rx tx : nat) (addr len : Z) : M Z :=
  tpos <- tx_reserve_loop fuel tx ;;
  xsk_ring_prod__tx_desc (TXQ tx) tpos addr len ;;
  xsk_ring_prod__submit (TXQ tx) 1 ;;
  b <- xsk_ring_prod__needs_wakeup (TXQ tx) ;;
  (if b then sendto tx else ret tt) ;;
  update_port tx incr_n_pkts_tx ;;
  fresh <- fresh_frame_loop fuel rx tx ;;
  fpos <- fq_reserve_loop fuel rx ;;
  xsk_ring_prod__fill_addr (PORT_FQ rx) fpos fresh ;;
  xsk_ring_prod__submit (PORT_FQ rx) 1 ;;
  ret 1.

(** The rest of [port_pump_once] once a descriptor was peeked at [rpos]:
    read it, release it, swap the MAC addresses (block 3), forward. *)
Definition forward_peeked (fuel : nat) (rx tx : nat) (rpos : Z) : M Z :=
  d <- xsk_ring_cons__rx_desc (RXQ rx) rpos ;;
  let addr := d.1 in
  let len := d.2 in
  xsk_ring_cons__release (RXQ rx) 1 ;;
  update_port rx incr_n_pkts_rx ;;
  swap_mac_addresses (xsk_umem__add_offset_to_addr addr) ;;
  transmit_and_replenish fuel rx tx addr len.

(** xdp_fwd2.c, [port_pump_once].  [fuel] bounds each of the three spin
    loops. *)
Definition port_pump_once (fuel : nat) (rx tx : nat) : M Z :=
  u <- get_umem ;;
  let want := comp_size (umem_cfg u) in
  let want := if want =? 0 then 64 else want in
  recycle_completions tx want ;;
  c <- xsk_ring_cons__peek (RXQ rx) 1 ;;
  if c.1 =? 0 then
    b <- xsk_ring_prod__needs_wakeup (PORT_FQ rx) ;;
    (if b then poll rx POLLIN 0 else ret tt) ;;
    ret 0
  else forward_peeked fuel rx tx c.2.

(** The update expression of the worker's [for]:
    [i = (i + 1) & (t->n_ports_rx - 1)] on [u32]. *)
Definition next_slot (n i : Z) : Z := Z.land (u32 (i + 1)) (u32 (n - 1)).

(** Read [arr[i]] of an array of port pointers and dereference it. *)
Definition port_at (arr : list (option nat)) (i : Z) : M nat :=
  match arr !! Z.to_nat i with
  | Some (Some p) => ret p
  | Some None => crash NullDeref
  | None => crash (OobLoad i)
  end.

(** The [for] loop of [thread_func].  [t->quit] is written by the main
    thread; each test of it takes the oracle's next answer. *)
Fixpoint thread_loop (iters fuel : nat) (t : thread_data) (i : Z) : M unit :=
  match iters with
  | O => out_of_fuel
  | S iters' =>
      quit <- ask_bool ;;
      if quit then ret tt
      else
        rx <- port_at (ports_rx t) i ;;
        tx <- port_at (ports_tx t) i ;;
        port_pump_once fuel rx tx ;;
        thread_loop iters' fuel t (next_slot (n_ports_rx t) i)
  end.

(** xdp_fwd2.c, [thread_func]. *)
Definition thread_func (iters fuel : nat) (t : thread_data) : M unit :=
  emit (EvSetAffinity (cpu_core_id t)) ;;
  thread_loop iters fuel t 0.

End Pump.

Section Main.

Variable atoi : string -> Z.
Variable hdr : xsk_defs.

Definition umem_params_default : umem_mgr_params :=
  {| pp_n_frames := 64 * 1024;
     pp_frame_size := XSK_UMEM__DEFAULT_FRAME_SIZE hdr;
     pp_mmap_flags := 0 |}.

Definition umem_cfg_default : xsk_umem_config :=
  {| fill_size := XSK_RING_PROD__DEFAULT_NUM_DESCS hdr * 2;
     comp_size := XSK_RING_CONS__DEFAULT_NUM_DESCS hdr;
     cfg_frame_size := XSK_UMEM__DEFAULT_FRAME_SIZE hdr;
     frame_headroom := XSK_UMEM__DEFAULT_FRAME_HEADROOM hdr;
     cfg_flags := 0 |}.

Definition port_params_default : port_params :=
  {| xsk_cfg := {| rx_size := XSK_RING_CONS__DEFAULT_NUM_DESCS hdr;
                   tx_size := XSK_RING_PROD__DEFAULT_NUM_DESCS hdr;
                   libxdp_flags := 0;
                   xdp_flags := XDP_FLAGS_DRV_MODE hdr;
                   bind_flags := XDP_USE_NEED_WAKEUP hdr |};
     iface := None;
     iface_queue := 0 |}.

(** The [for (;;)] of [parse_args]: [Some v] is [return v] from inside the
    loop, [None] is the [break] at EOF.  The counters are bounded by
    [MAX_THREADS] and [MAX_PORTS]. *)
Fixpoint getopt_loop (opts : list cli_opt) : M (option Z) :=
  match opts with
  | [] => ret None
  | opt :: rest =>
      g <- get_globs ;;
      match opt with
      | OptC optarg =>
          if n_threads g =? MAX_THREADS then
            print "Max threads (%d) reached." ;; ret (Some (-1))
          else
            tds <- store_at (g_thread_data g) (n_threads g)
                            (set_cpu_core_id (u32 (atoi optarg))) ;;
            put_globs (set_n_threads (n_threads g + 1) (set_g_thread_data tds g)) ;;
            getopt_loop rest
      | OptI optarg =>
          if n_ports g =? MAX_PORTS then
            print "Max ports (%d) reached." ;; ret (Some (-1))
          else
            pps <- store_at (g_port_params g) (n_ports g)
                            (fun pr => set_iface_queue 0 (set_iface (Some optarg) pr)) ;;
            put_globs (set_n_ports (n_ports g + 1) (set_g_port_params pps g)) ;;
            getopt_loop rest
      | OptQ optarg =>
          if n_ports g =? 0 then
            print "No port specified for queue." ;; ret (Some (-1))
          else
            pps <- store_at (g_port_params g) (n_ports g - 1)
                            (set_iface_queue (u32 (atoi optarg))) ;;
            put_globs (set_g_port_params pps g) ;;
            getopt_loop rest
      | OptUnknown =>
          print "Illegal argument." ;; ret (Some (-1))
      end
  end.

(** xdp_fwd2.c, [parse_args]. *)
Definition parse_args (opts : list cli_opt) : M Z :=
  r <- getopt_loop opts ;;
  match r with
  | Some v => ret v
  | None =>
      g <- get_globs ;;
      if n_ports g =? 0 then print "No ports specified." ;; ret (-1) else
      if n_threads g =? 0 then print "No threads specified." ;; ret (-1) else
      if negb (Z.rem (n_ports g) (n_threads g) =? 0) then
        print "Ports cannot be evenly distributed to threads." ;; ret (-1)
      else ret 0
  end.

(** [for (i = 0; i < n_ports; i++) ports[i] = port_init(&port_params[i]); ...];
    [false] is the [return -1] inside the loop. *)
Fixpoint init_ports (k : nat) (i : Z) : M bool :=
  match k with
  | O => ret true
  | S k' =>
      g <- get_globs ;;
      pr <- load_at (g_port_params g) i ;;
      po <- port_init pr ;;
      tbl <- store_at (g_ports g) i (fun _ => po) ;;
      put_globs (set_g_ports tbl g) ;;
      match po with
      | None => print "Port %d initialization failed." ;; ret false
      | Some _ =>
          print "Port %u: interface = %s, queue = %u" ;;
          init_ports k' (i + 1)
      end
  end.

(** The inner wiring loop over [j < n_ports_per_thread] for thread [i]. *)
Fixpoint wire_ports (k : nat) (tbl : list (option nat)) (i npt j : Z)
    (t : thread_data) : M thread_data :=
  match k with
  | O => ret t
  | S k' =>
      prx <- load_at tbl (u32 (i * npt + j)) ;;
      rxs <- store_at (ports_rx t) j (fun _ => prx) ;;
      ptx <- load_at tbl (u32 (i * npt + u32 (j + 1) mod npt)) ;;
      txs <- store_at (ports_tx t) j (fun _ => ptx) ;;
      wire_ports k' tbl i npt (j + 1) (set_ports_tx txs (set_ports_rx rxs t))
  end.

(** The outer wiring loop over [i < n_threads]. *)
Fixpoint wire_threads (k : nat) (i : Z) : M unit :=
  match k with
  | O => ret tt
  | S k' =>
      g <- get_globs ;;
      let npt := u32 (Z.quot (n_ports g) (n_threads g)) in
      t <- load_at (g_thread_data g) i ;;
      t' <- wire_ports (Z.to_nat npt) (g_ports g) i npt 0 t ;;
      tds <- store_at (g_thread_data g) i (fun _ => set_n_ports_rx npt t') ;;
      put_globs (set_g_thread_data tds g) ;;
      print "Thread %u (CPU core %u): " ;;
      wire_threads k' (i + 1)
  end.

(** xdp_fwd2.c, [main], up to the creation of the worker threads. *)
Definition main (opts : list cli_opt) : M main_result :=
  g <- get_globs ;;
  put_globs (set_g_port_params
               (replicate (Z.to_nat MAX_PORTS) port_params_default) g) ;;
  r <- parse_args opts ;;
  if negb (r =? 0) then print "Usage:" ;; ret (Exit (-1)) else
  um <- umem_mgr_create umem_params_default umem_cfg_default ;;
  match um with
  | None => print "UMEM creation failed." ;; ret (Exit (-1))
  | Some u =>
      (fun w => Done tt (set_umem (Some u) w)) ;;
      print "UMEM created: %u frames x %u bytes" ;;
      g <- get_globs ;;
      ok <- init_ports (Z.to_nat (n_ports g)) 0 ;;
      if negb ok then ret (Exit (-1)) else
      print "All ports created successfully." ;;
      g <- get_globs ;;
      wire_threads (Z.to_nat (n_threads g)) 0 ;;
      ret Launch
  end.

End Main.

(** The process image at [exec]: statics are zero, nothing is allocated. *)
Definition zero_thread_data : thread_data :=
  {| ports_rx := replicate (Z.to_nat MAX_PORTS_PER_THREAD) None;
     ports_tx := replicate (Z.to_nat MAX_PORTS_PER_THREAD) None;
     n_ports_rx := 0; cpu_core_id := 0 |}.

Definition initial_world (o : nat -> Z) : world :=
  {| oracle := o; clock := O; trace := []; umem := None; umem_area := ∅;
     ports := [];
     globs := {| g_port_params := replicate (Z.to_nat MAX_PORTS) (params zero_port);
                 g_ports := replicate (Z.to_nat MAX_PORTS) None;
                 n_ports := 0;
                 g_thread_data := replicate (Z.to_nat MAX_THREADS) zero_thread_data;
                 n_threads := 0 |} |}.

(** xdp_fwd2.c, [umem_mgr_destroy]; [None] is the NULL argument.  The
    manager object does not exist afterwards. *)
Definition umem_mgr_destroy (u : option umem_mgr) : M unit :=
  match u with
  | None => ret tt
  | Some u =>
      let sz := total_sz (n_frames u) (frame_size u) in
      pthread_mutex_destroy ;;
      free ObjFreeAddrs ;;
      xsk_umem__delete ;;
      munmap sz ;;
      free ObjUmemMgr ;;
      (fun w => Done tt (set_umem None w))
  end.

End Fwd2.

Module Refactored.

(** xdp_fwd2_refactored.c, [umem_alloc]. *)
Definition umem_alloc (u : umem_mgr) (want : Z) : res (Z * list Z * umem_mgr) :=
  if want =? 0 then Ok (0, [], u)
  else
    let avail := free_top u in
    let want := if avail <? want then avail else want in
    match umem_alloc_loop (Z.to_nat want) u [] with
    | Ok (out, u') => Ok (want, out, u')
    | Fault f => Fault f
    end.

(** The loop of [umem_free] over [addrs[0 .. count)]. *)
Fixpoint umem_free_loop (addrs : list Z) (u : umem_mgr) : res umem_mgr :=
  match addrs with
  | [] => Ok u
  | a :: rest =>
      if free_top u <? n_frames u
      then match push_frame u a with
           | Ok u' => umem_free_loop rest u'
           | Fault f => Fault f
           end
      else umem_free_loop rest u
  end.

(** xdp_fwd2_refactored.c, [umem_free(u, count, addrs)]; the list is
    [addrs[0 .. count)]. *)
Definition umem_free (u : umem_mgr) (addrs : list Z) : res umem_mgr :=
  if Z.of_nat (length addrs) =? 0 then Ok u else umem_free_loop addrs u.

Definition umem_free_one (u : umem_mgr) (addr : Z) : res umem_mgr :=
  umem_free u [addr].

(** xdp_fwd2_refactored.c, [umem_mgr_create]; [None] is the NULL result. *)
Definition umem_mgr_create (pp : umem_mgr_params) (cfg : xsk_umem_config)
  : M (option umem_mgr) :=
  let sz := total_sz (pp_n_frames pp) (pp_frame_size pp) in
  rc <- setrlimit_memlock ;;
  if negb (rc =? 0) then print "setrlimit RLIMIT_MEMLOCK" ;; ret None else
  ok <- calloc ObjUmemMgr ;;
  if negb ok then ret None else
  ok <- mmap sz (pp_mmap_flags pp) ;;
  if negb ok then print "mmap UMEM" ;; free ObjUmemMgr ;; ret None else
  st <- xsk_umem__create sz ;;
  if negb (st =? 0) then
    print "xsk_umem__create failed: %d" ;;
    munmap sz ;; free ObjUmemMgr ;; ret None
  else
  ok <- malloc ObjFreeAddrs ;;
  if negb ok then
    xsk_umem__delete ;; munmap sz ;; free ObjUmemMgr ;; ret None
  else
  let fa := map (fun i => u64 (Z.of_nat i * pp_frame_size pp))
                (seq 0 (Z.to_nat (pp_n_frames pp))) in
  rc <- pthread_mutex_init ;;
  if negb (rc =? 0) then
    free ObjFreeAddrs ;; xsk_umem__delete ;; munmap sz ;;
    free ObjUmemMgr ;; ret None
  else
  ret (Some {| umem_cfg := cfg; free_addrs := fa; free_top := pp_n_frames pp;
               n_frames := pp_n_frames pp; frame_size := pp_frame_size pp;
               fq_initialized := 0 |}).

(** xdp_fwd2_refactored.c, [umem_mgr_fill_fq]. *)
Definition umem_mgr_fill_fq (want : Z) : M Z :=
  if want =? 0 then ret 0 else
  a <- with_umem (fun u => umem_alloc u want) ;;
  let got := a.1 in
  let frames := a.2 in
  if got =? 0 then ret 0 else
  r <- xsk_ring_prod__reserve UMEM_FQ got ;;
  let reserved := s32 r.1 in
  if negb (reserved =? s32 got) then
    with_umem_ (fun u => umem_free u frames) ;;
    ret (if reserved <? 0 then reserved else 0)
  else
    fill_loop UMEM_FQ r.2 frames 0 ;;
    xsk_ring_prod__submit UMEM_FQ got ;;
    ret (s32 got).

(** The loop [for (i = 0; i < n; i++) umem_free_one(u, *comp_addr(cq, pos + i));]. *)
Fixpoint cq_loop (k : nat) (r : ring) (pos i : Z) : M unit :=
  match k with
  | O => ret tt
  | S k' =>
      addr <- xsk_ring_cons__comp_addr r (u32 (pos + i)) ;;
      with_umem_ (fun u => umem_free_one u addr) ;;
      cq_loop k' r pos (i + 1)
  end.

(** xdp_fwd2_refactored.c, [umem_mgr_process_cq]. *)
Definition umem_mgr_process_cq : M unit :=
  c <- xsk_ring_cons__peek UMEM_CQ 64 ;;
  cq_loop (Z.to_nat c.1) UMEM_CQ c.2 0 ;;
  if negb (c.1 =? 0) then xsk_ring_cons__release UMEM_CQ c.1 else ret tt.

(** xdp_fwd2_refactored.c, [umem_mgr_init_fq]. *)
Definition umem_mgr_init_fq : M Z :=
  u <- get_umem ;;
  if negb (fq_initialized u =? 0) then ret 0 else
  let want := fill_size (umem_cfg u) in
  let want := if want =? 0 then 64 else want in
  filled <- umem_mgr_fill_fq want ;;
  if filled <=? 0 then
    print "Failed to initialize FQ with %u frames" ;; ret (-1)
  else
    with_umem_ (fun u => Ok (set_fq_initialized 1 u)) ;;
    print "Initialized FQ with %d frames" ;;
    ret 0.

(** xdp_fwd2_refactored.c, [port_init]. *)
Definition port_init (pr : port_params) : M (option nat) :=
  po <- calloc_port ;;
  match po with
  | None => ret None
  | Some p =>
      update_port p (set_params pr) ;;
      status <- xsk_socket__create_shared p pr ;;
      if negb (status =? 0) then
        print "xsk_socket__create_shared(%s,%u) failed: %d" ;;
        port_free p ;; ret None
      else ret (Some p)
  end.

(** [while (xsk_ring_prod__reserve(&tx->txq, 1, &tpos) != 1) ...] *)
Fixpoint tx_reserve_loop (fuel : nat) (tx : nat) : M Z :=
  match fuel with
  | O => out_of_fuel
  | S fuel' =>
      r <- xsk_ring_prod__reserve (TXQ tx) 1 ;;
      if r.1 =? 1 then ret r.2
      else
        b <- xsk_ring_prod__needs_wakeup (TXQ tx) ;;
        (if b then poll tx POLLOUT 0 else ret tt) ;;
        tx_reserve_loop fuel' tx
  end.

(** xdp_fwd2_refactored.c, [forward_one_packet].  [fuel] bounds the spin
    on the TX ring. *)
Definition forward_one_packet (fuel : nat) (rx tx : nat) : M Z :=
  umem_mgr_process_cq ;;
  c <- xsk_ring_cons__peek (RXQ rx) 1 ;;
  if c.1 =? 0 then
    b <- xsk_ring_prod__needs_wakeup UMEM_FQ ;;
    (if b then poll rx POLLIN 0 else ret tt) ;;
    ret 0
  else
    d <- xsk_ring_cons__rx_desc (RXQ rx) c.2 ;;
    let addr := d.1 in
    let len := d.2 in
    tpos <- tx_reserve_loop fuel tx ;;
    xsk_ring_prod__tx_desc (TXQ tx) tpos addr len ;;
    xsk_ring_prod__submit (TXQ tx) 1 ;;
    xsk_ring_cons__release (RXQ rx) 1 ;;
    b <- xsk_ring_prod__needs_wakeup (TXQ tx) ;;
    (if b then poll tx POLLOUT 0 else ret tt) ;;
    u <- get_umem ;;
    fq_free <- xsk_prod_nb_free UMEM_FQ (fill_size (umem_cfg u)) ;;
    (if fill_size (umem_cfg u) / 2 <? fq_free
     then umem_mgr_fill_fq fq_free ;; ret tt
     else ret tt) ;;
    update_port rx incr_n_pkts_rx ;;
    update_port tx incr_n_pkts_tx ;;
    ret 1.

(** [struct thread_data] of the refactored file: [t_ports] is the array
    the [ports] pointer designates. *)
Record thread_data := {
  t_thread_id : Z;
  t_ports : list nat;
  t_n_ports : Z
}.

(** [for (j = 0; j < t->n_ports; j++) if (i != j) forwarded += ...] *)
Fixpoint sweep_tx (k fuel : nat) (t : thread_data) (i j forwarded : Z) : M Z :=
  match k with
  | O => ret forwarded
  | S k' =>
      if negb (i =? j) then
        rx <- load_at (t_ports t) i ;;
        tx <- load_at (t_ports t) j ;;
        r <- forward_one_packet fuel rx tx ;;
        sweep_tx k' fuel t i (j + 1) (s32 (forwarded + r))
      else sweep_tx k' fuel t i (j + 1) forwarded
  end.

(** [for (i = 0; i < t->n_ports; i++) ...] *)
Fixpoint sweep_rx (k fuel : nat) (t : thread_data) (i forwarded : Z) : M Z :=
  match k with
  | O => ret forwarded
  | S k' =>
      f <- sweep_tx (Z.to_nat (t_n_ports t)) fuel t i 0 forwarded ;;
      sweep_rx k' fuel t (i + 1) f
  end.

(** [while (!*t->stop_flag) ...]: the flag is set by the signal handler;
    each test of it takes the oracle's next answer. *)
Fixpoint thread_loop (iters fuel : nat) (t : thread_data) : M unit :=
  match iters with
  | O => out_of_fuel
  | S iters' =>
      stop_flag <- ask_bool ;;
      if stop_flag then ret tt
      else
        forwarded <- sweep_rx (Z.to_nat (t_n_ports t)) fuel t 0 0 ;;
        (if forwarded =? 0 then usleep 1 else ret tt) ;;
        thread_loop iters' fuel t
  end.

(** xdp_fwd2_refactored.c, [thread_func]. *)
Definition thread_func (iters fuel : nat) (t : thread_data) : M unit :=
  print "Thread %d: managing %u ports" ;;
  thread_loop iters fuel t.

(** xdp_fwd2_refactored.c, [umem_mgr_destroy]; [None] is the NULL
    argument.  The manager object does not exist afterwards. *)
Definition umem_mgr_destroy (u : option umem_mgr) : M unit :=
  match u with
  | None => ret tt
  | Some u =>
      let sz := total_sz (n_frames u) (frame_size u) in
      pthread_mutex_destroy ;;
      free ObjFreeAddrs ;;
      xsk_umem__delete ;;
      munmap sz ;;
      free ObjUmemMgr ;;
      (fun w => Done tt (set_umem None w))
  end.

Definition MAX_INTERFACES : Z := 8.
Definition MAX_THREADS : Z := 8.

(** How far [main] of xdp_fwd2_refactored.c got: it returned [rc]; or its
    cleanup loop tested [ports[i]], a slot of the local array that was
    never assigned; or every port exists, and the signal handlers and the
    threads come next. *)
Inductive startup :=
| Returned (rc : Z)
| ReadsUnassigned (i : Z)
| PortsCreated (n_threads : Z) (ports : list (option (option nat))).

Section Main.

Variable atoi : string -> Z.
Variable hdr : xsk_defs.

(** [const char *interfaces[] = {"veth0s8", "veth0s1"}; u32 n_interfaces = 2;] *)
Definition interfaces : list string := ["veth0s8"; "veth0s1"].
Definition n_interfaces : Z := 2.

(** [n_threads] after [if (argc > 1) { n_threads = atoi(argv[1]); ... }];
    [None] is [argc == 1]. *)
Definition parse_n_threads (argv1 : option string) : Z :=
  match argv1 with
  | None => 1
  | Some s =>
      let n_threads := u32 (atoi s) in
      let n_threads := if n_threads =? 0 then 1 else n_threads in
      if MAX_THREADS <? n_threads then MAX_THREADS else n_threads
  end.

(** The [struct port_params] built for interface [ifname]; the members
    the initialiser leaves out are zero. *)
Definition port_params_for (ifname : string) : port_params :=
  {| xsk_cfg := {| rx_size := XSK_RING_CONS__DEFAULT_NUM_DESCS hdr;
                   tx_size := XSK_RING_PROD__DEFAULT_NUM_DESCS hdr;
                   libxdp_flags := 0;
                   xdp_flags := 0;
                   bind_flags := XDP_USE_NEED_WAKEUP hdr |};
     iface := Some ifname;
     iface_queue := 0 |}.

(** [for (i = 0; i < n_interfaces; i++) { ports[i] = port_init(...); ... }].
    A slot of the local array [ports] is [None] until it is assigned;
    [false] is the [goto cleanup]. *)
Fixpoint create_ports (k : nat) (i : Z) (ports : list (option (option nat)))
  : M (bool * list (option (option nat))) :=
  match k with
  | O => ret (true, ports)
  | S k' =>
      ifname <- load_at interfaces i ;;
      po <- port_init (port_params_for ifname) ;;
      ports <- store_at ports i (fun _ => Some po) ;;
      match po with
      | None => print "Failed to create port %u (%s)" ;; ret (false, ports)
      | Some _ =>
          print "Created port %u: %s" ;;
          create_ports k' (i + 1) ports
      end
  end.

(** [for (i = 0; i < n_interfaces; i++) if (ports[i]) port_free(ports[i]);]
    [Some i]: the test read the unassigned slot [i]. *)
Fixpoint cleanup_ports (k : nat) (i : Z) (ports : list (option (option nat)))
  : M (option Z) :=
  match k with
  | O => ret None
  | S k' =>
      slot <- load_at ports i ;;
      match slot with
      | None => ret (Some i)
      | Some None => cleanup_ports k' (i + 1) ports
      | Some (Some p) => port_free p ;; cleanup_ports k' (i + 1) ports
      end
  end.

(** xdp_fwd2_refactored.c, [main], up to the creation of the ports and,
    where that fails, through [cleanup]. *)
Definition main (argv1 : option string) : M startup :=
  let n_threads := parse_n_threads argv1 in
  let n_frames := 4096 in
  let frame_size := XSK_UMEM__DEFAULT_FRAME_SIZE hdr in
  print "AF_XDP Forwarder (Refactored)" ;;
  print "Interfaces: %u, Threads: %u, Frames: %u" ;;
  um <- umem_mgr_create
          {| pp_n_frames := n_frames; pp_frame_size := frame_size;
             pp_mmap_flags := 0 |}
          {| fill_size := XSK_RING_PROD__DEFAULT_NUM_DESCS hdr;
             comp_size := XSK_RING_CONS__DEFAULT_NUM_DESCS hdr;
             cfg_frame_size := frame_size;
             frame_headroom := XSK_UMEM__DEFAULT_FRAME_HEADROOM hdr;
             cfg_flags := 0 |} ;;
  match um with
  | None => print "Failed to create UMEM manager" ;; ret (Returned 1)
  | Some u =>
      (fun w => Done tt (set_umem (Some u) w)) ;;
      r <- umem_mgr_init_fq ;;
      if r <? 0 then
        u <- get_umem ;; umem_mgr_destroy (Some u) ;; ret (Returned 1)
      else
      c <- create_ports (Z.to_nat n_interfaces) 0
                        (replicate (Z.to_nat MAX_INTERFACES) None) ;;
      if c.1 then ret (PortsCreated n_threads c.2) else
      bad <- cleanup_ports (Z.to_nat n_interfaces) 0 c.2 ;;
      match bad with
      | Some i => ret (ReadsUnassigned i)
      | None =>
          u <- get_umem ;; umem_mgr_destroy (Some u) ;;
          print "Shutdown complete" ;;
          ret (Returned 0)
      end
  end.

End Main.

(** [u32 ports_per_thread = n_interfaces / n_threads;
     if (ports_per_thread == 0) ports_per_thread = 1;] *)
Definition ports_per_thread (n_threads : Z) : Z :=
  let q := Z.quot n_interfaces n_threads in
  if q =? 0 then 1 else q.

(** Thread [i] is handed [&ports[first_port]] and told it has
    [share_n_ports] ports:
    [n_ports = (i == n_threads - 1) ? n_interfaces - (i * ports_per_thread)
                                    : ports_per_thread]. *)
Definition first_port (n_threads i : Z) : Z :=
  u32 (i * ports_per_thread n_threads).

Definition share_n_ports (n_threads i : Z) : Z :=
  if i =? u32 (n_threads - 1)
  then u32 (n_interfaces - u32 (i * ports_per_thread n_threads))
  else ports_per_thread n_threads.

End Refactored.

(* ===================================================================== *)
(** * Sample inputs *)

Definition demo_cfg : xsk_umem_config :=
  {| fill_size := 2; comp_size := 2; cfg_frame_size := 16;
     frame_headroom := 0; cfg_flags := 0 |}.

(** Four frames of 16 bytes, all free. *)
Definition demo_umem : umem_mgr :=
  {| umem_cfg := demo_cfg;
     free_addrs := [0; 16; 32; 48]; free_top := 4; n_frames := 4;
     frame_size := 16; fq_initialized := 0 |}.

(** The same manager with two frames handed out. *)
Definition demo_umem_half : umem_mgr :=
  {| umem_cfg := demo_cfg;
     free_addrs := [0; 16; 32; 48]; free_top := 2; n_frames := 4;
     frame_size := 16; fq_initialized := 0 |}.

(** ** Sequences of freelist calls *)

Inductive freelist_op :=
| OpAlloc (want : Z)
| OpFree (addrs : list Z)
| OpFreeOne (addr : Z).

(** One call of the refactored file's freelist interface. *)
Definition refactored_call (o : freelist_op) (u : umem_mgr) : res umem_mgr :=
  match o with
  | OpAlloc want =>
      match Refactored.umem_alloc u want with
      | Ok (_, u') => Ok u'
      | Fault f => Fault f
      end
  | OpFree addrs => Refactored.umem_free u addrs
  | OpFreeOne addr => Refactored.umem_free_one u addr
  end.

Fixpoint refactored_calls (ops : list freelist_op) (u : umem_mgr) : res umem_mgr :=
  match ops with
  | [] => Ok u
  | o :: rest =>
      match refactored_call o u with
      | Ok u' => refactored_calls rest u'
      | Fault f => Fault f
      end
  end.

(** [want] is a [u32]. *)
Definition op_args_ok (o : freelist_op) : Prop :=
  match o with
  | OpAlloc want => 0 <= want
  | _ => True
  end.

(** ** Resource discipline of a trace *)

#[global] Instance obj_eq_dec : EqDecision obj.
Proof. solve_decision. Defined.

#[global] Instance ring_eq_dec : EqDecision ring.
Proof. solve_decision. Defined.

(** The resource a successful call hands out. *)
Definition acquired (e : event) : option obj :=
  match e with
  | EvCalloc o true => Some o
  | EvMalloc o true => Some o
  | EvMmap _ _ true => Some ObjMapping
  | EvUmemCreate _ 0 => Some ObjKernelUmem
  | EvMutexInit 0 => Some ObjMutex
  | EvSocketCreate p _ _ 0 => Some (ObjSocket p)
  | _ => None
  end.

(** The resource a call gives back. *)
Definition released (e : event) : option obj :=
  match e with
  | EvFree o => Some o
  | EvMunmap _ => Some ObjMapping
  | EvUmemDelete => Some ObjKernelUmem
  | EvSocketDelete p => Some (ObjSocket p)
  | _ => None
  end.

(** Replay events, oldest first, on a stack of held resources: an
    acquisition pushes; a release must name the top of the stack and pops
    it.  [None]: some release was out of order. *)
Fixpoint held_after (evs : list event) (stack : list obj) : option (list obj) :=
  match evs with
  | [] => Some stack
  | e :: rest =>
      match acquired e, released e with
      | Some o, _ => held_after rest (o :: stack)
      | None, Some o =>
          match stack with
          | top :: below => if decide (o = top) then held_after rest below else None
          | [] => None
          end
      | None, None => held_after rest stack
      end
  end.

(** A call that reported failure. *)
Definition step_failed (e : event) : bool :=
  match e with
  | EvSetrlimit rc => negb (rc =? 0)
  | EvCalloc _ ok => negb ok
  | EvMalloc _ ok => negb ok
  | EvMmap _ _ ok => negb ok
  | EvUmemCreate _ st => negb (st =? 0)
  | EvMutexInit rc => negb (rc =? 0)
  | EvSocketCreate _ _ _ st => negb (st =? 0)
  | _ => false
  end.

(** ** Vocabulary for the command line *)

Definition is_OptI (o : cli_opt) : bool :=
  match o with OptI _ => true | _ => false end.

Definition is_print (e : event) : bool :=
  match e with EvPrint _ => true | _ => false end.

(** What [getopt_loop] relies on before any [-i] was seen. *)
Definition no_port_yet (w : world) : Prop :=
  n_ports (globs w) = 0 /\
  0 <= n_threads (globs w) <= Fwd2.MAX_THREADS /\
  Z.of_nat (length (g_thread_data (globs w))) = Fwd2.MAX_THREADS.

Definition demo_hdr : xsk_defs :=
  {| XSK_UMEM__DEFAULT_FRAME_SIZE := 4096;
     XSK_RING_PROD__DEFAULT_NUM_DESCS := 2048;
     XSK_RING_CONS__DEFAULT_NUM_DESCS := 2048;
     XSK_UMEM__DEFAULT_FRAME_HEADROOM := 0;
     XDP_FLAGS_DRV_MODE := 4;
     XDP_USE_NEED_WAKEUP := 8 |}.

(** A stand-in for [atoi] on sample inputs: the length of the text. *)
Definition demo_atoi (s : string) : Z := Z.of_nat (String.length s).

(** An oracle answering from a list, then 0 for ever. *)
Definition answers (l : list Z) : nat -> Z := fun n => nth n l 0.

(** ** Vocabulary for the worker loop *)

(** The slot the worker of xdp_fwd2.c services in its iteration [k]
    (counting from 0): the loop variable after [k] updates. *)
Definition slot_in_iteration (n : Z) (k : nat) : Z :=
  Nat.iter k (Fwd2.next_slot n) 0.

(** The rings peeked in a trace, oldest first. *)
Definition peeked (tr : list event) : list ring :=
  omap (fun e => match e with EvPeek r _ _ _ => Some r | _ => None end)
       (reverse tr).

(** libxdp's definition of [xsk_umem__add_offset_to_addr], used on sample
    inputs: the low 48 bits plus the offset kept in the high 16. *)
Definition demo_add_offset (addr : Z) : Z :=
  Z.land addr (2 ^ 48 - 1) + Z.shiftr addr 48.

(** A running process with [n] ports over [demo_umem]. *)
Definition demo_world (o : nat -> Z) (n : nat) : world :=
  {| oracle := o; clock := O; trace := []; umem := Some demo_umem;
     umem_area := ∅; ports := replicate n zero_port;
     globs := set_n_threads 1
                (set_n_ports (Z.of_nat n)
                   (set_g_ports (map Some (seq 0 n)
                                 ++ replicate (Z.to_nat Fwd2.MAX_PORTS - n) None)
                      (globs (Fwd2.initial_world o)))) |}.

(** The cohort of a single worker over three ports. *)
Definition demo_thread3 : thread_data :=
  {| ports_rx := [Some 0; Some 1; Some 2]%nat ++ replicate 13 None;
     ports_tx := [Some 1; Some 2; Some 0]%nat ++ replicate 13 None;
     n_ports_rx := 3; cpu_core_id := 0 |}.

(** ** Vocabulary for traces and frames *)

(** The ring whose needs-wakeup flag a wakeup syscall answers to, in
    xdp_fwd2.c: [poll(POLLIN)] on a socket serves that port's Fill ring,
    [sendto] (and [poll(POLLOUT)]) its TX ring. *)
Definition fwd2_wakeup_ring (e : event) : option ring :=
  match e with
  | EvPoll s POLLIN _ => Some (PORT_FQ s)
  | EvPoll s POLLOUT _ => Some (TXQ s)
  | EvSendto s => Some (TXQ s)
  | _ => None
  end.

(** The same for the refactored file, where the Fill ring is the UMEM's. *)
Definition refactored_wakeup_ring (e : event) : option ring :=
  match e with
  | EvPoll s POLLIN _ => Some UMEM_FQ
  | EvPoll s POLLOUT _ => Some (TXQ s)
  | EvSendto s => Some (TXQ s)
  | _ => None
  end.

(** Every wakeup syscall of the trace (newest first) comes directly after
    a needs-wakeup test of its ring that answered true. *)
Fixpoint wakeups_guarded (wr : event -> option ring) (tr : list event) : bool :=
  match tr with
  | [] => true
  | e :: older =>
      match wr e with
      | None => true
      | Some r =>
          match older with
          | EvNeedsWakeup r' true :: _ => bool_decide (r = r')
          | _ => false
          end
      end && wakeups_guarded wr older
  end.

(** Consumer-side operations on ring [c]. *)
Definition consumes_from (c : ring) (e : event) : bool :=
  match e with
  | EvPeek r _ _ _ => bool_decide (r = c)
  | EvCompAddr r _ _ => bool_decide (r = c)
  | EvConsRelease r _ => bool_decide (r = c)
  | _ => false
  end.

(** Neither an RX descriptor read nor a TX descriptor write. *)
Definition not_desc (e : event) : bool :=
  match e with
  | EvRxDesc _ _ _ _ => false
  | EvTxDesc _ _ _ _ => false
  | _ => true
  end.

(** The trace grew by a segment satisfying [P]. *)
Definition grows_by (P : list event -> Prop) (t t' : list event) : Prop :=
  exists new, t' = new ++ t /\ P new.

Definition all_events (q : event -> bool) (new : list event) : Prop :=
  forallb q new = true.

Definition guarded_by (wr : event -> option ring) (new : list event) : Prop :=
  wakeups_guarded wr new = true.

(** The freelist only received pushes. *)
Definition freelist_grows (o o' : option umem_mgr) : Prop :=
  forall u, o = Some u -> umem_wf u ->
    exists u', o' = Some u' /\ umem_wf u' /\ freelist u `prefix_of` freelist u'.

(** Whatever the outcome, component [f] of the world moved along [r]. *)
Definition keeps {A F} (f : world -> F) (r : F -> F -> Prop) (m : M A) : Prop :=
  forall w, r (f w) (f (final (m w))).

(** What a pump that found the RX ring empty must look like, from the world
    [w] it started in to the world [w2] it returns in: [cq] is what
    draining the completion ring [c] recorded, [idx] and [b] are the
    position the RX peek reported and the Fill ring's needs-wakeup flag. *)
Definition rx_empty_return (c fq : ring) (rx : nat) (u : umem_mgr)
    (w w2 : world) (idx : Z) (b : bool) : Prop :=
  exists u2 cq,
    trace w2 = (if b then [EvPoll rx POLLIN 0] else [])
               ++ [EvNeedsWakeup fq b; EvPeek (RXQ rx) 1 0 idx]
               ++ cq ++ trace w /\
    forallb (consumes_from c) cq = true /\
    umem w2 = Some u2 /\ umem_wf u2 /\ freelist u `prefix_of` freelist u2 /\
    ports w2 = ports w /\ umem_area w2 = umem_area w.

(** Between the areas [m] and [m'] the two 6-byte fields of the Ethernet
    header at offset [o] are exchanged and every other byte is the same. *)
Definition macs_swapped (m m' : gmap Z byte) (o : Z) : Prop :=
  (forall k, 0 <= k < 6 ->
     load_byte m' (o + k) = load_byte m (o + 6 + k) /\
     load_byte m' (o + 6 + k) = load_byte m (o + k)) /\
  (forall a, ~ (o <= a < o + 12) -> load_byte m' a = load_byte m a).

(** No RX descriptor is read, and a TX descriptor written is
    [(addr, len)] on the TX ring of port [tx]. *)
Definition forwards (tx : nat) (addr len : Z) (e : event) : bool :=
  match e with
  | EvRxDesc _ _ _ _ => false
  | EvTxDesc r _ a l =>
      bool_decide (r = TXQ tx) && bool_decide (a = addr) && bool_decide (l = len)
  | _ => true
  end.

(** A received frame: twelve header bytes 1..12 at offset 16. *)
Definition demo_area : gmap Z byte :=
  write_bytes ∅ 16 [x01; x02; x03; x04; x05; x06; x07; x08; x09; x0a; x0b; x0c]%byte.

(** What a pump, started in [w] and ending (returned or cut) in [wf], did
    to the packet it put on the TX ring: every TX descriptor it wrote is on
    the TX ring of [tx], carries the address and length of an RX descriptor
    it read from [rx], and the frame's MAC fields are exchanged with respect
    to the bytes the pump started from. *)
Definition forwarded_swapped (off : Z -> Z) (rx tx : nat) (w wf : world) : Prop :=
  exists new,
    trace wf = new ++ trace w /\
    forall r tpos addr len,
      In (EvTxDesc r tpos addr len) new ->
      r = TXQ tx /\
      (exists rpos, In (EvRxDesc (RXQ rx) rpos addr len) new) /\
      macs_swapped (umem_area w) (umem_area wf) (off addr).

(** What a pump that applies no transform, started in [w] and ending
    (returned or cut) in [wf], put on the TX ring: every TX descriptor it
    wrote is on the TX ring of [tx] and carries the address and length of
    an RX descriptor it read from [rx]. *)
Definition forwarded_as_read (rx tx : nat) (w wf : world) : Prop :=
  exists new,
    trace wf = new ++ trace w /\
    forall r tpos addr len,
      In (EvTxDesc r tpos addr len) new ->
      r = TXQ tx /\ exists rpos, In (EvRxDesc (RXQ rx) rpos addr len) new.

(** No constraint on the new events: the trace only grew. *)
Definition any_events (new : list event) : Prop := True.

(** Two ports over [demo_umem_half]; the frame at address 16 holds a
    received packet.  The oracle: no completion; one RX descriptor at
    position 5, address 16, length 60; the TX reserve succeeds at position
    7; no wakeup needed; (xdp_fwd2.c) the Fill reserve succeeds at position
    3, (refactored) the Fill ring reports 1 free slot. *)
Definition demo_rx_world (o : nat -> Z) : world :=
  set_umem_area demo_area (set_umem (Some demo_umem_half) (demo_world o 2)).

Definition demo_fwd2_answers : list Z := [0; 0; 1; 5; 16; 60; 1; 7; 0; 1; 3].
Definition demo_refactored_answers : list Z := [0; 0; 1; 5; 16; 60; 1; 7; 0; 1].

(** Neither an address written to a producer ring nor a submit. *)
Definition posts_nothing (e : event) : bool :=
  match e with
  | EvFillAddr _ _ _ => false
  | EvTxDesc _ _ _ _ => false
  | EvSubmit _ _ => false
  | _ => true
  end.


(** Nothing to drain, nothing received, the Fill ring wants a wakeup. *)
Definition demo_idle_world : world := demo_world (answers [0; 0; 0; 0; 1]) 2.

(* ===================================================================== *)
(** * Vocabulary of the further properties *)

(** ** Frames and the freelist interface of xdp_fwd2.c *)

(** [a] is the start of a frame of the area [u] manages. *)
Definition frame_of (u : umem_mgr) (a : Z) : Prop :=
  0 <= a /\ a + frame_size u <= total_sz (n_frames u) (frame_size u) /\
  a mod frame_size u = 0.

(** The freelist interface of xdp_fwd2.c. *)
Inductive fwd2_op :=
| F2Alloc (want : Z)
| F2FreeOne (addr : Z).

Definition fwd2_call (o : fwd2_op) (u : umem_mgr) : res umem_mgr :=
  match o with
  | F2Alloc want =>
      match Fwd2.umem_alloc u want with
      | Ok (_, u') => Ok u'
      | Fault f => Fault f
      end
  | F2FreeOne addr => Fwd2.umem_free_one u addr
  end.

Fixpoint fwd2_calls (ops : list fwd2_op) (u : umem_mgr) : res umem_mgr :=
  match ops with
  | [] => Ok u
  | o :: rest =>
      match fwd2_call o u with
      | Ok u' => fwd2_calls rest u'
      | Fault f => Fault f
      end
  end.

(** The same call on the refactored interface. *)
Definition as_refactored (o : fwd2_op) : freelist_op :=
  match o with
  | F2Alloc want => OpAlloc want
  | F2FreeOne addr => OpFreeOne addr
  end.

(** [want] is a [u32]. *)
Definition fwd2_op_ok (o : fwd2_op) : Prop :=
  match o with F2Alloc want => 0 <= want | F2FreeOne _ => True end.

(** ** Command lines *)

Definition is_OptC (o : cli_opt) : bool :=
  match o with OptC _ => true | _ => false end.

Definition is_OptUnknown (o : cli_opt) : bool :=
  match o with OptUnknown => true | _ => false end.

Fixpoint count_opt (p : cli_opt -> bool) (opts : list cli_opt) : Z :=
  match opts with
  | [] => 0
  | o :: rest => (if p o then 1 else 0) + count_opt p rest
  end.

(** A [-q] comes before any [-i]. *)
Fixpoint q_first (opts : list cli_opt) : bool :=
  match opts with
  | [] => false
  | OptQ _ :: _ => true
  | OptI _ :: _ => false
  | _ :: rest => q_first rest
  end.

(** The checks of [parse_args] in closed form: known options only, at
    most [MAX_THREADS] cores and [MAX_PORTS] interfaces, every [-q] after
    some [-i], at least one of each, and the interfaces divide evenly
    among the cores. *)
Definition cli_accepts (opts : list cli_opt) : bool :=
  forallb (fun o => negb (is_OptUnknown o)) opts &&
  (count_opt is_OptI opts <=? Fwd2.MAX_PORTS) &&
  (count_opt is_OptC opts <=? Fwd2.MAX_THREADS) &&
  negb (q_first opts) &&
  (0 <? count_opt is_OptI opts) && (0 <? count_opt is_OptC opts) &&
  (count_opt is_OptI opts mod count_opt is_OptC opts =? 0).

Section CliTables.

Variable atoi : string -> Z.

(** The queue of the interface named last: the value of the last [-q]
    before the next [-i], [q] when there is none. *)
Fixpoint queue_for (opts : list cli_opt) (q : Z) : Z :=
  match opts with
  | [] => q
  | OptQ s :: rest => queue_for rest (u32 (atoi s))
  | OptI _ :: _ => q
  | _ :: rest => queue_for rest q
  end.

(** The interfaces of a command line, in order, each with its queue. *)
Fixpoint cli_ifaces (opts : list cli_opt) : list (string * Z) :=
  match opts with
  | [] => []
  | OptI s :: rest => (s, queue_for rest 0) :: cli_ifaces rest
  | _ :: rest => cli_ifaces rest
  end.

(** The cores of a command line, in order. *)
Fixpoint cli_cores (opts : list cli_opt) : list Z :=
  match opts with
  | [] => []
  | OptC s :: rest => u32 (atoi s) :: cli_cores rest
  | _ :: rest => cli_cores rest
  end.

End CliTables.

(** The world [main] of xdp_fwd2.c hands to [parse_args]: the process
    image at [exec] with the port table set to the defaults. *)
Definition cli_world (hdr : xsk_defs) (o : nat -> Z) : world :=
  set_globs (set_g_port_params
               (replicate (Z.to_nat Fwd2.MAX_PORTS) (Fwd2.port_params_default hdr))
               (globs (Fwd2.initial_world o)))
            (Fwd2.initial_world o).

(** The tables and counters are within their bounds. *)
Definition cli_state_ok (w : world) : Prop :=
  0 <= n_ports (globs w) <= Fwd2.MAX_PORTS /\
  0 <= n_threads (globs w) <= Fwd2.MAX_THREADS /\
  Z.of_nat (length (g_port_params (globs w))) = Fwd2.MAX_PORTS /\
  Z.of_nat (length (g_thread_data (globs w))) = Fwd2.MAX_THREADS.

(** [w'] differs from [w] in the file-scope variables and in what was
    printed. *)
Definition only_printed (w w' : world) : Prop :=
  oracle w' = oracle w /\ clock w' = clock w /\ umem w' = umem w /\
  umem_area w' = umem_area w /\ ports w' = ports w /\
  exists new, trace w' = new ++ trace w /\ forallb is_print new = true.

(** Acceptance by the option loop started with [np] ports and [nt]
    threads already counted. *)
Definition accepted_from (np nt : Z) (opts : list cli_opt) : bool :=
  forallb (fun o => negb (is_OptUnknown o)) opts &&
  (np + count_opt is_OptI opts <=? Fwd2.MAX_PORTS) &&
  (nt + count_opt is_OptC opts <=? Fwd2.MAX_THREADS) &&
  ((0 <? np) || negb (q_first opts)).

(** ** Resources, fills and the manager's configuration *)

(** The resource a call gives back, a destroyed mutex included. *)
Definition gives_back (e : event) : option obj :=
  match e with
  | EvMutexDestroy => Some ObjMutex
  | _ => released e
  end.

(** [held_after] with the releases of [gives_back]. *)
Fixpoint unwound_after (evs : list event) (stack : list obj) : option (list obj) :=
  match evs with
  | [] => Some stack
  | e :: rest =>
      match acquired e, gives_back e with
      | Some o, _ => unwound_after rest (o :: stack)
      | None, Some o =>
          match stack with
          | top :: below => if decide (o = top) then unwound_after rest below else None
          | [] => None
          end
      | None, None => unwound_after rest stack
      end
  end.

(** The Fill-ring writes of [fill_loop], oldest first. *)
Fixpoint fill_events (r : ring) (pos : Z) (frames : list Z) (i : Z) : list event :=
  match frames with
  | [] => []
  | a :: rest => EvFillAddr r (u32 (pos + i)) a :: fill_events r pos rest (i + 1)
  end.

(** The [got] frames on top of the freelist, the top one first: what a
    pop of [got] frames returns. *)
Definition popped (u : umem_mgr) (got : Z) : list Z :=
  reverse (drop (Z.to_nat (free_top u - got)) (freelist u)).

(** The manager is the same but for its freelist. *)
Definition same_config (o o' : option umem_mgr) : Prop :=
  forall u, o = Some u ->
    exists u', o' = Some u' /\
      umem_cfg u' = umem_cfg u /\ n_frames u' = n_frames u /\
      frame_size u' = frame_size u /\ fq_initialized u' = fq_initialized u /\
      length (free_addrs u') = length (free_addrs u).

(** ** The pump: counters, posts and spinning *)

(** The port table after one packet went from [rx] to [tx]. *)
Definition count_forwarded (rx tx : nat) (ps : list port) : list port :=
  alter incr_n_pkts_tx tx (alter incr_n_pkts_rx rx ps).

(** A call that creates, frees or fails to create a resource. *)
Definition resource_call (e : event) : bool :=
  match e with
  | EvSetrlimit _ | EvCalloc _ _ | EvMalloc _ _ | EvFree _ | EvMmap _ _ _
  | EvMunmap _ | EvUmemCreate _ _ | EvUmemDelete | EvMutexInit _ | EvMutexDestroy
  | EvSocketCreate _ _ _ _ | EvSocketDelete _ => true
  | _ => false
  end.

Definition no_resource_call (e : event) : bool := negb (resource_call e).

(** What an event puts on a producer ring, if anything. *)
Definition post_of (e : event) : option event :=
  if posts_nothing e then None else Some e.

(** [k] turns of the spin on the TX ring of [tx], none of which got the
    slot, newest event first.  The answers are read from [o] at [c] on,
    three a turn: what the reserve of one slot returned, the position it
    gave, and the needs-wakeup flag; where the flag is set the turn ends
    with the kick [kick]. *)
Fixpoint refused_reserves (kick : event) (tx : nat) (o : nat -> Z) (c k : nat)
  : list event :=
  match k with
  | O => []
  | S k' =>
      refused_reserves kick tx o (c + 3) k'
      ++ (if negb (o (c + 2)%nat =? 0) then [kick] else [])
      ++ [EvNeedsWakeup (TXQ tx) (negb (o (c + 2)%nat =? 0));
          EvReserve (TXQ tx) 1 (u32 (o c)) (u32 (o (c + 1)%nat))]
  end.

(** No completion; one RX descriptor at position 5, address 16, length
    60; then a TX ring that never has a slot and asks for a wakeup every
    other time, starting with the first. *)
Definition demo_tx_full : nat -> Z :=
  fun n => if (n <? 6)%nat then nth n [0; 0; 1; 5; 16; 60] 0
           else if (n mod 6 =? 2)%nat then 1 else 0.

(** ** Wiring the threads *)

(** What the wiring loops of [main] rely on: [T] threads share [K * T]
    initialised-or-not table entries, [K] of them each, and the arrays have
    their declared sizes. *)
Definition wiring_ready (K T : Z) (w : world) : Prop :=
  1 <= T /\ 1 <= K <= Fwd2.MAX_PORTS_PER_THREAD /\
  n_threads (globs w) = T /\ n_ports (globs w) = K * T /\
  K * T <= Fwd2.MAX_PORTS /\
  Z.of_nat (length (g_ports (globs w))) = Fwd2.MAX_PORTS /\
  T <= Z.of_nat (length (g_thread_data (globs w))) /\
  Forall (fun t => Z.of_nat (length (ports_rx t)) = Fwd2.MAX_PORTS_PER_THREAD /\
                   Z.of_nat (length (ports_tx t)) = Fwd2.MAX_PORTS_PER_THREAD)
         (g_thread_data (globs w)).


(** ** The capacity of the default pool *)

(** An oracle under which every call succeeds up to the seventeenth port
    of xdp_fwd2.c: the six calls of [umem_mgr_create], then for each port
    its [calloc], its socket, and (for the first sixteen) a Fill ring that
    reserves the 4096 slots asked for. *)
Definition grants_all (o : nat -> Z) : Prop :=
  s32 (o 0%nat) = 0 /\ o 1%nat <> 0 /\ o 2%nat <> 0 /\
  s32 (o 3%nat) = 0 /\ o 4%nat <> 0 /\ s32 (o 5%nat) = 0 /\
  forall i, (i < 17)%nat ->
    o (6 + 4 * i)%nat <> 0 /\ s32 (o (7 + 4 * i)%nat) = 0 /\
    ((i < 16)%nat -> s32 (u32 (o (8 + 4 * i)%nat)) = 4096).

(** Such an oracle. *)
Definition demo_grants_all : nat -> Z :=
  fun n => if (n <? 6)%nat then nth n [0; 1; 1; 0; 1; 0] 0
           else nth ((n - 6) mod 4) [1; 0; 4096; 0] 0.

(** [-c 0] and seventeen interfaces. *)
Definition demo_17_ports : list cli_opt :=
  OptC "0" :: map (fun _ => OptI "eth") (seq 0 17).

(** The state of [main] of xdp_fwd2.c before it initialises port [i]: the
    ports before it took 4096 frames each. *)
Definition ports_inited (o : nat -> Z) (i : Z) (w : world) : Prop :=
  oracle w = o /\ clock w = (6 + 4 * Z.to_nat i)%nat /\
  Z.of_nat (length (ports w)) = i /\
  Z.of_nat (length (g_port_params (globs w))) = 64 /\
  Z.of_nat (length (g_ports (globs w))) = 64 /\
  exists u, umem w = Some u /\ umem_wf u /\
            free_top u = 65536 - 4096 * i /\
            4096 <= fill_size (umem_cfg u).

(** ** Start-up of the refactored forwarder *)

(** The five resources of a manager, the one taken last first. *)
Definition manager_held : list obj :=
  [ObjMutex; ObjFreeAddrs; ObjKernelUmem; ObjMapping; ObjUmemMgr].

(** Answers under which the manager is created and the Fill ring takes
    the 2048 frames offered; [rest] answers the creation of the ports. *)
Definition demo_startup (rest : list Z) : nat -> Z :=
  answers ([0; 1; 1; 0; 1; 0; 2048; 0] ++ rest).

(** One port; the stop flag reads 0, 0, then 1. *)
Definition demo_lone_world : world := demo_world (answers [0; 0; 1]) 1.

(** A worker of the refactored file with one port. *)
Definition demo_lone_thread : Refactored.thread_data :=
  {| Refactored.t_thread_id := 0; Refactored.t_ports := [0%nat];
     Refactored.t_n_ports := 1 |}.

(** ** The way to the launch of the threads *)

(** An oracle under which [umem_mgr_create] succeeds and each of the
    first [n] ports gets its object, its socket and the 4096 Fill-ring
    slots it asks for. *)
Definition grants_ports (n : nat) (o : nat -> Z) : Prop :=
  s32 (o 0%nat) = 0 /\ o 1%nat <> 0 /\ o 2%nat <> 0 /\
  s32 (o 3%nat) = 0 /\ o 4%nat <> 0 /\ s32 (o 5%nat) = 0 /\
  forall i, (i < n)%nat ->
    o (6 + 4 * i)%nat <> 0 /\ s32 (o (7 + 4 * i)%nat) = 0 /\
    s32 (u32 (o (8 + 4 * i)%nat)) = 4096.

(** The two port arrays of a [struct thread_data] have their declared
    size. *)
Definition thread_arrays_ok (t : thread_data) : Prop :=
  Z.of_nat (length (ports_rx t)) = Fwd2.MAX_PORTS_PER_THREAD /\
  Z.of_nat (length (ports_tx t)) = Fwd2.MAX_PORTS_PER_THREAD.

(** Two threads, four interfaces. *)
Definition demo_two_rings : list cli_opt :=
  [OptC "0"; OptI "a"; OptI "b"; OptQ "1"; OptC "22"; OptI "c"; OptI "d"].

(* ===================================================================== *)
(** * Freelist: alloc, free, LIFO *)

Section FreelistFacts.

Lemma u32_small z : 0 <= z < 2 ^ 32 -> u32 z = z.
Proof. intros H. unfold u32. apply Z.mod_small. exact H. Qed.

Lemma umem_alloc_loop_spec n : forall u out,
  0 <= free_top u < 2 ^ 32 ->
  (n <= Z.to_nat (free_top u) <= length (free_addrs u))%nat ->
  umem_alloc_loop n u out =
    Ok (out ++ reverse (drop (Z.to_nat (free_top u) - n) (freelist u)),
        set_free (free_addrs u) (free_top u - Z.of_nat n) u).
Proof.
  induction n as [|n IH]; intros u out Htop Hn.
  - cbn [umem_alloc_loop]. unfold freelist.
    rewrite Nat.sub_0_r, drop_ge by (rewrite length_take; lia).
    rewrite app_nil_r, Z.sub_0_r. destruct u; reflexivity.
  - cbn [umem_alloc_loop].
    rewrite u32_small by lia.
    assert (Hlt : (Z.to_nat (free_top u - 1) < length (free_addrs u))%nat) by lia.
    destruct (lookup_lt_is_Some_2 _ _ Hlt) as [a Ha]. rewrite Ha.
    rewrite IH; cbn [free_top free_addrs set_free]; [|lia|lia].
    f_equal. f_equal.
    + rewrite <- app_assoc. f_equal. unfold freelist. cbn [free_top free_addrs].
      replace (Z.to_nat (free_top u - 1) - n)%nat
        with (Z.to_nat (free_top u) - S n)%nat by lia.
      set (t := Z.to_nat (free_top u)) in *.
      assert (Ht : Z.to_nat (free_top u - 1) = (t - 1)%nat) by lia.
      rewrite Ht in *.
      assert (Hsplit : take t (free_addrs u) = take (t - 1) (free_addrs u) ++ [a]).
      { replace t with (S (t - 1)) at 1 by lia. apply take_S_r, Ha. }
      rewrite Hsplit.
      rewrite drop_app_le by (rewrite length_take; lia).
      rewrite reverse_app. cbn. rewrite ?Ht. reflexivity.
    + unfold set_free. cbn. f_equal. lia.
Qed.

Lemma set_free_id u : set_free (free_addrs u) (free_top u) u = u.
Proof. destruct u; reflexivity. Qed.

Lemma umem_alloc_agree u want :
  0 <= want -> 0 <= free_top u ->
  Refactored.umem_alloc u want = Fwd2.umem_alloc u want.
Proof.
  intros Hw Ht. unfold Refactored.umem_alloc, Fwd2.umem_alloc.
  destruct (Z.eqb_spec want 0) as [->|Hne].
  - destruct (Z.leb_spec 0 (free_top u)); [|lia].
    cbn. rewrite set_free_id || idtac. reflexivity.
  - destruct (Z.ltb_spec (free_top u) want), (Z.leb_spec want (free_top u));
      try lia; reflexivity.
Qed.

Lemma fwd2_umem_alloc_spec u want :
  umem_wf u -> 0 <= want ->
  Fwd2.umem_alloc u want =
    Ok (Z.min want (free_top u),
        reverse (drop (Z.to_nat (free_top u - Z.min want (free_top u))) (freelist u)),
        set_free (free_addrs u) (free_top u - Z.min want (free_top u)) u).
Proof.
  intros (Hlen & Htop & Hn) Hw. unfold Fwd2.umem_alloc.
  assert (Hgot : (if want <=? free_top u then want else free_top u)
                 = Z.min want (free_top u)).
  { destruct (Z.leb_spec want (free_top u)); lia. }
  rewrite Hgot. set (got := Z.min want (free_top u)) in *.
  rewrite umem_alloc_loop_spec by lia.
  rewrite app_nil_l.
  replace (Z.to_nat (free_top u) - Z.to_nat got)%nat
    with (Z.to_nat (free_top u - got)) by lia.
  rewrite Z2Nat.id by lia. reflexivity.
Qed.

Lemma umem_alloc_pops_min_aux u want :
  umem_wf u -> 0 <= want ->
  exists out u', Refactored.umem_alloc u want = Ok (Z.min want (free_top u), out, u')
                 /\ umem_wf u'.
Proof.
  intros Hwf Hw. pose proof Hwf as (Hlen & Htop & Hn).
  rewrite umem_alloc_agree, fwd2_umem_alloc_spec by (assumption || lia).
  eexists _, _. split; [reflexivity|].
  unfold umem_wf. cbn. lia.
Qed.

End FreelistFacts.

(** C7.  For every well-formed freelist and every requested count [want],
    [umem_alloc] (both files) returns: it yields exactly
    [min(want, free_top)] addresses, [out[i]] being
    [free_addrs[free_top - 1 - i]], and lowers [free_top] by that count,
    leaving the array as it was. *)
Theorem umem_alloc_pops_min (u : umem_mgr) (want : Z) :
  umem_wf u -> 0 <= want ->
  exists out u',
    Fwd2.umem_alloc u want = Ok (Z.min want (free_top u), out, u') /\
    Refactored.umem_alloc u want = Ok (Z.min want (free_top u), out, u') /\
    Z.of_nat (length out) = Z.min want (free_top u) /\
    (forall i, 0 <= i < Z.min want (free_top u) ->
       is_Some (out !! Z.to_nat i) /\
       out !! Z.to_nat i = free_addrs u !! Z.to_nat (free_top u - 1 - i)) /\
    free_top u' = free_top u - Z.min want (free_top u) /\
    free_addrs u' = free_addrs u /\
    freelist u' = take (Z.to_nat (free_top u')) (freelist u) /\
    umem_wf u'.
Proof.
  intros Hwf Hw. pose proof Hwf as (Hlen & Htop & Hn).
  set (got := Z.min want (free_top u)).
  exists (reverse (drop (Z.to_nat (free_top u - got)) (freelist u))),
         (set_free (free_addrs u) (free_top u - got) u).
  assert (Hfl : length (freelist u) = Z.to_nat (free_top u)).
  { unfold freelist. rewrite length_take. lia. }
  assert (Hout : Z.of_nat (length (reverse (drop (Z.to_nat (free_top u - got))
                                              (freelist u)))) = got).
  { rewrite length_reverse, length_drop, Hfl. lia. }
  split; [apply fwd2_umem_alloc_spec; assumption|].
  split; [rewrite umem_alloc_agree by lia;
          apply fwd2_umem_alloc_spec; assumption|].
  split; [exact Hout|].
  split.
  - intros i Hi.
    assert (Hlook : reverse (drop (Z.to_nat (free_top u - got)) (freelist u))
                      !! Z.to_nat i
                    = free_addrs u !! Z.to_nat (free_top u - 1 - i)).
    { rewrite reverse_lookup by (rewrite length_drop, Hfl; lia).
      rewrite lookup_drop, length_drop, Hfl. unfold freelist.
      rewrite lookup_take_lt by lia. f_equal. lia. }
    split; [|exact Hlook].
    rewrite Hlook. apply lookup_lt_is_Some_2. lia.
  - unfold umem_wf, freelist. cbn. rewrite take_take.
    repeat split; try lia. f_equal. lia.
Qed.

(** C7 at a concrete input: three frames asked of a freelist of four. *)
Lemma umem_alloc_pops_min_witness :
  exists out u',
    Fwd2.umem_alloc demo_umem 3 = Ok (Z.min 3 (free_top demo_umem), out, u') /\
    Refactored.umem_alloc demo_umem 3 = Ok (Z.min 3 (free_top demo_umem), out, u') /\
    Z.of_nat (length out) = Z.min 3 (free_top demo_umem) /\
    (forall i, 0 <= i < Z.min 3 (free_top demo_umem) ->
       is_Some (out !! Z.to_nat i) /\
       out !! Z.to_nat i = free_addrs demo_umem !! Z.to_nat (free_top demo_umem - 1 - i)) /\
    free_top u' = free_top demo_umem - Z.min 3 (free_top demo_umem) /\
    free_addrs u' = free_addrs demo_umem /\
    freelist u' = take (Z.to_nat (free_top u')) (freelist demo_umem) /\
    umem_wf u'.
Proof.
  apply (umem_alloc_pops_min demo_umem 3).
  - unfold umem_wf. cbn. lia.
  - lia.
Defined.

Section FreeFacts.

Lemma push_frame_spec u a :
  umem_wf u -> free_top u < n_frames u ->
  push_frame u a =
    Ok (set_free (<[Z.to_nat (free_top u) := a]> (free_addrs u)) (free_top u + 1) u).
Proof.
  intros (Hlen & Htop & Hn) Hlt. unfold push_frame.
  destruct (Z.ltb_spec (free_top u) (Z.of_nat (length (free_addrs u)))); [|lia].
  rewrite u32_small by lia. reflexivity.
Qed.

Lemma push_frame_wf u a :
  umem_wf u -> free_top u < n_frames u ->
  umem_wf (set_free (<[Z.to_nat (free_top u) := a]> (free_addrs u)) (free_top u + 1) u).
Proof.
  intros (Hlen & Htop & Hn) Hlt. unfold umem_wf. cbn.
  rewrite length_insert. lia.
Qed.

Lemma push_frame_freelist u a :
  umem_wf u -> free_top u < n_frames u ->
  freelist (set_free (<[Z.to_nat (free_top u) := a]> (free_addrs u)) (free_top u + 1) u)
  = freelist u ++ [a].
Proof.
  intros (Hlen & Htop & Hn) Hlt. unfold freelist. cbn.
  replace (Z.to_nat (free_top u + 1)) with (S (Z.to_nat (free_top u))) by lia.
  rewrite (take_S_r _ _ a) by (apply list_lookup_insert_eq; lia).
  rewrite take_insert_ge by lia. reflexivity.
Qed.

Lemma umem_free_loop_total addrs : forall u,
  umem_wf u ->
  exists u', Refactored.umem_free_loop addrs u = Ok u' /\ umem_wf u' /\
             free_top u <= free_top u'.
Proof.
  induction addrs as [|a rest IH]; intros u Hwf; cbn [Refactored.umem_free_loop].
  - exists u. split; [reflexivity|split; [assumption|lia]].
  - destruct (Z.ltb_spec (free_top u) (n_frames u)) as [Hlt|Hge].
    + rewrite push_frame_spec by assumption.
      destruct (IH _ (push_frame_wf u a Hwf Hlt)) as (u' & Hrun & Hwf' & Hle).
      exists u'. cbn in Hle. split; [assumption|split; [assumption|lia]].
    + apply IH, Hwf.
Qed.

Lemma umem_free_total u addrs :
  umem_wf u -> exists u', Refactored.umem_free u addrs = Ok u' /\ umem_wf u'.
Proof.
  intros Hwf. unfold Refactored.umem_free.
  destruct (Z.of_nat (length addrs) =? 0); [exists u; split; [reflexivity|assumption]|].
  destruct (umem_free_loop_total addrs u Hwf) as (u' & Hrun & Hwf' & _).
  exists u'. split; assumption.
Qed.

Lemma refactored_call_total o u :
  umem_wf u -> op_args_ok o ->
  exists u', refactored_call o u = Ok u' /\ umem_wf u'.
Proof.
  intros Hwf Hok. destruct o as [want|addrs|addr]; cbn [refactored_call].
  - cbn in Hok.
    destruct (umem_alloc_pops_min_aux u want Hwf Hok) as (out & u' & Hr & Hwf').
    rewrite Hr. exists u'. split; [reflexivity|assumption].
  - apply umem_free_total, Hwf.
  - apply umem_free_total, Hwf.
Qed.

(** X1 (the part of C2 that holds, on the refactored file).  From every
    well-formed state the refactored freelist keeps [free_top <= n_frames]
    over every sequence of [umem_alloc], [umem_free] and [umem_free_one]
    calls, and none of the calls faults. *)
Lemma refactored_calls_keep_wf ops : forall u,
  umem_wf u -> Forall op_args_ok ops ->
  exists u', refactored_calls ops u = Ok u' /\ umem_wf u' /\
             free_top u' <= n_frames u'.
Proof.
  induction ops as [|o rest IH]; intros u Hwf Hok; cbn [refactored_calls].
  - exists u. split; [reflexivity|split; [assumption|]].
    destruct Hwf as (_ & ? & _). lia.
  - inversion Hok as [|? ? Ho Hrest]; subst.
    destruct (refactored_call_total o u Hwf Ho) as (u1 & Hr & Hwf1).
    rewrite Hr. apply IH; assumption.
Qed.

End FreeFacts.

(** C2, evaluated on xdp_fwd2.c.  On a full freelist
    ([free_top = n_frames]) [umem_free_one] of xdp_fwd2.c does not drop the
    push: it stores at index [n_frames], one past the end of [free_addrs].
    The refactored [umem_free_one] leaves the manager unchanged there. *)
Theorem fwd2_free_one_on_full_freelist :
  umem_wf demo_umem /\ free_top demo_umem = n_frames demo_umem /\
  Fwd2.umem_free_one demo_umem 48 = Fault (OobStore (n_frames demo_umem)) /\
  Refactored.umem_free_one demo_umem 48 = Ok demo_umem.
Proof.
  split; [unfold umem_wf; cbn; lia|].
  split; [reflexivity|]. split; reflexivity.
Qed.

Lemma fwd2_free_one_full u a :
  umem_wf u -> free_top u = n_frames u ->
  Fwd2.umem_free_one u a = Fault (OobStore (n_frames u)).
Proof.
  intros (Hlen & Htop & Hn) Hfull. unfold Fwd2.umem_free_one, push_frame.
  destruct (Z.ltb_spec (free_top u) (Z.of_nat (length (free_addrs u)))); [lia|].
  rewrite Hfull. reflexivity.
Qed.

Lemma refactored_free_one_spec u a :
  umem_wf u ->
  Refactored.umem_free_one u a =
    if free_top u <? n_frames u
    then Ok (set_free (<[Z.to_nat (free_top u) := a]> (free_addrs u)) (free_top u + 1) u)
    else Ok u.
Proof.
  intros Hwf. unfold Refactored.umem_free_one, Refactored.umem_free.
  cbn [length Z.of_nat Z.eqb Pos.of_succ_nat Refactored.umem_free_loop].
  destruct (Z.ltb_spec (free_top u) (n_frames u)) as [Hlt|Hge]; [|reflexivity].
  rewrite push_frame_spec by assumption. reflexivity.
Qed.

(** C8.  On a well-formed freelist that is not full, [umem_free_one] of an
    address [a] followed by [umem_alloc] of one address (either file)
    returns [a] and restores the freelist: [free_top] and the stack
    [free_addrs[0 .. free_top)] are what they were.  The array slot at index
    [free_top], outside the stack, now holds [a]. *)
Theorem free_then_alloc_roundtrip (u : umem_mgr) (a : Z) :
  umem_wf u -> free_top u < n_frames u ->
  exists u1 u2,
    Fwd2.umem_free_one u a = Ok u1 /\
    Refactored.umem_free_one u a = Ok u1 /\
    freelist u1 = freelist u ++ [a] /\
    Fwd2.umem_alloc u1 1 = Ok (1, [a], u2) /\
    Refactored.umem_alloc u1 1 = Ok (1, [a], u2) /\
    free_top u2 = free_top u /\
    freelist u2 = freelist u /\
    u2 = set_free (<[Z.to_nat (free_top u) := a]> (free_addrs u)) (free_top u) u.
Proof.
  intros Hwf Hlt. pose proof Hwf as (Hlen & Htop & Hn).
  set (u1 := set_free (<[Z.to_nat (free_top u) := a]> (free_addrs u))
                      (free_top u + 1) u).
  assert (Hwf1 : umem_wf u1) by (apply push_frame_wf; assumption).
  assert (Hfl1 : freelist u1 = freelist u ++ [a])
    by (apply push_frame_freelist; assumption).
  assert (Hlenfl : length (freelist u) = Z.to_nat (free_top u)).
  { unfold freelist. rewrite length_take. lia. }
  assert (Halloc : Fwd2.umem_alloc u1 1 =
            Ok (1, [a], set_free (<[Z.to_nat (free_top u) := a]> (free_addrs u))
                                 (free_top u) u)).
  { rewrite fwd2_umem_alloc_spec by (assumption || lia).
    assert (Hmin : Z.min 1 (free_top u1) = 1) by (cbn; lia).
    rewrite Hmin, Hfl1. cbn [u1 free_top set_free free_addrs].
    replace (Z.to_nat (free_top u + 1 - 1)) with (length (freelist u)) by lia.
    rewrite drop_app_length. unfold set_free. cbn.
    do 3 f_equal. lia. }
  exists u1, (set_free (<[Z.to_nat (free_top u) := a]> (free_addrs u)) (free_top u) u).
  split; [apply push_frame_spec; assumption|].
  split; [rewrite refactored_free_one_spec by assumption;
          destruct (Z.ltb_spec (free_top u) (n_frames u)); [reflexivity|lia]|].
  split; [exact Hfl1|].
  split; [exact Halloc|].
  split; [rewrite umem_alloc_agree by (cbn; lia); exact Halloc|].
  split; [reflexivity|].
  split; [|reflexivity].
  unfold freelist. cbn. apply take_insert_ge. lia.
Qed.

(** C8 at a concrete input: free 99 into a half-empty freelist, then pop. *)
Lemma free_then_alloc_roundtrip_witness :
  exists u1 u2,
    Fwd2.umem_free_one demo_umem_half 99 = Ok u1 /\
    Refactored.umem_free_one demo_umem_half 99 = Ok u1 /\
    freelist u1 = freelist demo_umem_half ++ [99] /\
    Fwd2.umem_alloc u1 1 = Ok (1, [99], u2) /\
    Refactored.umem_alloc u1 1 = Ok (1, [99], u2) /\
    free_top u2 = free_top demo_umem_half /\
    freelist u2 = freelist demo_umem_half /\
    u2 = set_free (<[Z.to_nat (free_top demo_umem_half) := 99]>
                     (free_addrs demo_umem_half))
                  (free_top demo_umem_half) demo_umem_half.
Proof.
  apply (free_then_alloc_roundtrip demo_umem_half 99).
  - unfold umem_wf. cbn. lia.
  - cbn. lia.
Defined.

(* ===================================================================== *)
(** * UMEM manager creation *)

Ltac trace_prefix l t :=
  lazymatch l with
  | t => constr:(@nil event)
  | ?e :: ?l' => let p := trace_prefix l' t in constr:(e :: p)
  end.

(** Closes [e1 :: ... :: en :: t = ?new ++ t]. *)
Ltac solve_trace :=
  lazymatch goal with
  | |- ?l = ?new ++ ?t => let p := trace_prefix l t in unify new p; reflexivity
  end.

(** Closes [e1 :: ... :: en :: (l ++ t) = ?new ++ l ++ t] with [?new] of the
    shape [_ ++ l]. *)
Ltac solve_trace_app :=
  lazymatch goal with
  | |- ?l = (?new ++ ?c) ++ ?t =>
      let p := trace_prefix l (c ++ t) in
      unify new p; rewrite <- app_assoc; reflexivity
  | |- ?l = ?new ++ ?c ++ ?t =>
      let p := trace_prefix l (c ++ t) in
      unify new p; reflexivity
  end.

(** Case split on the next answer tested against 0. *)
Ltac split_answer :=
  match goal with
  | |- context [Z.eqb ?x 0] =>
      let E := fresh "E" in
      destruct (Z.eqb_spec x 0) as [E|E];
      [rewrite ?E | destruct x; [congruence | |]]; cbn
  end.

(** C6.  [umem_mgr_create] (the same code in both files) never faults and
    is all-or-nothing.  When it returns NULL some step reported failure and,
    replaying its calls in order, every resource acquired has been released
    with the most recent first and nothing is left held.  When it returns a
    manager no step failed, the five resources are held, and the freelist
    holds the [n_frames] addresses [i * frame_size] with
    [free_top = n_frames]. *)
Theorem umem_mgr_create_all_or_nothing
    (pp : umem_mgr_params) (cfg : xsk_umem_config) (w : world) :
  exists new,
    trace (final (Fwd2.umem_mgr_create pp cfg w)) = new ++ trace w /\
    Refactored.umem_mgr_create pp cfg w = Fwd2.umem_mgr_create pp cfg w /\
    match Fwd2.umem_mgr_create pp cfg w with
    | Done (Some u) _ =>
        existsb step_failed new = false /\
        held_after (reverse new) [] =
          Some [ObjMutex; ObjFreeAddrs; ObjKernelUmem; ObjMapping; ObjUmemMgr] /\
        free_top u = pp_n_frames pp /\
        n_frames u = pp_n_frames pp /\
        frame_size u = pp_frame_size pp /\
        length (free_addrs u) = Z.to_nat (pp_n_frames pp) /\
        (forall i, (i < Z.to_nat (pp_n_frames pp))%nat ->
           free_addrs u !! i = Some (u64 (Z.of_nat i * pp_frame_size pp)))
    | Done None _ =>
        existsb step_failed new = true /\
        held_after (reverse new) [] = Some []
    | Stop _ _ => False
    end.
Proof.
  unfold Fwd2.umem_mgr_create, Refactored.umem_mgr_create.
  unfold setrlimit_memlock, calloc, mmap, xsk_umem__create, malloc,
    pthread_mutex_init, ask_int, ask_bool, ask, print, free, munmap,
    xsk_umem__delete, emit, bind, ret.
  cbn.
  repeat split_answer;
    (eexists; split; [cbn; solve_trace|split; [reflexivity|]]; cbn;
     try (split; reflexivity)).
  all: repeat split;
    [rewrite length_map, length_seq; reflexivity
    |intros i Hi; rewrite list_lookup_fmap, lookup_seq_lt by lia; reflexivity].
Qed.

(* ===================================================================== *)
(** * Command line *)

Section CommandLine.

Variable atoi : string -> Z.
Variable hdr : xsk_defs.

Lemma store_at_ok {A} (arr : list A) i f w :
  0 <= i < Z.of_nat (length arr) ->
  exists x, arr !! Z.to_nat i = Some x /\
            store_at arr i f w = Done (<[Z.to_nat i := f x]> arr) w.
Proof.
  intros Hi. unfold store_at.
  destruct (Z.leb_spec 0 i); [|lia].
  destruct (lookup_lt_is_Some_2 arr (Z.to_nat i)) as [x Hx]; [lia|].
  exists x. rewrite Hx. split; reflexivity.
Qed.

Lemma getopt_loop_rejects_q q post pre : forall w,
  no_port_yet w ->
  forallb (fun o => negb (is_OptI o)) pre = true ->
  exists w' new,
    Fwd2.getopt_loop atoi (pre ++ OptQ q :: post) w = Done (Some (-1)) w' /\
    trace w' = new ++ trace w /\ forallb is_print new = true /\
    clock w' = clock w /\ umem w' = umem w /\ ports w' = ports w.
Proof.
  induction pre as [|o pre IH]; intros w (Hp & Ht & Hl) Hno.
  - cbn [app Fwd2.getopt_loop]. unfold bind, get_globs. rewrite Hp. cbn.
    eexists _, [_]. repeat split; reflexivity.
  - cbn [forallb] in Hno. apply andb_prop in Hno as [Ho Hno].
    cbn [app Fwd2.getopt_loop]. unfold bind at 1. unfold get_globs.
    destruct o as [s|s|s|]; try discriminate Ho.
    + destruct (Z.eqb_spec (n_threads (globs w)) Fwd2.MAX_THREADS) as [E|E].
      * cbn. eexists _, [_]. repeat split; reflexivity.
      * unfold bind at 1.
        destruct (store_at_ok (g_thread_data (globs w)) (n_threads (globs w))
                    (set_cpu_core_id (u32 (atoi s))) w) as (x & Hx & ->); [lia|].
        unfold bind at 1. unfold put_globs.
        match goal with |- context [Fwd2.getopt_loop _ _ ?w1] =>
          destruct (IH w1) as (w' & new & Hrun & Htr & Hpr & Hck & Hum & Hps) end.
        { unfold no_port_yet. cbn. rewrite length_insert. lia. }
        { exact Hno. }
        exists w', new. cbn in Htr, Hck, Hum, Hps. repeat split; assumption.
    + rewrite Hp. cbn. eexists _, [_]. repeat split; reflexivity.
    + cbn. eexists _, [_]. repeat split; reflexivity.
Qed.

End CommandLine.

(** C10.  When [-q] comes before any [-i], [parse_args] returns -1 and
    [main] returns -1 from the world the process starts in, whatever
    precedes and follows the [-q] (as long as no [-i] precedes it).  [main]
    got there without a single call into libc,
    libxdp or the kernel other than printing: no oracle answer was consumed,
    no manager, mapping, socket or port exists. *)
Theorem main_rejects_q_before_i
    (atoi : string -> Z) (hdr : xsk_defs) (o : nat -> Z)
    (pre post : list cli_opt) (q : string) :
  forallb (fun x => negb (is_OptI x)) pre = true ->
  (exists w1,
     Fwd2.parse_args atoi (pre ++ OptQ q :: post) (Fwd2.initial_world o)
       = Done (-1) w1) /\
  exists w',
    Fwd2.main atoi hdr (pre ++ OptQ q :: post) (Fwd2.initial_world o)
      = Done (Exit (-1)) w' /\
    forallb is_print (trace w') = true /\
    clock w' = O /\ umem w' = None /\ ports w' = [].
Proof.
  intros Hno. split.
  { unfold Fwd2.parse_args. unfold bind at 1.
    destruct (getopt_loop_rejects_q atoi q post pre (Fwd2.initial_world o))
      as (w' & new & Hrun & _).
    { split; [reflexivity|split; [|reflexivity]].
      unfold Fwd2.MAX_THREADS. cbn. lia. }
    { exact Hno. }
    rewrite Hrun. eexists. reflexivity. }
  unfold Fwd2.main.
  unfold bind at 1. unfold get_globs. unfold bind at 1. unfold put_globs.
  unfold bind at 1. unfold Fwd2.parse_args. unfold bind at 1.
  match goal with |- context [Fwd2.getopt_loop _ _ ?w1] =>
    destruct (getopt_loop_rejects_q atoi q post pre w1)
      as (w' & new & Hrun & Htr & Hpr & Hck & Hum & Hps) end.
  { split; [reflexivity|split; [|reflexivity]].
    unfold Fwd2.MAX_THREADS. cbn. lia. }
  { exact Hno. }
  rewrite Hrun. cbn in Htr, Hck, Hum, Hps |- *.
  eexists. split; [reflexivity|]. cbn.
  rewrite Htr, app_nil_r, Hpr. repeat split; assumption.
Qed.

(** C10 at a concrete input: [-c 0 -q 1 -i eth0]. *)
Lemma main_rejects_q_before_i_witness :
  (exists w1,
     Fwd2.parse_args demo_atoi ([OptC "0"] ++ OptQ "1" :: [OptI "eth0"])
       (Fwd2.initial_world (answers [])) = Done (-1) w1) /\
  exists w',
    Fwd2.main demo_atoi demo_hdr ([OptC "0"] ++ OptQ "1" :: [OptI "eth0"])
      (Fwd2.initial_world (answers []))
      = Done (Exit (-1)) w' /\
    forallb is_print (trace w') = true /\
    clock w' = O /\ umem w' = None /\ ports w' = [].
Proof.
  apply (main_rejects_q_before_i demo_atoi demo_hdr (answers [])
           [OptC "0"] [OptI "eth0"] "1").
  reflexivity.
Defined.

(* ===================================================================== *)
(** * The worker's round-robin index *)

Section RoundRobin.

Lemma next_slot_pow2 m i :
  0 <= m <= 31 -> 0 <= i < 2 ^ m ->
  Fwd2.next_slot (2 ^ m) i = (i + 1) mod 2 ^ m.
Proof.
  intros Hm Hi. unfold Fwd2.next_slot.
  assert (Hpow : 2 ^ m <= 2 ^ 31) by (apply Z.pow_le_mono_r; lia).
  rewrite !u32_small by lia.
  replace (2 ^ m - 1) with (Z.ones m) by (rewrite Z.ones_equiv; lia).
  apply Z.land_ones. lia.
Qed.

Lemma slot_in_iteration_S n k :
  slot_in_iteration n (S k) = Fwd2.next_slot n (slot_in_iteration n k).
Proof. reflexivity. Qed.

(** X2 (the part of C1 that holds).  When the cohort size is a power of
    two, the worker of xdp_fwd2.c services slot [k mod n] in its iteration
    [k]: a round-robin over all [n] slots. *)
Lemma slot_in_iteration_pow2 m k :
  0 <= m <= 31 ->
  slot_in_iteration (2 ^ m) k = Z.of_nat k mod 2 ^ m.
Proof.
  intros Hm. assert (Hpos : 0 < 2 ^ m) by (apply Z.pow_pos_nonneg; lia).
  induction k as [|k IH].
  - cbn. rewrite Z.mod_0_l by lia. reflexivity.
  - rewrite slot_in_iteration_S, IH.
    rewrite next_slot_pow2 by (try apply Z.mod_pos_bound; lia).
    rewrite Nat2Z.inj_succ, <- Z.add_1_r.
    rewrite Zplus_mod_idemp_l. reflexivity.
Qed.

Lemma slot_stuck_at_3 k : slot_in_iteration 3 k = 0.
Proof.
  induction k as [|k IH]; [reflexivity|].
  rewrite slot_in_iteration_S, IH. reflexivity.
Qed.

End RoundRobin.

(** C1, evaluated on xdp_fwd2.c with a cohort of three ports
    ([-c 0 -i a -i b -i c]).  The wiring loops of [main] give slot [j] the
    TX port of slot [(j + 1) mod 3]; but the worker's index update
    [(i + 1) & (n - 1)] maps 0 to 0 when [n = 3], so every iteration
    services slot 0 and slots 1 and 2 are never pumped.  (For [n] a power
    of two the update is [(i + 1) mod n]: [next_slot_pow2].) *)
Theorem three_port_cohort_services_slot_0_only :
  (exists w, Fwd2.wire_threads 1 0 (demo_world (answers []) 3) = Done tt w /\
             g_thread_data (globs w) !! O = Some demo_thread3) /\
  Fwd2.next_slot 3 0 = 0 /\
  (forall k, slot_in_iteration 3 k = 0) /\
  peeked (trace (final (Fwd2.thread_func demo_add_offset 6 1 demo_thread3
                          (demo_world (answers []) 3))))
    = [PORT_CQ 1; RXQ 0; PORT_CQ 1; RXQ 0; PORT_CQ 1; RXQ 0;
       PORT_CQ 1; RXQ 0; PORT_CQ 1; RXQ 0; PORT_CQ 1; RXQ 0].
Proof.
  split; [eexists; split; vm_compute; reflexivity|].
  split; [reflexivity|].
  split; [exact slot_stuck_at_3|].
  vm_compute. reflexivity.
Qed.

(* ===================================================================== *)
(** * Frame rules for the monad *)

Section Keeps.

Context {F : Type} (f : world -> F) (r : F -> F -> Prop) `{!PreOrder r}.

Lemma keeps_frame {A} (m : M A) :
  (forall w, f (final (m w)) = f w) -> keeps f r m.
Proof. intros H w. rewrite H. reflexivity. Qed.

Lemma keeps_ret {A} (a : A) : keeps f r (ret a).
Proof. intros w. reflexivity. Qed.

Lemma keeps_crash {A} e : keeps f r (@crash A e).
Proof. intros w. reflexivity. Qed.

Lemma keeps_out_of_fuel {A} : keeps f r (@out_of_fuel A).
Proof. intros w. reflexivity. Qed.

Lemma keeps_bind {A B} (m : M A) (k : A -> M B) :
  keeps f r m -> (forall a, keeps f r (k a)) -> keeps f r (bind m k).
Proof.
  intros Hm Hk w. unfold bind. specialize (Hm w).
  destruct (m w) as [a w1|s w1]; cbn in *; [|exact Hm].
  etransitivity; [exact Hm|apply Hk].
Qed.

(** [x <- m ;; g x ;; k x] when [x <- m ;; g x] is known as a whole. *)
Lemma keeps_bind2 {A B C} (m : M A) (g : A -> M B) (k : A -> M C) :
  keeps f r (bind m g) -> (forall a, keeps f r (k a)) ->
  keeps f r (bind m (fun a => bind (g a) (fun _ => k a))).
Proof.
  intros Hmg Hk w. specialize (Hmg w). unfold bind in *.
  destruct (m w) as [a w1|s w1]; cbn in *; [|exact Hmg].
  destruct (g a w1) as [b w2|s w2]; cbn in *; [|exact Hmg].
  etransitivity; [exact Hmg|apply Hk].
Qed.

End Keeps.

Lemma grows_by_preorder (P : list event -> Prop) :
  P [] -> (forall a b, P a -> P b -> P (a ++ b)) -> PreOrder (grows_by P).
Proof.
  intros Hnil Happ. split.
  - intros t. exists []. split; [reflexivity|exact Hnil].
  - intros t1 t2 t3 (n1 & -> & H1) (n2 & -> & H2).
    exists (n2 ++ n1). split; [apply app_assoc|apply Happ; assumption].
Qed.

Lemma all_events_app q a b :
  all_events q a -> all_events q b -> all_events q (a ++ b).
Proof. unfold all_events. rewrite forallb_app. intros -> ->. reflexivity. Qed.

Lemma guarded_by_app wr a b :
  guarded_by wr a -> guarded_by wr b -> guarded_by wr (a ++ b).
Proof.
  unfold guarded_by. intros Ha Hb.
  induction a as [|e a IH]; [exact Hb|].
  cbn [app wakeups_guarded] in *.
  apply andb_prop in Ha as [He Ha]. rewrite (IH Ha), andb_true_r.
  destruct (wr e) as [r0|]; [|reflexivity].
  destruct a as [|e' a]; [discriminate He|exact He].
Qed.

Lemma all_events_preorder q : PreOrder (grows_by (all_events q)).
Proof. apply grows_by_preorder; [reflexivity|apply all_events_app]. Qed.

Lemma guarded_by_preorder wr : PreOrder (grows_by (guarded_by wr)).
Proof. apply grows_by_preorder; [reflexivity|apply guarded_by_app]. Qed.

Lemma freelist_grows_preorder : PreOrder freelist_grows.
Proof.
  split.
  - intros o u Hu Hwf. exists u. split; [assumption|split; [assumption|reflexivity]].
  - intros o1 o2 o3 H12 H23 u Hu Hwf.
    destruct (H12 u Hu Hwf) as (u2 & Hu2 & Hwf2 & Hp12).
    destruct (H23 u2 Hu2 Hwf2) as (u3 & Hu3 & Hwf3 & Hp23).
    exists u3. split; [assumption|split; [assumption|]].
    etransitivity; eassumption.
Qed.

Lemma any_events_preorder : PreOrder (grows_by any_events).
Proof. apply grows_by_preorder; [exact I|intros; exact I]. Qed.

#[global] Existing Instances all_events_preorder guarded_by_preorder
  freelist_grows_preorder any_events_preorder.

Lemma keeps_emit P `{!PreOrder (grows_by P)} e :
  P [e] -> keeps trace (grows_by P) (emit e).
Proof. intros He w. exists [e]. split; [reflexivity|exact He]. Qed.

(** A needs-wakeup test followed by the syscall it guards. *)
Lemma keeps_guarded_wakeup wr r e :
  wr (EvNeedsWakeup r true) = None -> wr (EvNeedsWakeup r false) = None ->
  wr e = Some r ->
  keeps trace (grows_by (guarded_by wr))
    (bind (xsk_ring_prod__needs_wakeup r)
          (fun b => if b then emit e else ret tt)).
Proof.
  intros Ht Hf He w.
  unfold xsk_ring_prod__needs_wakeup, ask_bool, ask, emit, bind, ret. cbn.
  destruct (negb (oracle w (clock w) =? 0)); cbn.
  - exists [e; EvNeedsWakeup r true]. split; [reflexivity|].
    unfold guarded_by. cbn. rewrite He, Ht. cbn.
    rewrite bool_decide_eq_true_2 by reflexivity. reflexivity.
  - exists [EvNeedsWakeup r false]. split; [reflexivity|].
    unfold guarded_by. cbn. rewrite Hf. reflexivity.
Qed.

(** The component is untouched: unfold the primitive and look. *)
Ltac frame_prim :=
  apply keeps_frame; [typeclasses eauto|];
  let w := fresh "w" in
  intros w;
  cbv beta delta [ask emit get_umem with_umem with_umem_ update_port get_port
                  get_globs put_globs load_bytes store_bytes load_at store_at
                  crash out_of_fuel ret bind calloc_port calloc ask_bool];
  repeat match goal with
         | |- context [match ?x with _ => _ end] => destruct x
         end;
  reflexivity.

Ltac unfold_calls :=
  progress unfold setrlimit_memlock, calloc, malloc, free, mmap, munmap,
    xsk_umem__create, xsk_umem__delete, pthread_mutex_init, print,
    xsk_ring_cons__peek, xsk_ring_cons__release, xsk_ring_cons__comp_addr,
    xsk_ring_cons__rx_desc, xsk_ring_prod__reserve, xsk_ring_prod__fill_addr,
    xsk_ring_prod__tx_desc, xsk_ring_prod__submit, xsk_ring_prod__needs_wakeup,
    xsk_prod_nb_free, poll, sendto, usleep, xsk_socket__create_shared,
    port_free, ask_u32, ask_u64, ask_int, ask_bool.

Create HintDb keeps discriminated.

Ltac head_of t :=
  lazymatch t with
  | ?g _ => head_of g
  | _ => t
  end.

(** The side condition of [keeps_emit] on a concrete event. *)
Ltac event_ok :=
  first [reflexivity
        |exact I
        |unfold all_events; cbn;
         rewrite ?bool_decide_eq_true_2 by reflexivity; reflexivity].

Ltac keeps_step :=
  lazymatch goal with
  | |- keeps _ _ (ret _) => apply keeps_ret; typeclasses eauto
  | |- keeps _ _ (crash _) => apply keeps_crash; typeclasses eauto
  | |- keeps _ _ out_of_fuel => apply keeps_out_of_fuel; typeclasses eauto
  | |- keeps trace (grows_by (guarded_by ?wr))
         (bind (xsk_ring_prod__needs_wakeup ?r)
               (fun b => bind (if b then ?s else ret tt) (fun _ => ?K))) =>
      apply (keeps_bind2 trace (grows_by (guarded_by wr))
               (xsk_ring_prod__needs_wakeup r)
               (fun b : bool => if b then s else ret tt) (fun _ : bool => K));
      [apply keeps_guarded_wakeup; reflexivity|intros ?]
  | |- keeps _ _ (bind _ _) => apply keeps_bind; [typeclasses eauto| |intros ?]
  | |- keeps _ _ (if ?b then _ else _) => destruct b
  | |- keeps _ _ (match ?x with _ => _ end) => destruct x
  | |- keeps _ _ (emit _) =>
      first [apply keeps_emit; [typeclasses eauto|event_ok] | frame_prim]
  | |- keeps _ _ ?m =>
      first [solve [eauto with keeps] | frame_prim | unfold_calls
            | let h := head_of m in progress unfold h]
  end.

Ltac keeps_go := repeat keeps_step.

(* ===================================================================== *)
(** * Wakeup discipline *)

Local Abbreviation G2 := (grows_by (guarded_by fwd2_wakeup_ring)).
Local Abbreviation GR := (grows_by (guarded_by refactored_wakeup_ring)).

Lemma fwd2_cq_loop_guarded k r pos i : keeps trace G2 (Fwd2.cq_loop k r pos i).
Proof.
  revert r pos i. induction k as [|k IH]; intros r pos i; cbn [Fwd2.cq_loop]; keeps_go.
Qed.
#[global] Hint Resolve fwd2_cq_loop_guarded : keeps.

Lemma fwd2_tx_reserve_loop_guarded fuel tx : keeps trace G2 (Fwd2.tx_reserve_loop fuel tx).
Proof.
  induction fuel as [|fuel IH]; cbn [Fwd2.tx_reserve_loop]; keeps_go.
Qed.
#[global] Hint Resolve fwd2_tx_reserve_loop_guarded : keeps.

Lemma fwd2_fresh_frame_loop_guarded fuel rx tx :
  keeps trace G2 (Fwd2.fresh_frame_loop fuel rx tx).
Proof.
  induction fuel as [|fuel IH]; cbn [Fwd2.fresh_frame_loop]; keeps_go.
Qed.
#[global] Hint Resolve fwd2_fresh_frame_loop_guarded : keeps.

Lemma fwd2_fq_reserve_loop_guarded fuel rx : keeps trace G2 (Fwd2.fq_reserve_loop fuel rx).
Proof.
  induction fuel as [|fuel IH]; cbn [Fwd2.fq_reserve_loop]; keeps_go.
Qed.
#[global] Hint Resolve fwd2_fq_reserve_loop_guarded : keeps.

Lemma fwd2_port_pump_once_guarded off fuel rx tx :
  keeps trace G2 (Fwd2.port_pump_once off fuel rx tx).
Proof. unfold Fwd2.port_pump_once. keeps_go. Qed.
#[global] Hint Resolve fwd2_port_pump_once_guarded : keeps.

Lemma fwd2_thread_loop_guarded off iters fuel t i :
  keeps trace G2 (Fwd2.thread_loop off iters fuel t i).
Proof.
  revert i. induction iters as [|iters IH]; intros i; cbn [Fwd2.thread_loop]; keeps_go.
Qed.
#[global] Hint Resolve fwd2_thread_loop_guarded : keeps.

Lemma fwd2_thread_func_guarded off iters fuel t :
  keeps trace G2 (Fwd2.thread_func off iters fuel t).
Proof. unfold Fwd2.thread_func. keeps_go. Qed.

Lemma refactored_cq_loop_guarded k r pos i :
  keeps trace GR (Refactored.cq_loop k r pos i).
Proof.
  revert r pos i.
  induction k as [|k IH]; intros r pos i; cbn [Refactored.cq_loop]; keeps_go.
Qed.
#[global] Hint Resolve refactored_cq_loop_guarded : keeps.

Lemma fill_loop_guarded wr r pos frames i :
  (forall p a, wr (EvFillAddr r p a) = None) ->
  keeps trace (grows_by (guarded_by wr)) (fill_loop r pos frames i).
Proof.
  intros Hwr. revert i.
  induction frames as [|a frames IH]; intros i; cbn [fill_loop]; keeps_go.
  apply keeps_emit; [typeclasses eauto|].
  unfold guarded_by. cbn. rewrite Hwr. reflexivity.
Qed.

Lemma refactored_umem_mgr_fill_fq_guarded want :
  keeps trace GR (Refactored.umem_mgr_fill_fq want).
Proof.
  unfold Refactored.umem_mgr_fill_fq. keeps_go.
  apply fill_loop_guarded. reflexivity.
Qed.
#[global] Hint Resolve refactored_umem_mgr_fill_fq_guarded : keeps.

Lemma refactored_tx_reserve_loop_guarded fuel tx :
  keeps trace GR (Refactored.tx_reserve_loop fuel tx).
Proof.
  induction fuel as [|fuel IH]; cbn [Refactored.tx_reserve_loop]; keeps_go.
Qed.
#[global] Hint Resolve refactored_tx_reserve_loop_guarded : keeps.

Lemma refactored_forward_one_packet_guarded fuel rx tx :
  keeps trace GR (Refactored.forward_one_packet fuel rx tx).
Proof. unfold Refactored.forward_one_packet. keeps_go. Qed.
#[global] Hint Resolve refactored_forward_one_packet_guarded : keeps.

Lemma refactored_sweep_tx_guarded k fuel t i j fw :
  keeps trace GR (Refactored.sweep_tx k fuel t i j fw).
Proof.
  revert j fw.
  induction k as [|k IH]; intros j fw; cbn [Refactored.sweep_tx]; keeps_go.
Qed.
#[global] Hint Resolve refactored_sweep_tx_guarded : keeps.

Lemma refactored_sweep_rx_guarded k fuel t i fw :
  keeps trace GR (Refactored.sweep_rx k fuel t i fw).
Proof.
  revert i fw.
  induction k as [|k IH]; intros i fw; cbn [Refactored.sweep_rx]; keeps_go.
Qed.
#[global] Hint Resolve refactored_sweep_rx_guarded : keeps.

Lemma refactored_thread_loop_guarded iters fuel t :
  keeps trace GR (Refactored.thread_loop iters fuel t).
Proof.
  induction iters as [|iters IH]; cbn [Refactored.thread_loop]; keeps_go.
Qed.
#[global] Hint Resolve refactored_thread_loop_guarded : keeps.

Lemma refactored_thread_func_guarded iters fuel t :
  keeps trace GR (Refactored.thread_func iters fuel t).
Proof. unfold Refactored.thread_func. keeps_go. Qed.

(** C9.  Whatever the kernel answers, however long the worker runs and
    wherever the run is cut, every [poll] and every [sendto] the worker
    loop issues (either file) comes directly after a needs-wakeup test, of
    the ring that syscall serves, that answered true.  The same holds of a
    single pump. *)
Theorem wakeups_only_when_needed
    (off : Z -> Z) (iters fuel : nat) (rx tx : nat)
    (t : thread_data) (t' : Refactored.thread_data) (w : world) :
  (exists new,
     trace (final (Fwd2.thread_func off iters fuel t w)) = new ++ trace w /\
     wakeups_guarded fwd2_wakeup_ring new = true) /\
  (exists new,
     trace (final (Refactored.thread_func iters fuel t' w)) = new ++ trace w /\
     wakeups_guarded refactored_wakeup_ring new = true) /\
  (exists new,
     trace (final (Fwd2.port_pump_once off fuel rx tx w)) = new ++ trace w /\
     wakeups_guarded fwd2_wakeup_ring new = true) /\
  (exists new,
     trace (final (Refactored.forward_one_packet fuel rx tx w)) = new ++ trace w /\
     wakeups_guarded refactored_wakeup_ring new = true).
Proof.
  split; [apply (fwd2_thread_func_guarded off iters fuel t w)|].
  split; [apply (refactored_thread_func_guarded iters fuel t' w)|].
  split; [apply (fwd2_port_pump_once_guarded off fuel rx tx w)|].
  apply (refactored_forward_one_packet_guarded fuel rx tx w).
Qed.

(* ===================================================================== *)
(** * Draining completions *)

Lemma keeps_push_frame a :
  keeps umem freelist_grows (with_umem_ (fun u => push_frame u a)).
Proof.
  intros w u Hu Hwf. unfold with_umem_, with_umem. rewrite Hu.
  pose proof Hwf as (Hlen & Htop & Hn).
  destruct (Z.ltb_spec (free_top u) (n_frames u)) as [Hlt|Hge].
  - rewrite push_frame_spec by assumption. cbn.
    eexists. split; [reflexivity|].
    split; [apply push_frame_wf; assumption|].
    rewrite push_frame_freelist by assumption. apply prefix_app_r. reflexivity.
  - unfold push_frame.
    destruct (Z.ltb_spec (free_top u) (Z.of_nat (length (free_addrs u)))); [lia|].
    cbn. exists u. split; [assumption|split; [assumption|reflexivity]].
Qed.

Lemma keeps_fwd2_free_one a :
  keeps umem freelist_grows (with_umem_ (fun u => Fwd2.umem_free_one u a)).
Proof. apply keeps_push_frame. Qed.
#[global] Hint Resolve keeps_fwd2_free_one : keeps.

Lemma keeps_refactored_free_one a :
  keeps umem freelist_grows (with_umem_ (fun u => Refactored.umem_free_one u a)).
Proof.
  intros w u Hu Hwf. unfold with_umem_, with_umem. rewrite Hu.
  rewrite refactored_free_one_spec by assumption.
  destruct (Z.ltb_spec (free_top u) (n_frames u)) as [Hlt|Hge]; cbn.
  - eexists. split; [reflexivity|].
    split; [apply push_frame_wf; assumption|].
    rewrite push_frame_freelist by assumption. apply prefix_app_r. reflexivity.
  - exists u. split; [reflexivity|split; [assumption|reflexivity]].
Qed.
#[global] Hint Resolve keeps_refactored_free_one : keeps.

Local Abbreviation only_cq c := (grows_by (all_events (consumes_from c))).

Lemma fwd2_cq_loop_ports k c pos i : keeps ports eq (Fwd2.cq_loop k c pos i).
Proof. revert i. induction k; intros i; cbn [Fwd2.cq_loop]; keeps_go. Qed.
Lemma fwd2_cq_loop_area k c pos i : keeps umem_area eq (Fwd2.cq_loop k c pos i).
Proof. revert i. induction k; intros i; cbn [Fwd2.cq_loop]; keeps_go. Qed.
Lemma fwd2_cq_loop_freelist k c pos i :
  keeps umem freelist_grows (Fwd2.cq_loop k c pos i).
Proof. revert i. induction k; intros i; cbn [Fwd2.cq_loop]; keeps_go. Qed.
Lemma fwd2_cq_loop_trace k c pos i : keeps trace (only_cq c) (Fwd2.cq_loop k c pos i).
Proof. revert i. induction k; intros i; cbn [Fwd2.cq_loop]; keeps_go. Qed.
#[global] Hint Resolve fwd2_cq_loop_ports fwd2_cq_loop_area fwd2_cq_loop_freelist
  fwd2_cq_loop_trace : keeps.

Lemma refactored_cq_loop_ports k c pos i : keeps ports eq (Refactored.cq_loop k c pos i).
Proof. revert i. induction k; intros i; cbn [Refactored.cq_loop]; keeps_go. Qed.
Lemma refactored_cq_loop_area k c pos i :
  keeps umem_area eq (Refactored.cq_loop k c pos i).
Proof. revert i. induction k; intros i; cbn [Refactored.cq_loop]; keeps_go. Qed.
Lemma refactored_cq_loop_freelist k c pos i :
  keeps umem freelist_grows (Refactored.cq_loop k c pos i).
Proof. revert i. induction k; intros i; cbn [Refactored.cq_loop]; keeps_go. Qed.
Lemma refactored_cq_loop_trace k c pos i :
  keeps trace (only_cq c) (Refactored.cq_loop k c pos i).
Proof. revert i. induction k; intros i; cbn [Refactored.cq_loop]; keeps_go. Qed.
#[global] Hint Resolve refactored_cq_loop_ports refactored_cq_loop_area
  refactored_cq_loop_freelist refactored_cq_loop_trace : keeps.

(** Block 1 of [port_pump_once] only consumes from the TX port's
    completion ring and only pushes onto the freelist. *)
Lemma fwd2_recycle_completions_effect tx want w :
  let w1 := final (Fwd2.recycle_completions tx want w) in
  ports w1 = ports w /\ umem_area w1 = umem_area w /\
  freelist_grows (umem w) (umem w1) /\
  only_cq (PORT_CQ tx) (trace w) (trace w1).
Proof.
  cbn zeta. repeat split.
  - symmetry. revert w. change (keeps ports eq (Fwd2.recycle_completions tx want)).
    unfold Fwd2.recycle_completions. keeps_go.
  - symmetry. revert w. change (keeps umem_area eq (Fwd2.recycle_completions tx want)).
    unfold Fwd2.recycle_completions. keeps_go.
  - revert w. change (keeps umem freelist_grows (Fwd2.recycle_completions tx want)).
    unfold Fwd2.recycle_completions. keeps_go.
  - revert w.
    change (keeps trace (only_cq (PORT_CQ tx)) (Fwd2.recycle_completions tx want)).
    unfold Fwd2.recycle_completions. keeps_go.
Qed.

(** [umem_mgr_process_cq] likewise, on the UMEM's completion ring. *)
Lemma refactored_process_cq_effect w :
  let w1 := final (Refactored.umem_mgr_process_cq w) in
  ports w1 = ports w /\ umem_area w1 = umem_area w /\
  freelist_grows (umem w) (umem w1) /\
  only_cq UMEM_CQ (trace w) (trace w1).
Proof.
  cbn zeta. repeat split.
  - symmetry. revert w. change (keeps ports eq Refactored.umem_mgr_process_cq).
    unfold Refactored.umem_mgr_process_cq. keeps_go.
  - symmetry. revert w. change (keeps umem_area eq Refactored.umem_mgr_process_cq).
    unfold Refactored.umem_mgr_process_cq. keeps_go.
  - revert w. change (keeps umem freelist_grows Refactored.umem_mgr_process_cq).
    unfold Refactored.umem_mgr_process_cq. keeps_go.
  - revert w. change (keeps trace (only_cq UMEM_CQ) Refactored.umem_mgr_process_cq).
    unfold Refactored.umem_mgr_process_cq. keeps_go.
Qed.

(* ===================================================================== *)
(** * The pump when the RX ring is empty *)

Lemma fwd2_pump_rx_empty off fuel rx tx w w1 u :
  umem w = Some u -> umem_wf u ->
  Fwd2.recycle_completions tx
    (if comp_size (umem_cfg u) =? 0 then 64 else comp_size (umem_cfg u)) w
    = Done tt w1 ->
  u32 (oracle w1 (clock w1)) = 0 ->
  exists w2,
    Fwd2.port_pump_once off fuel rx tx w = Done 0 w2 /\
    rx_empty_return (PORT_CQ tx) (PORT_FQ rx) rx u w w2
      (u32 (oracle w1 (S (clock w1))))
      (negb (oracle w1 (S (S (clock w1))) =? 0)).
Proof.
  intros Hu Hwf Hrec Hpeek.
  pose proof (fwd2_recycle_completions_effect tx
    (if comp_size (umem_cfg u) =? 0 then 64 else comp_size (umem_cfg u)) w)
    as (Hports & Harea & Hfl & (cq & Htr & Hcq)).
  rewrite Hrec in *. cbn [final] in *.
  destruct (Hfl u Hu Hwf) as (u1 & Hu1 & Hwf1 & Hpre).
  unfold Fwd2.port_pump_once.
  unfold bind at 1. unfold get_umem. rewrite Hu.
  unfold bind at 1. rewrite Hrec.
  unfold xsk_ring_cons__peek, xsk_ring_prod__needs_wakeup, poll, ask_u32, ask_bool,
    ask, emit, bind, ret. cbn.
  rewrite Hpeek. cbn.
  destruct (negb (oracle w1 (S (S (clock w1))) =? 0)); cbn;
    (eexists; split; [reflexivity|]);
    exists u1, cq; cbn; rewrite Htr;
    repeat (split; [first [reflexivity|exact Hcq|assumption]|]); assumption.
Qed.

Lemma refactored_forward_rx_empty fuel rx tx w w1 u :
  umem w = Some u -> umem_wf u ->
  Refactored.umem_mgr_process_cq w = Done tt w1 ->
  u32 (oracle w1 (clock w1)) = 0 ->
  exists w2,
    Refactored.forward_one_packet fuel rx tx w = Done 0 w2 /\
    rx_empty_return UMEM_CQ UMEM_FQ rx u w w2
      (u32 (oracle w1 (S (clock w1))))
      (negb (oracle w1 (S (S (clock w1))) =? 0)).
Proof.
  intros Hu Hwf Hrec Hpeek.
  pose proof (refactored_process_cq_effect w)
    as (Hports & Harea & Hfl & (cq & Htr & Hcq)).
  rewrite Hrec in *. cbn [final] in *.
  destruct (Hfl u Hu Hwf) as (u1 & Hu1 & Hwf1 & Hpre).
  unfold Refactored.forward_one_packet.
  unfold bind at 1. rewrite Hrec.
  unfold xsk_ring_cons__peek, xsk_ring_prod__needs_wakeup, poll, ask_u32, ask_bool,
    ask, emit, bind, ret. cbn.
  rewrite Hpeek. cbn.
  destruct (negb (oracle w1 (S (S (clock w1))) =? 0)); cbn;
    (eexists; split; [reflexivity|]);
    exists u1, cq; cbn; rewrite Htr;
    repeat (split; [first [reflexivity|exact Hcq|assumption]|]); assumption.
Qed.

(** C5.  In both files: once the completion drain that opens the pump has
    run and the RX peek reports no descriptor, the pump returns 0.  From the
    peek on it records the peek, one needs-wakeup test of the Fill ring and,
    only if that test answered true, one [poll(POLLIN, timeout 0)] on the RX
    socket, nothing else: no reserve, write or submit on any producer ring.
    The port counters and the UMEM bytes are those of the start, and the
    freelist has lost nothing: the stack it held at the start is a prefix
    of the one it holds at the end (the drain before the peek pushed the
    completed frames and consumed only from the completion ring). *)
Theorem pump_rx_empty_returns_0
    (off : Z -> Z) (fuel rx tx : nat) (w w1 : world) (u : umem_mgr) :
  umem w = Some u -> umem_wf u ->
  u32 (oracle w1 (clock w1)) = 0 ->
  (Fwd2.recycle_completions tx
     (if comp_size (umem_cfg u) =? 0 then 64 else comp_size (umem_cfg u)) w
     = Done tt w1 ->
   exists w2,
     Fwd2.port_pump_once off fuel rx tx w = Done 0 w2 /\
     rx_empty_return (PORT_CQ tx) (PORT_FQ rx) rx u w w2
       (u32 (oracle w1 (S (clock w1))))
       (negb (oracle w1 (S (S (clock w1))) =? 0))) /\
  (Refactored.umem_mgr_process_cq w = Done tt w1 ->
   exists w2,
     Refactored.forward_one_packet fuel rx tx w = Done 0 w2 /\
     rx_empty_return UMEM_CQ UMEM_FQ rx u w w2
       (u32 (oracle w1 (S (clock w1))))
       (negb (oracle w1 (S (S (clock w1))) =? 0))).
Proof.
  intros Hu Hwf Hpeek. split; intros Hrec.
  - apply fwd2_pump_rx_empty; assumption.
  - apply refactored_forward_rx_empty; assumption.
Qed.

(* ===================================================================== *)
(** * Forwarding a packet *)

Lemma load_write_bytes bs : forall m a x,
  load_byte (write_bytes m a bs) x =
    if decide (a <= x < a + Z.of_nat (length bs))
    then default x00 (bs !! Z.to_nat (x - a))
    else load_byte m x.
Proof.
  induction bs as [|b bs IH]; intros m a x; cbn [write_bytes length].
  - destruct (decide _) as [H|H]; [lia|reflexivity].
  - rewrite IH.
    destruct (decide (a + 1 <= x < a + 1 + Z.of_nat (length bs))) as [H1|H1];
      destruct (decide (a <= x < a + Z.of_nat (S (length bs)))) as [H2|H2];
      try lia.
    + replace (Z.to_nat (x - a)) with (S (Z.to_nat (x - (a + 1)))) by lia.
      reflexivity.
    + assert (x = a) by lia. subst x.
      unfold load_byte. rewrite lookup_insert_eq, Z.sub_diag. reflexivity.
    + unfold load_byte. rewrite lookup_insert_ne by lia. reflexivity.
Qed.

Lemma lookup_loaded (m : gmap Z byte) a n (k : nat) :
  (k < n)%nat ->
  map (fun k => load_byte m (a + Z.of_nat k)) (seq 0 n) !! k
    = Some (load_byte m (a + Z.of_nat k)).
Proof.
  intros Hk. rewrite list_lookup_fmap, lookup_seq_lt by assumption. reflexivity.
Qed.

Lemma macs_swapped_write (m : gmap Z byte) o :
  macs_swapped m
    (write_bytes
       (write_bytes m (o + 6)
          (map (fun k => load_byte m (o + Z.of_nat k)) (seq 0 6)))
       o (map (fun k => load_byte m (o + 6 + Z.of_nat k)) (seq 0 6)))
    o.
Proof.
  split.
  - intros k Hk. split.
    + rewrite load_write_bytes, length_map, length_seq.
      destruct (decide _) as [H|H]; [|lia].
      replace (Z.to_nat (o + k - o)) with (Z.to_nat k) by lia.
      rewrite lookup_loaded by lia. cbn. f_equal. lia.
    + rewrite load_write_bytes, length_map, length_seq.
      destruct (decide _) as [H|H]; [lia|].
      rewrite load_write_bytes, length_map, length_seq.
      destruct (decide _) as [H'|H']; [|lia].
      replace (Z.to_nat (o + 6 + k - (o + 6))) with (Z.to_nat k) by lia.
      rewrite lookup_loaded by lia. cbn. f_equal. lia.
  - intros a Ha.
    rewrite load_write_bytes, length_map, length_seq.
    destruct (decide _) as [H|H]; [lia|].
    rewrite load_write_bytes, length_map, length_seq.
    destruct (decide _) as [H'|H']; [lia|reflexivity].
Qed.

(** [swap_mac_addresses] either faults before writing the second field, or
    exchanges the two fields and touches nothing else in the world. *)
Lemma swap_mac_addresses_spec o w :
  match Fwd2.swap_mac_addresses o w with
  | Done _ w' =>
      exists m', w' = set_umem_area m' w /\ macs_swapped (umem_area w) m' o
  | Stop _ w' => trace w' = trace w /\ ports w' = ports w
  end.
Proof.
  unfold Fwd2.swap_mac_addresses, load_bytes, store_bytes, get_umem, bind, crash, ret.
  destruct (umem w) as [u|] eqn:Hu; [|split; reflexivity].
  change (Z.of_nat ETH_ALEN) with 6. change ETH_ALEN with 6%nat.
  destruct ((0 <=? o + 6) && (o + 6 + 6 <=? total_sz (n_frames u) (frame_size u)))
    eqn:Hsrc; [|split; reflexivity].
  rewrite Hu.
  destruct ((0 <=? o) && (o + 6 <=? total_sz (n_frames u) (frame_size u)))
    eqn:Hdst; [|split; reflexivity].
  rewrite Hu. rewrite !length_map, !length_seq.
  change (Z.of_nat 6) with 6. rewrite Hsrc.
  cbn [umem set_umem_area]. rewrite Hu, Hdst.
  eexists. split; [destruct w; reflexivity|].
  cbn [umem_area set_umem_area]. apply macs_swapped_write.
Qed.

Local Abbreviation fw tx addr len := (grows_by (all_events (forwards tx addr len))).

Lemma fwd2_cq_loop_forwards tx addr len k c pos i :
  keeps trace (fw tx addr len) (Fwd2.cq_loop k c pos i).
Proof. revert i. induction k; intros i; cbn [Fwd2.cq_loop]; keeps_go. Qed.
#[global] Hint Resolve fwd2_cq_loop_forwards : keeps.

Lemma fwd2_tx_reserve_loop_forwards tx addr len fuel p :
  keeps trace (fw tx addr len) (Fwd2.tx_reserve_loop fuel p).
Proof. induction fuel; cbn [Fwd2.tx_reserve_loop]; keeps_go. Qed.
Lemma fwd2_tx_reserve_loop_area fuel p :
  keeps umem_area eq (Fwd2.tx_reserve_loop fuel p).
Proof. induction fuel; cbn [Fwd2.tx_reserve_loop]; keeps_go. Qed.
#[global] Hint Resolve fwd2_tx_reserve_loop_forwards fwd2_tx_reserve_loop_area : keeps.

Lemma fwd2_fresh_frame_loop_forwards tx addr len fuel p q :
  keeps trace (fw tx addr len) (Fwd2.fresh_frame_loop fuel p q).
Proof. induction fuel; cbn [Fwd2.fresh_frame_loop]; keeps_go. Qed.
Lemma fwd2_fresh_frame_loop_area fuel p q :
  keeps umem_area eq (Fwd2.fresh_frame_loop fuel p q).
Proof. induction fuel; cbn [Fwd2.fresh_frame_loop]; keeps_go. Qed.
#[global] Hint Resolve fwd2_fresh_frame_loop_forwards fwd2_fresh_frame_loop_area : keeps.

Lemma fwd2_fq_reserve_loop_forwards tx addr len fuel p :
  keeps trace (fw tx addr len) (Fwd2.fq_reserve_loop fuel p).
Proof. induction fuel; cbn [Fwd2.fq_reserve_loop]; keeps_go. Qed.
Lemma fwd2_fq_reserve_loop_area fuel p :
  keeps umem_area eq (Fwd2.fq_reserve_loop fuel p).
Proof. induction fuel; cbn [Fwd2.fq_reserve_loop]; keeps_go. Qed.
#[global] Hint Resolve fwd2_fq_reserve_loop_forwards fwd2_fq_reserve_loop_area : keeps.

Lemma transmit_and_replenish_forwards fuel rx tx addr len :
  keeps trace (fw tx addr len) (Fwd2.transmit_and_replenish fuel rx tx addr len).
Proof. unfold Fwd2.transmit_and_replenish. keeps_go. Qed.

Lemma transmit_and_replenish_area fuel rx tx addr len :
  keeps umem_area eq (Fwd2.transmit_and_replenish fuel rx tx addr len).
Proof. unfold Fwd2.transmit_and_replenish. keeps_go. Qed.

Lemma forwards_tx_desc tx addr len new r tpos a l :
  all_events (forwards tx addr len) new ->
  In (EvTxDesc r tpos a l) new -> r = TXQ tx /\ a = addr /\ l = len.
Proof.
  intros Hall Hin. unfold all_events in Hall.
  rewrite forallb_forall in Hall. specialize (Hall _ Hin). cbn in Hall.
  apply andb_prop in Hall as [Hall Hl]. apply andb_prop in Hall as [Hr Ha].
  apply bool_decide_eq_true_1 in Hr, Ha, Hl. auto.
Qed.

Lemma consumes_no_tx_desc c new r tpos a l :
  all_events (consumes_from c) new -> ~ In (EvTxDesc r tpos a l) new.
Proof.
  intros Hall Hin. unfold all_events in Hall.
  rewrite forallb_forall in Hall. specialize (Hall _ Hin). discriminate Hall.
Qed.

Lemma forward_peeked_spec off fuel rx tx rpos w :
  forwarded_swapped off rx tx w (final (Fwd2.forward_peeked off fuel rx tx rpos w)).
Proof.
  unfold Fwd2.forward_peeked.
  unfold xsk_ring_cons__rx_desc, xsk_ring_cons__release, ask_u64, ask_u32, ask,
    emit, ret. unfold bind at 1 2 3 4 5 6 7. cbn.
  set (addr := u64 (oracle w (clock w))).
  set (len := u32 (oracle w (S (clock w)))).
  unfold bind at 1. unfold update_port at 1. cbn.
  destruct (ports w !! rx) as [q|]; cbn.
  2:{ eexists. split; [cbn; solve_trace|].
      intros r tpos a l [H|[H|[]]]; discriminate H. }
  unfold bind at 1.
  match goal with |- context [Fwd2.swap_mac_addresses _ ?w4] =>
    pose proof (swap_mac_addresses_spec (off addr) w4) as Hswap;
    destruct (Fwd2.swap_mac_addresses (off addr) w4) as [[] w5|s w5] end; cbn in *.
  2:{ destruct Hswap as [Htr _].
      eexists. split; [rewrite Htr; cbn; solve_trace|].
      intros r tpos a l [H|[H|[]]]; discriminate H. }
  destruct Hswap as (m' & -> & Hsw).
  match goal with |- context [Fwd2.transmit_and_replenish ?a1 ?a2 ?a3 ?a4 ?a5 ?w5] =>
    pose proof (transmit_and_replenish_forwards a1 a2 a3 a4 a5 w5) as (newT & HtrT & Hall);
    pose proof (transmit_and_replenish_area a1 a2 a3 a4 a5 w5) as Harea;
    set (wf := final (Fwd2.transmit_and_replenish a1 a2 a3 a4 a5 w5)) in *
  end.
  cbn in HtrT, Harea.
  exists (newT ++ [EvConsRelease (RXQ rx) 1; EvRxDesc (RXQ rx) rpos addr len]).
  split; [rewrite HtrT, <- app_assoc; reflexivity|].
  intros r tpos a l Hin. apply in_app_or in Hin as [Hin|[H|[H|[]]]];
    try discriminate H.
  destruct (forwards_tx_desc _ _ _ _ _ _ _ _ Hall Hin) as (-> & -> & ->).
  split; [reflexivity|]. split.
  - exists rpos. apply in_or_app. right. right. left. reflexivity.
  - rewrite <- Harea. exact Hsw.
Qed.

Lemma fwd2_pump_forwards off fuel rx tx w :
  forwarded_swapped off rx tx w (final (Fwd2.port_pump_once off fuel rx tx w)).
Proof.
  unfold Fwd2.port_pump_once.
  unfold bind at 1. unfold get_umem.
  destruct (umem w) as [u|].
  2:{ exists []. split; [reflexivity|]. intros ? ? ? ? []. }
  unfold bind at 1.
  set (want := if comp_size (umem_cfg u) =? 0 then 64 else comp_size (umem_cfg u)).
  pose proof (fwd2_recycle_completions_effect tx want w)
    as (_ & Harea & _ & (cq & Htr & Hcq)).
  destruct (Fwd2.recycle_completions tx want w) as [[] w1|s w1]; cbn [final] in *.
  2:{ exists cq. split; [exact Htr|]. intros r tpos a l Hin.
      exfalso. exact (consumes_no_tx_desc _ _ _ _ _ _ Hcq Hin). }
  unfold xsk_ring_cons__peek, ask_u32, ask, emit, ret.
  unfold bind at 1 2 3 4 5 6. cbn.
  destruct (u32 (oracle w1 (clock w1)) =? 0).
  - unfold xsk_ring_prod__needs_wakeup, poll, ask_bool, ask, emit, bind, ret. cbn.
    destruct (negb (oracle w1 (S (S (clock w1))) =? 0)); cbn; rewrite Htr;
      (eexists (_ ++ cq); split; [rewrite <- app_assoc; cbn; solve_trace_app|]);
      intros r tpos a l Hin; exfalso;
      (apply in_app_or in Hin as [Hin|Hin];
       [cbn in Hin; intuition discriminate
       |exact (consumes_no_tx_desc _ _ _ _ _ _ Hcq Hin)]).
  - match goal with |- context [Fwd2.forward_peeked ?a1 ?a2 ?a3 ?a4 ?a5 ?w2] =>
      pose proof (forward_peeked_spec a1 a2 a3 a4 a5 w2) as (newF & HtrF & HF);
      set (wf := final (Fwd2.forward_peeked a1 a2 a3 a4 a5 w2)) in *
    end.
    cbn in HtrF. rewrite Htr in HtrF.
    eexists (newF ++ [_] ++ cq).
    split; [rewrite HtrF, <- !app_assoc; reflexivity|].
    intros r tpos a l Hin.
    apply in_app_or in Hin as [Hin|Hin].
    + destruct (HF _ _ _ _ Hin) as (-> & (rp & Hrx) & Hsw).
      split; [reflexivity|]. split.
      * exists rp. apply in_or_app. left. exact Hrx.
      * cbn in Hsw. rewrite Harea in Hsw. exact Hsw.
    + exfalso. apply in_app_or in Hin as [[H|[]]|Hin]; [discriminate H|].
      exact (consumes_no_tx_desc _ _ _ _ _ _ Hcq Hin).
Qed.

Lemma fwd2_cq_loop_extends k c pos i :
  keeps trace (grows_by any_events) (Fwd2.cq_loop k c pos i).
Proof. revert i. induction k; intros i; cbn [Fwd2.cq_loop]; keeps_go. Qed.
#[global] Hint Resolve fwd2_cq_loop_extends : keeps.
Lemma fwd2_tx_reserve_loop_extends fuel p :
  keeps trace (grows_by any_events) (Fwd2.tx_reserve_loop fuel p).
Proof. induction fuel; cbn [Fwd2.tx_reserve_loop]; keeps_go. Qed.
Lemma fwd2_fresh_frame_loop_extends fuel p q :
  keeps trace (grows_by any_events) (Fwd2.fresh_frame_loop fuel p q).
Proof. induction fuel; cbn [Fwd2.fresh_frame_loop]; keeps_go. Qed.
Lemma fwd2_fq_reserve_loop_extends fuel p :
  keeps trace (grows_by any_events) (Fwd2.fq_reserve_loop fuel p).
Proof. induction fuel; cbn [Fwd2.fq_reserve_loop]; keeps_go. Qed.
#[global] Hint Resolve fwd2_tx_reserve_loop_extends fwd2_fresh_frame_loop_extends
  fwd2_fq_reserve_loop_extends : keeps.

(** A pump that returns 1 wrote a TX descriptor and submitted it. *)
Lemma transmit_done_submits fuel rx tx addr len w r w' :
  Fwd2.transmit_and_replenish fuel rx tx addr len w = Done r w' ->
  exists new tpos,
    trace w' = new ++ trace w /\
    In (EvTxDesc (TXQ tx) tpos addr len) new /\ In (EvSubmit (TXQ tx) 1) new.
Proof.
  unfold Fwd2.transmit_and_replenish. unfold bind at 1.
  pose proof (fwd2_tx_reserve_loop_extends fuel tx w) as (l & Hl & _).
  destruct (Fwd2.tx_reserve_loop fuel tx w) as [tpos w6|s w6]; [|discriminate].
  cbn [final] in Hl.
  unfold xsk_ring_prod__tx_desc, xsk_ring_prod__submit at 1, emit.
  unfold bind at 1 2. cbn.
  match goal with |- ?R ?w7 = _ -> _ =>
    assert (HR : keeps trace (grows_by any_events) R) by keeps_go;
    specialize (HR w7); intros Hrun; rewrite Hrun in HR
  end.
  destruct HR as (n & Hn & _). cbn in Hn.
  exists (n ++ [EvNeedsWakeup (TXQ tx) (negb (oracle w6 (clock w6) =? 0));
                EvSubmit (TXQ tx) 1; EvTxDesc (TXQ tx) tpos addr len] ++ l), tpos.
  split; [rewrite Hn, Hl, <- !app_assoc; reflexivity|].
  split; apply in_or_app; right; apply in_or_app; left; cbn; auto.
Qed.

Lemma fwd2_pump_returns_1 off fuel rx tx w w' :
  Fwd2.port_pump_once off fuel rx tx w = Done 1 w' ->
  exists new tpos addr len,
    trace w' = new ++ trace w /\
    In (EvTxDesc (TXQ tx) tpos addr len) new /\ In (EvSubmit (TXQ tx) 1) new.
Proof.
  unfold Fwd2.port_pump_once.
  unfold bind at 1. unfold get_umem.
  destruct (umem w) as [u|]; [|discriminate].
  unfold bind at 1.
  set (want := if comp_size (umem_cfg u) =? 0 then 64 else comp_size (umem_cfg u)).
  pose proof (fwd2_recycle_completions_effect tx want w)
    as (_ & _ & _ & (cq & Htr & _)).
  destruct (Fwd2.recycle_completions tx want w) as [[] w1|s w1]; [|discriminate].
  cbn [final] in Htr.
  unfold xsk_ring_cons__peek, ask_u32, ask, emit, ret.
  unfold bind at 1 2 3 4 5 6. cbn.
  destruct (u32 (oracle w1 (clock w1)) =? 0).
  { unfold xsk_ring_prod__needs_wakeup, poll, ask_bool, ask, emit, bind, ret. cbn.
    destruct (negb (oracle w1 (S (S (clock w1))) =? 0)); cbn; discriminate. }
  unfold Fwd2.forward_peeked.
  unfold xsk_ring_cons__rx_desc, xsk_ring_cons__release, ask_u64, ask_u32, ask,
    emit, ret. unfold bind at 1 2 3 4 5 6 7. cbn.
  unfold bind at 1. unfold update_port at 1. cbn.
  destruct (ports w1 !! rx) as [q|]; cbn; [|discriminate].
  unfold bind at 1.
  match goal with |- context [Fwd2.swap_mac_addresses ?o ?w4] =>
    pose proof (swap_mac_addresses_spec o w4) as Hswap;
    destruct (Fwd2.swap_mac_addresses o w4) as [[] w5|s w5] end; [|discriminate].
  destruct Hswap as (m' & -> & _).
  intros Hrun. apply transmit_done_submits in Hrun as (n & tpos & Hn & Htx & Hsub).
  cbn in Hn. rewrite Htr in Hn.
  eexists (n ++ [_; _; _] ++ cq), tpos, _, _.
  split; [rewrite Hn, <- !app_assoc; reflexivity|].
  split; apply in_or_app; left; [exact Htx|exact Hsub].
Qed.

Lemma fill_loop_area r pos frames i : keeps umem_area eq (fill_loop r pos frames i).
Proof. revert i. induction frames; intros i; cbn [fill_loop]; keeps_go. Qed.
#[global] Hint Resolve fill_loop_area : keeps.

Lemma refactored_tx_reserve_loop_area fuel p :
  keeps umem_area eq (Refactored.tx_reserve_loop fuel p).
Proof. induction fuel; cbn [Refactored.tx_reserve_loop]; keeps_go. Qed.
#[global] Hint Resolve refactored_tx_reserve_loop_area : keeps.

Lemma refactored_forward_one_packet_area fuel rx tx :
  keeps umem_area eq (Refactored.forward_one_packet fuel rx tx).
Proof. unfold Refactored.forward_one_packet. keeps_go. Qed.

(** C4 as stated fails on the refactored file: [forward_one_packet]
    forwards the frame at address 16 (it returns 1, having written the
    descriptor [(16, 60)] on the TX ring) and the MAC fields of the frame
    are not exchanged. *)
Lemma refactored_forwards_macs_unswapped :
  exists w',
    Refactored.forward_one_packet 1 0 1 (demo_rx_world (answers demo_refactored_answers))
      = Done 1 w' /\
    In (EvTxDesc (TXQ 1) 7 16 60) (trace w') /\
    In (EvSubmit (TXQ 1) 1) (trace w') /\
    ~ macs_swapped (umem_area (demo_rx_world (answers demo_refactored_answers)))
                   (umem_area w') (demo_add_offset 16).
Proof.
  eexists. split; [vm_compute; reflexivity|].
  split; [cbn; auto 10|]. split; [cbn; auto 10|].
  intros [Hsw _]. destruct (Hsw 0 ltac:(lia)) as [H _].
  vm_compute in H. discriminate H.
Qed.

Lemma refactored_tx_reserve_loop_forwards tx addr len fuel p :
  keeps trace (grows_by (all_events (forwards tx addr len)))
    (Refactored.tx_reserve_loop fuel p).
Proof. induction fuel; cbn [Refactored.tx_reserve_loop]; keeps_go. Qed.
#[global] Hint Resolve refactored_tx_reserve_loop_forwards : keeps.

Lemma fill_loop_forwards tx addr len r pos frames i :
  keeps trace (grows_by (all_events (forwards tx addr len))) (fill_loop r pos frames i).
Proof. revert i. induction frames; intros i; cbn [fill_loop]; keeps_go. Qed.
#[global] Hint Resolve fill_loop_forwards : keeps.

Lemma refactored_fill_fq_forwards tx addr len want :
  keeps trace (grows_by (all_events (forwards tx addr len)))
    (Refactored.umem_mgr_fill_fq want).
Proof. unfold Refactored.umem_mgr_fill_fq. keeps_go. Qed.
#[global] Hint Resolve refactored_fill_fq_forwards : keeps.

Lemma refactored_pump_forwards fuel rx tx w :
  forwarded_as_read rx tx w (final (Refactored.forward_one_packet fuel rx tx w)).
Proof.
  unfold Refactored.forward_one_packet.
  unfold bind at 1.
  pose proof (refactored_process_cq_effect w) as (_ & _ & _ & (cq & Htr & Hcq)).
  destruct (Refactored.umem_mgr_process_cq w) as [[] w1|s w1]; cbn [final] in *.
  2:{ exists cq. split; [exact Htr|]. intros r tpos a l Hin.
      exfalso. exact (consumes_no_tx_desc _ _ _ _ _ _ Hcq Hin). }
  unfold xsk_ring_cons__peek, ask_u32, ask, emit, ret.
  unfold bind at 1 2 3 4 5 6. cbn.
  destruct (u32 (oracle w1 (clock w1)) =? 0).
  - unfold xsk_ring_prod__needs_wakeup, poll, ask_bool, ask, emit, bind, ret. cbn.
    destruct (negb (oracle w1 (S (S (clock w1))) =? 0)); cbn; rewrite Htr;
      (eexists (_ ++ cq); split; [rewrite <- app_assoc; cbn; solve_trace_app|]);
      intros r tpos a l Hin; exfalso;
      (apply in_app_or in Hin as [Hin|Hin];
       [cbn in Hin; intuition discriminate
       |exact (consumes_no_tx_desc _ _ _ _ _ _ Hcq Hin)]).
  - unfold xsk_ring_cons__rx_desc, ask_u64, ask_u32, ask, emit, ret.
    unfold bind at 1 2 3 4 5 6. cbn.
    set (rpos := u32 (oracle w1 (S (clock w1)))).
    set (addr := u64 (oracle w1 (S (S (clock w1))))).
    set (len := u32 (oracle w1 (S (S (S (clock w1)))))).
    match goal with |- forwarded_as_read _ _ _ (final (?R ?w4)) =>
      assert (HR : keeps trace (grows_by (all_events (forwards tx addr len))) R)
        by keeps_go;
      destruct (HR w4) as (newT & HtrT & Hall)
    end.
    cbn in HtrT.
    exists (newT ++ [EvRxDesc (RXQ rx) rpos addr len;
                     EvPeek (RXQ rx) 1 (u32 (oracle w1 (clock w1))) rpos] ++ cq).
    split; [rewrite HtrT, Htr, <- !app_assoc; reflexivity|].
    intros r tpos a l Hin. apply in_app_or in Hin as [Hin|Hin].
    + destruct (forwards_tx_desc _ _ _ _ _ _ _ _ Hall Hin) as (-> & -> & ->).
      split; [reflexivity|]. exists rpos.
      apply in_or_app. right. left. reflexivity.
    + exfalso. apply in_app_or in Hin as [[H|[H|[]]]|Hin]; try discriminate H.
      exact (consumes_no_tx_desc _ _ _ _ _ _ Hcq Hin).
Qed.

Lemma refactored_tx_reserve_loop_extends fuel p :
  keeps trace (grows_by any_events) (Refactored.tx_reserve_loop fuel p).
Proof. induction fuel; cbn [Refactored.tx_reserve_loop]; keeps_go. Qed.
Lemma fill_loop_extends r pos frames i :
  keeps trace (grows_by any_events) (fill_loop r pos frames i).
Proof. revert i. induction frames; intros i; cbn [fill_loop]; keeps_go. Qed.
#[global] Hint Resolve refactored_tx_reserve_loop_extends fill_loop_extends : keeps.
Lemma refactored_fill_fq_extends want :
  keeps trace (grows_by any_events) (Refactored.umem_mgr_fill_fq want).
Proof. unfold Refactored.umem_mgr_fill_fq. keeps_go. Qed.
#[global] Hint Resolve refactored_fill_fq_extends : keeps.

(** A refactored pump that returns 1 wrote a TX descriptor and submitted
    it. *)
Lemma refactored_pump_returns_1 fuel rx tx w w' :
  Refactored.forward_one_packet fuel rx tx w = Done 1 w' ->
  exists new tpos addr len,
    trace w' = new ++ trace w /\
    In (EvTxDesc (TXQ tx) tpos addr len) new /\ In (EvSubmit (TXQ tx) 1) new.
Proof.
  unfold Refactored.forward_one_packet.
  unfold bind at 1.
  pose proof (refactored_process_cq_effect w) as (_ & _ & _ & (cq & Htr & _)).
  destruct (Refactored.umem_mgr_process_cq w) as [[] w1|s w1]; [|discriminate].
  cbn [final] in Htr.
  unfold xsk_ring_cons__peek, ask_u32, ask, emit, ret.
  unfold bind at 1 2 3 4 5 6. cbn.
  destruct (u32 (oracle w1 (clock w1)) =? 0).
  { unfold xsk_ring_prod__needs_wakeup, poll, ask_bool, ask, emit, bind, ret. cbn.
    destruct (negb (oracle w1 (S (S (clock w1))) =? 0)); cbn; discriminate. }
  unfold xsk_ring_cons__rx_desc, ask_u64, ask_u32, ask, emit, ret.
  unfold bind at 1 2 3 4 5 6. cbn.
  unfold bind at 1.
  match goal with |- context [Refactored.tx_reserve_loop fuel tx ?w4] =>
    pose proof (refactored_tx_reserve_loop_extends fuel tx w4) as (l & Hl & _);
    destruct (Refactored.tx_reserve_loop fuel tx w4) as [tpos w6|s w6]; [|discriminate]
  end.
  cbn [final] in Hl. cbn in Hl.
  unfold xsk_ring_prod__tx_desc, xsk_ring_prod__submit at 1, emit.
  unfold bind at 1 2. cbn.
  match goal with |- ?R ?w7 = _ -> _ =>
    assert (HR : keeps trace (grows_by any_events) R) by keeps_go;
    specialize (HR w7); intros Hrun; rewrite Hrun in HR
  end.
  destruct HR as (n & Hn & _). cbn in Hn.
  eexists (n ++ [_; _; EvSubmit (TXQ tx) 1; EvTxDesc (TXQ tx) tpos _ _]
             ++ l ++ [_; _] ++ cq),
          tpos, _, _.
  split; [rewrite Hn, Hl, Htr, <- !app_assoc; reflexivity|].
  split; apply in_or_app; right; apply in_or_app; left; cbn; auto.
Qed.

(** C4 as amended.  In xdp_fwd2.c, whatever the oracle answers and wherever
    a pump ends: every TX descriptor the pump writes is on the TX ring of
    the TX port and carries the address and length of the RX descriptor the
    pump read, and from then on the frame's bytes are those the pump started
    from with the two 6-byte MAC fields at [data_offset(addr)] exchanged and
    every other byte unchanged; a pump that returns 1 has written and
    submitted such a descriptor.  The refactored [forward_one_packet]
    applies no transform: it never writes to the UMEM area; wherever it
    ends, every TX descriptor it writes is on the TX ring of the TX port
    and carries the address and length of the RX descriptor it read; and a
    call that returns 1 has read an RX descriptor, written a TX descriptor
    with the same address and length and submitted it. *)
Theorem fwd2_pump_swaps_macs
    (off : Z -> Z) (fuel rx tx : nat) (w : world) :
  forwarded_swapped off rx tx w (final (Fwd2.port_pump_once off fuel rx tx w)) /\
  (forall w', Fwd2.port_pump_once off fuel rx tx w = Done 1 w' ->
     exists new tpos addr len,
       trace w' = new ++ trace w /\
       In (EvTxDesc (TXQ tx) tpos addr len) new /\
       In (EvSubmit (TXQ tx) 1) new) /\
  umem_area (final (Refactored.forward_one_packet fuel rx tx w)) = umem_area w /\
  forwarded_as_read rx tx w (final (Refactored.forward_one_packet fuel rx tx w)) /\
  (forall w', Refactored.forward_one_packet fuel rx tx w = Done 1 w' ->
     exists new rpos tpos addr len,
       trace w' = new ++ trace w /\
       In (EvRxDesc (RXQ rx) rpos addr len) new /\
       In (EvTxDesc (TXQ tx) tpos addr len) new /\
       In (EvSubmit (TXQ tx) 1) new).
Proof.
  split; [apply fwd2_pump_forwards|].
  split; [intros w'; apply fwd2_pump_returns_1|].
  split; [symmetry; apply refactored_forward_one_packet_area|].
  split; [apply refactored_pump_forwards|].
  intros w' Hrun.
  destruct (refactored_pump_returns_1 _ _ _ _ _ Hrun)
    as (new & tpos & addr & len & Htr & Htx & Hsub).
  pose proof (refactored_pump_forwards fuel rx tx w) as (new' & Htr' & Hall).
  rewrite Hrun in Htr'. cbn [final] in Htr'.
  assert (new' = new) as -> by (apply (app_inv_tail (trace w)); congruence).
  destruct (Hall _ _ _ _ Htx) as (_ & rpos & Hrx).
  exists new, rpos, tpos, addr, len. auto.
Qed.

(** C4 on a sample frame: xdp_fwd2.c forwards the frame at address 16 with
    its two MAC fields exchanged. *)
Example fwd2_pump_swaps_sample_frame :
  exists w',
    Fwd2.port_pump_once demo_add_offset 1 0 1 (demo_rx_world (answers demo_fwd2_answers))
      = Done 1 w' /\
    In (EvTxDesc (TXQ 1) 7 16 60) (trace w') /\
    map (fun a => load_byte (umem_area w') a) [16; 17; 18; 19; 20; 21; 22; 23; 24; 25; 26; 27]
      = [x07; x08; x09; x0a; x0b; x0c; x01; x02; x03; x04; x05; x06]%byte.
Proof.
  eexists. split; [vm_compute; reflexivity|].
  split; [cbn; auto 10|]. vm_compute. reflexivity.
Qed.

(* ===================================================================== *)
(** * Filling the Fill ring *)

Lemma umem_free_loop_all addrs : forall u,
  umem_wf u -> free_top u + Z.of_nat (length addrs) <= n_frames u ->
  exists u',
    Refactored.umem_free_loop addrs u = Ok u' /\ umem_wf u' /\
    freelist u' = freelist u ++ addrs /\
    free_top u' = free_top u + Z.of_nat (length addrs).
Proof.
  induction addrs as [|a rest IH]; intros u Hwf Hfit; cbn [Refactored.umem_free_loop].
  - exists u. rewrite app_nil_r. cbn. repeat (split; [first [reflexivity|assumption]|]). lia.
  - cbn [length] in Hfit.
    destruct (Z.ltb_spec (free_top u) (n_frames u)) as [Hlt|Hge]; [|lia].
    rewrite push_frame_spec by assumption.
    destruct (IH _ (push_frame_wf u a Hwf Hlt)) as (u' & Hrun & Hwf' & Hfl & Htop).
    { cbn. lia. }
    exists u'. split; [exact Hrun|]. split; [exact Hwf'|].
    rewrite Hfl, Htop, push_frame_freelist by assumption. cbn.
    rewrite <- app_assoc. split; [reflexivity|lia].
Qed.

(** Popping [got] frames and pushing them back: the stack holds the same
    frames, the returned ones in reverse order. *)
Lemma alloc_then_free_all u want :
  umem_wf u -> 0 < want ->
  exists frames u1 u',
    Refactored.umem_alloc u want = Ok (Z.min want (free_top u), frames, u1) /\
    Refactored.umem_free u1 frames = Ok u' /\
    umem_wf u' /\ free_top u' = free_top u /\
    freelist u' =
      take (Z.to_nat (free_top u - Z.min want (free_top u))) (freelist u)
      ++ reverse (drop (Z.to_nat (free_top u - Z.min want (free_top u))) (freelist u)).
Proof.
  intros Hwf Hw. pose proof Hwf as (Hlen & Htop & Hn).
  set (got := Z.min want (free_top u)).
  assert (Hfl : length (freelist u) = Z.to_nat (free_top u)).
  { unfold freelist. rewrite length_take. lia. }
  set (frames := reverse (drop (Z.to_nat (free_top u - got)) (freelist u))).
  set (u1 := set_free (free_addrs u) (free_top u - got) u).
  assert (Hlenf : Z.of_nat (length frames) = got).
  { unfold frames. rewrite length_reverse, length_drop, Hfl. lia. }
  assert (Hwf1 : umem_wf u1) by (unfold umem_wf; cbn; lia).
  destruct (umem_free_loop_all frames u1 Hwf1) as (u' & Hrun & Hwf' & Hfl' & Htop').
  { cbn. lia. }
  exists frames, u1, u'.
  split; [rewrite umem_alloc_agree by lia; apply fwd2_umem_alloc_spec; [assumption|lia]|].
  split.
  { unfold Refactored.umem_free.
    destruct (Z.eqb_spec (Z.of_nat (length frames)) 0) as [E|E]; [|exact Hrun].
    destruct frames; [|discriminate E]. cbn in Hrun. exact Hrun. }
  split; [exact Hwf'|]. split; [rewrite Htop'; cbn; lia|].
  rewrite Hfl'. f_equal. unfold freelist, u1. cbn. rewrite take_take. f_equal. lia.
Qed.

Lemma refactored_fill_fq_short want w u :
  umem w = Some u -> umem_wf u -> 0 < want -> 0 < free_top u ->
  s32 (u32 (oracle w (clock w))) <> s32 (Z.min want (free_top u)) ->
  exists u',
    Refactored.umem_mgr_fill_fq want w =
      Done (if s32 (u32 (oracle w (clock w))) <? 0
            then s32 (u32 (oracle w (clock w))) else 0)
           (set_umem (Some u')
              (set_trace
                 (EvReserve UMEM_FQ (Z.min want (free_top u))
                    (u32 (oracle w (clock w))) (u32 (oracle w (S (clock w))))
                  :: trace w)
                 (set_clock (S (S (clock w))) w))) /\
    umem_wf u' /\ free_top u' = free_top u /\ freelist u' ≡ₚ freelist u.
Proof.
  intros Hu Hwf Hw Htop Hshort.
  destruct (alloc_then_free_all u want Hwf Hw)
    as (frames & u1 & u' & Halloc & Hfree & Hwf' & Htop' & Hfl').
  exists u'. split; [|split; [exact Hwf'|split; [exact Htop'|]]].
  - unfold Refactored.umem_mgr_fill_fq.
    destruct (Z.eqb_spec want 0) as [E|_]; [lia|].
    unfold bind at 1. unfold with_umem at 1. rewrite Hu, Halloc. cbn [fst snd].
    destruct (Z.eqb_spec (Z.min want (free_top u)) 0) as [E|_]; [lia|].
    unfold xsk_ring_prod__reserve, ask_u32, ask, emit, ret.
    unfold bind at 1 2 3 4 5 6. cbn.
    destruct (Z.eqb_spec (s32 (u32 (oracle w (clock w))))
                         (s32 (Z.min want (free_top u)))) as [E|_];
      [contradiction|].
    cbn. unfold bind, with_umem_, with_umem, ret. cbn. rewrite Hfree.
    destruct w; reflexivity.
  - rewrite Hfl'. rewrite reverse_Permutation, take_drop. reflexivity.
Qed.





(** C5 at a concrete input: an idle pair of ports whose Fill ring asks for
    a wakeup. *)
Lemma pump_rx_empty_returns_0_witness :
  (exists w2,
     Fwd2.port_pump_once demo_add_offset 1 0 1 demo_idle_world = Done 0 w2 /\
     rx_empty_return (PORT_CQ 1) (PORT_FQ 0) 0 demo_umem demo_idle_world w2 0 true) /\
  (exists w2,
     Refactored.forward_one_packet 1 0 1 demo_idle_world = Done 0 w2 /\
     rx_empty_return UMEM_CQ UMEM_FQ 0 demo_umem demo_idle_world w2 0 true).
Proof.
  split.
  - refine (proj1 (pump_rx_empty_returns_0 demo_add_offset 1 0 1 demo_idle_world
                     (final (Fwd2.recycle_completions 1 2 demo_idle_world))
                     demo_umem _ _ _) _).
    + reflexivity.
    + unfold umem_wf. cbn. lia.
    + reflexivity.
    + vm_compute. reflexivity.
  - refine (proj2 (pump_rx_empty_returns_0 demo_add_offset 1 0 1 demo_idle_world
                     (final (Refactored.umem_mgr_process_cq demo_idle_world))
                     demo_umem _ _ _) _).
    + reflexivity.
    + unfold umem_wf. cbn. lia.
    + reflexivity.
    + vm_compute. reflexivity.
Defined.

(** C4 (amended) at a concrete input. *)
Lemma fwd2_pump_swaps_macs_witness :
  forwarded_swapped demo_add_offset 0 1 (demo_rx_world (answers demo_fwd2_answers))
    (final (Fwd2.port_pump_once demo_add_offset 1 0 1
              (demo_rx_world (answers demo_fwd2_answers)))).
Proof.
  exact (proj1 (fwd2_pump_swaps_macs demo_add_offset 1 0 1
                  (demo_rx_world (answers demo_fwd2_answers)))).
Defined.

(* ===================================================================== *)
(** * Sample runs of the properties above *)

(** The refactored freelist over a sequence of calls that frees more than
    it allocated. *)
Lemma refactored_calls_keep_wf_witness :
  exists u',
    refactored_calls [OpFreeOne 48; OpAlloc 9; OpFree [0; 16; 32; 48; 64]; OpAlloc 1]
                     demo_umem = Ok u' /\
    umem_wf u' /\ free_top u' <= n_frames u'.
Proof.
  apply (refactored_calls_keep_wf
           [OpFreeOne 48; OpAlloc 9; OpFree [0; 16; 32; 48; 64]; OpAlloc 1] demo_umem).
  - unfold umem_wf. cbn. lia.
  - repeat constructor; cbn; lia.
Defined.

(** A cohort of four ports is served round-robin. *)
Lemma slot_in_iteration_pow2_witness :
  slot_in_iteration (2 ^ 2) 7 = Z.of_nat 7 mod 2 ^ 2.
Proof. apply (slot_in_iteration_pow2 2 7). lia. Defined.

(* ===================================================================== *)
(** * Frames of the freelist *)

Lemma freelist_length u : umem_wf u -> length (freelist u) = Z.to_nat (free_top u).
Proof. intros (Hlen & Htop & Hn). unfold freelist. rewrite length_take. lia. Qed.

Lemma umem_mgr_create_some pp cfg w u w' :
  Fwd2.umem_mgr_create pp cfg w = Done (Some u) w' ->
  Refactored.umem_mgr_create pp cfg w = Done (Some u) w' /\
  u = {| umem_cfg := cfg;
         free_addrs := map (fun i => u64 (Z.of_nat i * pp_frame_size pp))
                           (seq 0 (Z.to_nat (pp_n_frames pp)));
         free_top := pp_n_frames pp; n_frames := pp_n_frames pp;
         frame_size := pp_frame_size pp; fq_initialized := 0 |}.
Proof.
  unfold Fwd2.umem_mgr_create, Refactored.umem_mgr_create.
  unfold setrlimit_memlock, calloc, mmap, xsk_umem__create, malloc,
    pthread_mutex_init, ask_int, ask_bool, ask, print, free, munmap,
    xsk_umem__delete, emit, bind, ret.
  cbn.
  repeat split_answer; intros H; try discriminate H.
  all: injection H as <- <-; split; reflexivity.
Qed.

(** X3.  Whenever umem_mgr_create of xdp_fwd2.c returns a manager (0 <=
    n_frames < 2^32, 0 < frame_size < 2^32), umem_mgr_create of the
    refactored file returns the same manager on the same answers, the
    manager is well formed, and its freelist holds n_frames pairwise
    distinct addresses, each the start of a frame inside the mapped
    area: a multiple of frame_size with address + frame_size <= n_frames
    * frame_size. *)
Theorem fresh_frames_distinct
    (pp : umem_mgr_params) (cfg : xsk_umem_config) (w w' : world) (u : umem_mgr) :
  0 <= pp_n_frames pp < 2 ^ 32 -> 0 < pp_frame_size pp < 2 ^ 32 ->
  Fwd2.umem_mgr_create pp cfg w = Done (Some u) w' ->
  Refactored.umem_mgr_create pp cfg w = Done (Some u) w' /\
  umem_wf u /\
  Z.of_nat (length (freelist u)) = pp_n_frames pp /\
  NoDup (freelist u) /\
  Forall (frame_of u) (freelist u).
Proof.
  intros Hn Hfs Hrun.
  destruct (umem_mgr_create_some pp cfg w u w' Hrun) as [Hsame Hu].
  assert (Htop : free_top u = pp_n_frames pp) by (rewrite Hu; reflexivity).
  assert (Hnf : n_frames u = pp_n_frames pp) by (rewrite Hu; reflexivity).
  assert (Hfsz : frame_size u = pp_frame_size pp) by (rewrite Hu; reflexivity).
  assert (Hlen : length (free_addrs u) = Z.to_nat (pp_n_frames pp)).
  { rewrite Hu. cbn. rewrite length_map, length_seq. reflexivity. }
  assert (Hat : forall i, (i < Z.to_nat (pp_n_frames pp))%nat ->
           free_addrs u !! i = Some (u64 (Z.of_nat i * pp_frame_size pp))).
  { intros i Hi. rewrite Hu. cbn.
    rewrite list_lookup_fmap, lookup_seq_lt by lia. reflexivity. }
  clear Hu.
  split; [exact Hsame|].
  assert (Hwf : umem_wf u) by (unfold umem_wf; lia).
  split; [exact Hwf|].
  assert (Hfl : freelist u = free_addrs u).
  { unfold freelist. apply take_ge. lia. }
  rewrite Hfl.
  split; [lia|].
  assert (Hpow : 2 ^ 32 * 2 ^ 32 = 2 ^ 64) by reflexivity.
  assert (Hval : forall i a, free_addrs u !! i = Some a ->
            (i < Z.to_nat (pp_n_frames pp))%nat /\ a = Z.of_nat i * pp_frame_size pp).
  { intros i a Hia. assert (Hi : (i < length (free_addrs u))%nat)
      by (eapply lookup_lt_Some; eassumption).
    split; [lia|]. rewrite Hat in Hia by lia. injection Hia as <-.
    unfold u64. apply Z.mod_small. nia. }
  split.
  - apply NoDup_alt. intros i j a Hi Hj.
    destruct (Hval _ _ Hi) as [Hib Hia], (Hval _ _ Hj) as [Hjb Hja]. nia.
  - apply Forall_lookup. intros i a Hia.
    destruct (Hval _ _ Hia) as [Hib ->].
    unfold frame_of, total_sz. rewrite Hnf, Hfsz.
    unfold u64. rewrite (Z.mod_small (_ * _)) by nia.
    split; [nia|]. split; [nia|]. apply Z.mod_mul. lia.
Qed.

(** Four frames of 16 bytes, every call of [umem_mgr_create] succeeding. *)
Lemma fresh_frames_distinct_witness :
  Refactored.umem_mgr_create
    {| pp_n_frames := 4; pp_frame_size := 16; pp_mmap_flags := 0 |} demo_cfg
    (Fwd2.initial_world (answers [0; 1; 1; 0; 1; 0]))
  = Done (Some demo_umem)
      (final (Fwd2.umem_mgr_create
                {| pp_n_frames := 4; pp_frame_size := 16; pp_mmap_flags := 0 |}
                demo_cfg (Fwd2.initial_world (answers [0; 1; 1; 0; 1; 0])))) /\
  umem_wf demo_umem /\
  Z.of_nat (length (freelist demo_umem)) = 4 /\
  NoDup (freelist demo_umem) /\
  Forall (frame_of demo_umem) (freelist demo_umem).
Proof.
  apply (fresh_frames_distinct
           {| pp_n_frames := 4; pp_frame_size := 16; pp_mmap_flags := 0 |} demo_cfg
           (Fwd2.initial_world (answers [0; 1; 1; 0; 1; 0]))
           (final (Fwd2.umem_mgr_create
                     {| pp_n_frames := 4; pp_frame_size := 16; pp_mmap_flags := 0 |}
                     demo_cfg (Fwd2.initial_world (answers [0; 1; 1; 0; 1; 0]))))
           demo_umem).
  - cbn. lia.
  - cbn. lia.
  - vm_compute. reflexivity.
Defined.

(** X4.  On a well-formed manager umem_alloc(want) of both files pops the
    same min(want, free_top) addresses and conserves frames: the
    freelist before the call is the freelist after it followed by the
    popped addresses, last popped first. If the freelist had no
    duplicate, the popped addresses are pairwise distinct and none of
    them is left in the freelist. *)
Theorem umem_alloc_conserves_frames (u : umem_mgr) (want : Z) :
  umem_wf u -> 0 <= want ->
  exists out u',
    Fwd2.umem_alloc u want = Ok (Z.min want (free_top u), out, u') /\
    Refactored.umem_alloc u want = Ok (Z.min want (free_top u), out, u') /\
    freelist u = freelist u' ++ reverse out /\
    (NoDup (freelist u) ->
     NoDup out /\ NoDup (freelist u') /\ forall a, a ∈ out -> a ∉ freelist u').
Proof.
  intros Hwf Hw. pose proof Hwf as (Hlen & Htop & Hn).
  set (got := Z.min want (free_top u)).
  exists (reverse (drop (Z.to_nat (free_top u - got)) (freelist u))),
         (set_free (free_addrs u) (free_top u - got) u).
  split; [apply fwd2_umem_alloc_spec; assumption|].
  split; [rewrite umem_alloc_agree by lia; apply fwd2_umem_alloc_spec; assumption|].
  assert (Hsplit : freelist u =
            freelist (set_free (free_addrs u) (free_top u - got) u)
            ++ reverse (reverse (drop (Z.to_nat (free_top u - got)) (freelist u)))).
  { rewrite reverse_involutive. unfold freelist at 2. cbn [free_top free_addrs set_free].
    rewrite <- (take_drop (Z.to_nat (free_top u - got)) (freelist u)) at 1.
    f_equal. unfold freelist. rewrite take_take. f_equal. lia. }
  split; [exact Hsplit|].
  intros Hnd. rewrite Hsplit in Hnd. apply NoDup_app in Hnd as (Hl & Hdis & Hr).
  rewrite reverse_involutive in Hr, Hdis.
  split; [|split; [exact Hl|]].
  - eapply NoDup_Permutation_proper; [apply reverse_Permutation|exact Hr].
  - intros a Ha Hin. apply (Hdis a Hin). rewrite elem_of_reverse in Ha. exact Ha.
Qed.

(** Three of the four free frames are popped. *)
Lemma umem_alloc_conserves_frames_witness :
  exists out u',
    Fwd2.umem_alloc demo_umem 3 = Ok (Z.min 3 (free_top demo_umem), out, u') /\
    Refactored.umem_alloc demo_umem 3 = Ok (Z.min 3 (free_top demo_umem), out, u') /\
    freelist demo_umem = freelist u' ++ reverse out /\
    (NoDup (freelist demo_umem) ->
     NoDup out /\ NoDup (freelist u') /\ forall a, a ∈ out -> a ∉ freelist u').
Proof.
  apply (umem_alloc_conserves_frames demo_umem 3).
  - unfold umem_wf. cbn. lia.
  - lia.
Defined.

Lemma umem_free_loop_keeps_what_fits addrs : forall u,
  umem_wf u ->
  exists u',
    Refactored.umem_free_loop addrs u = Ok u' /\ umem_wf u' /\
    freelist u' = freelist u ++ take (Z.to_nat (n_frames u - free_top u)) addrs /\
    free_top u' = Z.min (n_frames u) (free_top u + Z.of_nat (length addrs)) /\
    n_frames u' = n_frames u.
Proof.
  induction addrs as [|a rest IH]; intros u Hwf; pose proof Hwf as (Hlen & Htop & Hn);
    cbn [Refactored.umem_free_loop].
  - exists u. rewrite take_nil, app_nil_r. cbn.
    repeat (split; [first [reflexivity|assumption]|]). split; [lia|reflexivity].
  - destruct (Z.ltb_spec (free_top u) (n_frames u)) as [Hlt|Hge].
    + rewrite push_frame_spec by assumption.
      destruct (IH _ (push_frame_wf u a Hwf Hlt)) as (u' & Hrun & Hwf' & Hfl & Ht & Hnf).
      exists u'. split; [exact Hrun|]. split; [exact Hwf'|].
      rewrite Hfl, Ht, Hnf, push_frame_freelist by assumption.
      cbn [free_top n_frames set_free length].
      split; [|split; [lia|reflexivity]].
      rewrite <- app_assoc. f_equal.
      replace (Z.to_nat (n_frames u - free_top u))
        with (S (Z.to_nat (n_frames u - (free_top u + 1)))) by lia.
      reflexivity.
    + destruct (IH u Hwf) as (u' & Hrun & Hwf' & Hfl & Ht & Hnf).
      exists u'. split; [exact Hrun|]. split; [exact Hwf'|].
      rewrite Hfl, Ht, Hnf. cbn [length].
      replace (Z.to_nat (n_frames u - free_top u)) with O by lia.
      rewrite !take_0. split; [reflexivity|split; [lia|reflexivity]].
Qed.

(** X5.  umem_free of xdp_fwd2_refactored.c on a well-formed manager never
    faults: it appends to the freelist the first n_frames - free_top of
    the addresses it is given, in order, and silently drops the rest;
    free_top becomes min(n_frames, free_top + count). *)
Theorem umem_free_keeps_what_fits (u : umem_mgr) (addrs : list Z) :
  umem_wf u ->
  exists u',
    Refactored.umem_free u addrs = Ok u' /\ umem_wf u' /\
    freelist u' = freelist u ++ take (Z.to_nat (n_frames u - free_top u)) addrs /\
    free_top u' = Z.min (n_frames u) (free_top u + Z.of_nat (length addrs)).
Proof.
  intros Hwf. pose proof Hwf as (Hlen & Htop & Hn). unfold Refactored.umem_free.
  destruct (Z.eqb_spec (Z.of_nat (length addrs)) 0) as [E|E].
  - destruct addrs; [|discriminate E]. exists u.
    rewrite take_nil, app_nil_r. cbn.
    repeat (split; [first [reflexivity|assumption]|]). lia.
  - destruct (umem_free_loop_keeps_what_fits addrs u Hwf)
      as (u' & Hrun & Hwf' & Hfl & Ht & _).
    exists u'. repeat (split; [assumption|]). assumption.
Qed.

(** Three frames are returned where two fit: the third is dropped. *)
Lemma umem_free_keeps_what_fits_witness :
  exists u',
    Refactored.umem_free demo_umem_half [32; 48; 64] = Ok u' /\ umem_wf u' /\
    freelist u' = freelist demo_umem_half
                  ++ take (Z.to_nat (n_frames demo_umem_half - free_top demo_umem_half))
                          [32; 48; 64] /\
    free_top u' = Z.min (n_frames demo_umem_half)
                        (free_top demo_umem_half + Z.of_nat (length [32; 48; 64])).
Proof.
  apply (umem_free_keeps_what_fits demo_umem_half [32; 48; 64]).
  unfold umem_wf. cbn. lia.
Defined.

Lemma fwd2_call_refined o u :
  umem_wf u ->
  match o with F2Alloc want => 0 <= want | F2FreeOne _ => True end ->
  match fwd2_call o u with
  | Ok u' => refactored_call (as_refactored o) u = Ok u' /\ umem_wf u' /\
             n_frames u' = n_frames u
  | Fault f => f = OobStore (n_frames u) /\
               exists u', refactored_call (as_refactored o) u = Ok u' /\ umem_wf u' /\
                          n_frames u' = n_frames u
  end.
Proof.
  intros Hwf Hok. pose proof Hwf as (Hlen & Htop & Hn).
  destruct o as [want|a]; cbn [fwd2_call as_refactored refactored_call].
  - rewrite umem_alloc_agree by lia.
    rewrite fwd2_umem_alloc_spec by assumption.
    split; [reflexivity|]. split; [unfold umem_wf; cbn; lia|reflexivity].
  - rewrite refactored_free_one_spec by assumption.
    destruct (Z.ltb_spec (free_top u) (n_frames u)) as [Hlt|Hge].
    + unfold Fwd2.umem_free_one. rewrite push_frame_spec by assumption.
      split; [reflexivity|]. split; [apply push_frame_wf; assumption|reflexivity].
    + rewrite fwd2_free_one_full by (assumption || lia).
      split; [reflexivity|]. exists u. split; [reflexivity|split; [assumption|reflexivity]].
Qed.

Lemma refactored_calls_total ops : forall u,
  umem_wf u -> Forall op_args_ok ops ->
  exists u', refactored_calls ops u = Ok u' /\ umem_wf u'.
Proof.
  induction ops as [|o rest IH]; intros u Hwf Hok; cbn [refactored_calls].
  - exists u. split; [reflexivity|assumption].
  - inversion Hok as [|? ? Ho Hrest]; subst.
    destruct (refactored_call_total o u Hwf Ho) as (u1 & Hr & Hwf1).
    rewrite Hr. apply IH; assumption.
Qed.

(** X6.  For every sequence of umem_alloc (want >= 0) and umem_free_one
    calls from a well-formed manager, the functions of the refactored
    file run it without fault; when the functions of xdp_fwd2.c also run
    it without fault both end in the same manager state; and the only
    fault those of xdp_fwd2.c can raise is the store at index n_frames,
    one past the free_addrs array. *)
Theorem refactored_freelist_refines_fwd2 (ops : list fwd2_op) (u : umem_mgr) :
  umem_wf u -> Forall fwd2_op_ok ops ->
  exists ur,
    refactored_calls (map as_refactored ops) u = Ok ur /\ umem_wf ur /\
    match fwd2_calls ops u with
    | Ok u' => u' = ur
    | Fault f => f = OobStore (n_frames u)
    end.
Proof.
  revert u. induction ops as [|o rest IH]; intros u Hwf Hok;
    cbn [fwd2_calls map refactored_calls].
  - exists u. split; [reflexivity|split; [assumption|reflexivity]].
  - inversion Hok as [|? ? Ho Hrest]; subst.
    pose proof (fwd2_call_refined o u Hwf Ho) as Hone.
    destruct (fwd2_call o u) as [u1|f].
    + destruct Hone as (-> & Hwf1 & Hnf).
      destruct (IH u1 Hwf1 Hrest) as (ur & Hr & Hwfr & Hm).
      exists ur. split; [exact Hr|split; [exact Hwfr|]]. rewrite <- Hnf. exact Hm.
    + destruct Hone as (-> & u1 & -> & Hwf1 & _).
      assert (Hok' : Forall op_args_ok (map as_refactored rest)).
      { apply Forall_fmap. eapply Forall_impl; [exact Hrest|].
        intros [w|a] H; exact H. }
      destruct (refactored_calls_total (map as_refactored rest) u1 Hwf1 Hok')
        as (ur & Hr & Hwfr).
      exists ur. split; [exact Hr|split; [exact Hwfr|reflexivity]].
Qed.

(** A pop, a push and a push onto the full freelist: xdp_fwd2.c stores
    past the array, the refactored file drops the frame. *)
Lemma refactored_freelist_refines_fwd2_witness :
  exists ur,
    refactored_calls (map as_refactored [F2Alloc 1; F2FreeOne 48; F2FreeOne 99]) demo_umem
      = Ok ur /\ umem_wf ur /\
    match fwd2_calls [F2Alloc 1; F2FreeOne 48; F2FreeOne 99] demo_umem with
    | Ok u' => u' = ur
    | Fault f => f = OobStore (n_frames demo_umem)
    end.
Proof.
  apply (refactored_freelist_refines_fwd2 [F2Alloc 1; F2FreeOne 48; F2FreeOne 99] demo_umem).
  - unfold umem_wf. cbn. lia.
  - repeat constructor. cbn. lia.
Defined.

(** The low [t] bits of [m] are ones and bit [t] is zero. *)
Lemma land_trailing_ones m t x :
  0 <= t -> 0 <= m -> m mod 2 ^ (t + 1) = 2 ^ t - 1 -> 0 <= x <= 2 ^ t ->
  Z.land x m = x mod 2 ^ t.
Proof.
  intros Ht Hm Hlow Hx.
  assert (Hpos : 0 < 2 ^ t) by (apply Z.pow_pos_nonneg; lia).
  assert (Hbits : forall b, 0 <= b -> Z.testbit m b = if b <? t then true
                     else if b =? t then false else Z.testbit m b).
  { intros b Hb. destruct (Z.ltb_spec b t) as [Hlt|Hge].
    - rewrite <- (Z.mod_pow2_bits_low m (t + 1) b) by lia.
      rewrite Hlow. replace (2 ^ t - 1) with (Z.ones t) by (rewrite Z.ones_equiv; lia).
      apply Z.ones_spec_low. lia.
    - destruct (Z.eqb_spec b t) as [->|Hne]; [|reflexivity].
      rewrite <- (Z.mod_pow2_bits_low m (t + 1) t) by lia.
      rewrite Hlow. replace (2 ^ t - 1) with (Z.ones t) by (rewrite Z.ones_equiv; lia).
      apply Z.ones_spec_high. lia. }
  apply Z.bits_inj'. intros b Hb.
  rewrite Z.land_spec.
  destruct (Z.ltb_spec b t) as [Hlt|Hge].
  - rewrite Z.mod_pow2_bits_low by lia.
    rewrite (Hbits b Hb). destruct (Z.ltb_spec b t); [|lia]. apply andb_true_r.
  - rewrite Z.mod_pow2_bits_high by lia.
    destruct (Z.eq_dec b t) as [->|Hne].
    + rewrite (Hbits t Hb). destruct (Z.ltb_spec t t); [lia|].
      rewrite Z.eqb_refl. apply andb_false_r.
    + assert (Hxb : Z.testbit x b = false).
      { destruct (Z.eq_dec x 0) as [->|Hx0]; [apply Z.bits_0|].
        apply Z.bits_above_log2; [lia|].
        apply Z.log2_lt_pow2; [lia|].
        apply Z.le_lt_trans with (2 ^ t); [lia|].
        apply Z.pow_lt_mono_r; lia. }
      rewrite Hxb. reflexivity.
Qed.

Lemma next_slot_cycle n t i :
  0 <= t <= 31 -> 1 <= n < 2 ^ 32 -> (n - 1) mod 2 ^ (t + 1) = 2 ^ t - 1 ->
  0 <= i < 2 ^ t ->
  Fwd2.next_slot n i = (i + 1) mod 2 ^ t.
Proof.
  intros Ht Hn Hlow Hi. unfold Fwd2.next_slot.
  assert (Hpow : 2 ^ t <= 2 ^ 31) by (apply Z.pow_le_mono_r; lia).
  rewrite !u32_small by lia.
  apply land_trailing_ones; lia.
Qed.

(** X7.  In the worker of xdp_fwd2.c, for a cohort of n ports (1 <= n <
    2^32) such that n - 1 has exactly t trailing one bits (t <= 31), the
    slot serviced in iteration k is k mod 2^t: the slots 0 .. 2^t - 1
    are serviced in turn and no slot from 2^t on is ever serviced. *)
Theorem slot_in_iteration_cycle (n t : Z) (k : nat) :
  0 <= t <= 31 -> 1 <= n < 2 ^ 32 -> (n - 1) mod 2 ^ (t + 1) = 2 ^ t - 1 ->
  slot_in_iteration n k = Z.of_nat k mod 2 ^ t /\
  2 ^ t <= n /\
  (forall j k', 2 ^ t <= j -> slot_in_iteration n k' <> j) /\
  (forall j, 0 <= j < 2 ^ t -> slot_in_iteration n (Z.to_nat j) = j).
Proof.
  intros Ht Hn Hlow.
  assert (Hpos : 0 < 2 ^ t) by (apply Z.pow_pos_nonneg; lia).
  assert (Hall : forall k, slot_in_iteration n k = Z.of_nat k mod 2 ^ t).
  { clear k. induction k as [|k IH].
    - cbn. rewrite Z.mod_0_l by lia. reflexivity.
    - rewrite slot_in_iteration_S, IH.
      rewrite (next_slot_cycle n t) by (try apply Z.mod_pos_bound; lia).
      rewrite Nat2Z.inj_succ, <- Z.add_1_r.
      rewrite Zplus_mod_idemp_l. reflexivity. }
  split; [apply Hall|]. split.
  - assert (H := Z.mod_pos_bound (n - 1) (2 ^ (t + 1)) ltac:(apply Z.pow_pos_nonneg; lia)).
    assert (Hle : (n - 1) mod 2 ^ (t + 1) <= n - 1) by (apply Z.mod_le; lia || apply Z.pow_pos_nonneg; lia).
    lia.
  - split.
    + intros j k' Hj. rewrite Hall.
      pose proof (Z.mod_pos_bound (Z.of_nat k') (2 ^ t) Hpos). lia.
    + intros j Hj. rewrite Hall, Z2Nat.id by lia. apply Z.mod_small. exact Hj.
Qed.

Lemma slot_in_iteration_cycle_witness :
  slot_in_iteration 6 7 = Z.of_nat 7 mod 2 ^ 1 /\
  2 ^ 1 <= 6 /\
  (forall j k', 2 ^ 1 <= j -> slot_in_iteration 6 k' <> j) /\
  (forall j, 0 <= j < 2 ^ 1 -> slot_in_iteration 6 (Z.to_nat j) = j).
Proof. apply (slot_in_iteration_cycle 6 1 7); [lia|lia|reflexivity]. Defined.

(* ===================================================================== *)
(** * The command line of xdp_fwd2.c *)

Section CliFacts.

Variable atoi : string -> Z.

Lemma count_opt_nonneg p opts : 0 <= count_opt p opts.
Proof. induction opts as [|o rest IH]; cbn; [lia|destruct (p o); lia]. Qed.

Lemma only_printed_refl w : only_printed w w.
Proof. repeat split. exists []. split; reflexivity. Qed.

Lemma only_printed_trans w1 w2 w3 :
  only_printed w1 w2 -> only_printed w2 w3 -> only_printed w1 w3.
Proof.
  intros (Ho & Hc & Hu & Ha & Hp & n1 & Ht1 & Hp1) (Ho' & Hc' & Hu' & Ha' & Hp' & n2 & Ht2 & Hp2).
  repeat split; try congruence.
  exists (n2 ++ n1). split; [rewrite Ht2, Ht1, app_assoc; reflexivity|].
  rewrite forallb_app, Hp1, Hp2. reflexivity.
Qed.

Lemma set_iface_queue_same e : set_iface_queue (iface_queue e) e = e.
Proof. destruct e; reflexivity. Qed.

Lemma getopt_loop_spec opts : forall w,
  cli_state_ok w ->
  exists w',
    Fwd2.getopt_loop atoi opts w =
      Done (if accepted_from (n_ports (globs w)) (n_threads (globs w)) opts
            then None else Some (-1)) w' /\
    only_printed w w' /\ cli_state_ok w' /\
    g_ports (globs w') = g_ports (globs w) /\
    (accepted_from (n_ports (globs w)) (n_threads (globs w)) opts = false ->
     exists msg, trace w' = EvPrint msg :: trace w) /\
    (accepted_from (n_ports (globs w)) (n_threads (globs w)) opts = true ->
     trace w' = trace w /\
     n_ports (globs w') = n_ports (globs w) + count_opt is_OptI opts /\
     n_threads (globs w') = n_threads (globs w) + count_opt is_OptC opts /\
     (forall k e, Z.of_nat k < n_ports (globs w) - 1 ->
        g_port_params (globs w) !! k = Some e ->
        g_port_params (globs w') !! k = Some e) /\
     (forall e, 0 < n_ports (globs w) ->
        g_port_params (globs w) !! Z.to_nat (n_ports (globs w) - 1) = Some e ->
        g_port_params (globs w') !! Z.to_nat (n_ports (globs w) - 1)
          = Some (set_iface_queue (queue_for atoi opts (iface_queue e)) e)) /\
     (forall k s q e, cli_ifaces atoi opts !! k = Some (s, q) ->
        g_port_params (globs w) !! (Z.to_nat (n_ports (globs w)) + k)%nat = Some e ->
        g_port_params (globs w') !! (Z.to_nat (n_ports (globs w)) + k)%nat
          = Some (set_iface_queue q (set_iface (Some s) e))) /\
     (forall k t, Z.of_nat k < n_threads (globs w) ->
        g_thread_data (globs w) !! k = Some t ->
        g_thread_data (globs w') !! k = Some t) /\
     (forall k c t, cli_cores atoi opts !! k = Some c ->
        g_thread_data (globs w) !! (Z.to_nat (n_threads (globs w)) + k)%nat = Some t ->
        g_thread_data (globs w') !! (Z.to_nat (n_threads (globs w)) + k)%nat
          = Some (set_cpu_core_id c t))).
Proof.
  unfold Fwd2.MAX_PORTS, Fwd2.MAX_THREADS.
  induction opts as [|o rest IH]; intros w Hok.
  - exists w. cbn [Fwd2.getopt_loop]. unfold accepted_from. cbn [forallb count_opt q_first].
    pose proof Hok as (Hnp & Hnt & Hlp & Hlt).
    unfold Fwd2.MAX_PORTS, Fwd2.MAX_THREADS in Hnp, Hnt, Hlp, Hlt |- *.
    rewrite !Z.add_0_r.
    destruct (Z.leb_spec (n_ports (globs w)) 64); [|lia].
    destruct (Z.leb_spec (n_threads (globs w)) 64); [|lia].
    rewrite orb_true_r. cbn.
    split; [reflexivity|]. split; [apply only_printed_refl|].
    split; [exact Hok|]. split; [reflexivity|]. split; [discriminate|].
    intros _. split; [reflexivity|]. split; [lia|]. split; [lia|].
    split; [intros k e _ Hq; exact Hq|].
    split; [intros e _ Hq; rewrite Hq, set_iface_queue_same; reflexivity|].
    split; [intros k s q e Hq; destruct k; discriminate Hq|].
    split; [intros k t _ Hq; exact Hq|].
    intros k c t Hq; destruct k; discriminate Hq.
  - pose proof Hok as (Hnp & Hnt & Hlp & Hlt).
    unfold Fwd2.MAX_PORTS, Fwd2.MAX_THREADS in Hnp, Hnt, Hlp, Hlt |- *.
    pose proof (count_opt_nonneg is_OptI rest) as Hci.
    pose proof (count_opt_nonneg is_OptC rest) as Hcc.
    set (np := n_ports (globs w)) in *. set (nt := n_threads (globs w)) in *.
    cbn [Fwd2.getopt_loop]. unfold bind at 1. unfold get_globs.
    destruct o as [s|s|s|].
    + (* -c *)
      fold nt. unfold Fwd2.MAX_THREADS.
      destruct (Z.eqb_spec nt 64) as [E|E].
      * assert (Hacc : accepted_from np nt (OptC s :: rest) = false).
        { unfold accepted_from. cbn [count_opt is_OptC is_OptI].
          unfold Fwd2.MAX_THREADS.
          destruct (Z.leb_spec (nt + (1 + count_opt is_OptC rest)) 64); [lia|].
          rewrite andb_false_r. reflexivity. }
        rewrite Hacc. cbn. eexists. split; [reflexivity|].
        split; [|split; [exact Hok|split; [reflexivity|
          split; [intros _; eexists; reflexivity|discriminate]]]].
        repeat split. exists [EvPrint "Max threads (%d) reached."]. split; reflexivity.
      * unfold bind at 1.
        destruct (store_at_ok (g_thread_data (globs w)) nt
                    (set_cpu_core_id (u32 (atoi s))) w) as (x & Hx & ->); [lia|].
        unfold bind at 1. unfold put_globs.
        match goal with |- context [Fwd2.getopt_loop _ _ ?w1] => set (w1' := w1) end.
        assert (Hok1 : cli_state_ok w1').
        { unfold cli_state_ok, Fwd2.MAX_PORTS, Fwd2.MAX_THREADS. cbn.
          rewrite length_insert. fold np nt. lia. }
        destruct (IH w1' Hok1) as (w' & Hrun & Hfr & Hok' & Hgp & Hrej' & Hacc').
        cbn [w1' globs set_globs n_ports n_threads set_n_threads set_g_thread_data
             g_port_params g_thread_data g_ports] in Hrun, Hacc', Hgp.
        fold np nt in Hrun, Hacc'.
        assert (Hacc : accepted_from np nt (OptC s :: rest)
                       = accepted_from np (nt + 1) rest).
        { unfold accepted_from. cbn [forallb count_opt is_OptC is_OptI is_OptUnknown q_first negb].
          rewrite andb_true_l. do 2 f_equal. f_equal. lia. }
        rewrite Hacc. exists w'. split; [exact Hrun|].
        split; [eapply only_printed_trans; [|exact Hfr]; repeat split;
                exists []; split; reflexivity|].
        split; [exact Hok'|]. split; [exact Hgp|].
        split; [intros Hr; destruct (Hrej' Hr) as (msg & Hm); exists msg; exact Hm|].
        intros Ha. destruct (Hacc' Ha) as (Htr & Hn1 & Hn2 & T1 & T2 & T3 & C1 & C2).
        cbn [count_opt is_OptC is_OptI queue_for cli_ifaces cli_cores].
        split; [exact Htr|]. split; [lia|]. split; [lia|].
        split; [exact T1|]. split; [exact T2|]. split; [exact T3|].
        split.
        { intros k t Hk Ht. apply C1; [lia|].
          rewrite list_lookup_insert_ne by lia. exact Ht. }
        { intros k c t Hc Ht. destruct k as [|k].
          - cbn in Hc. injection Hc as <-. rewrite Nat.add_0_r in *.
            apply C1; [lia|]. rewrite Ht in Hx. injection Hx as <-.
            apply list_lookup_insert_eq. lia.
          - cbn in Hc.
            replace (Z.to_nat nt + S k)%nat with (Z.to_nat (nt + 1) + k)%nat by lia.
            apply C2; [exact Hc|].
            rewrite list_lookup_insert_ne by lia.
            replace (Z.to_nat (nt + 1) + k)%nat with (Z.to_nat nt + S k)%nat by lia.
            exact Ht. }
    + (* -i *)
      fold np. unfold Fwd2.MAX_PORTS.
      destruct (Z.eqb_spec np 64) as [E|E].
      * assert (Hacc : accepted_from np nt (OptI s :: rest) = false).
        { unfold accepted_from. cbn [count_opt is_OptC is_OptI].
          unfold Fwd2.MAX_PORTS.
          destruct (Z.leb_spec (np + (1 + count_opt is_OptI rest)) 64); [lia|].
          rewrite andb_false_r. reflexivity. }
        rewrite Hacc. cbn. eexists. split; [reflexivity|].
        split; [|split; [exact Hok|split; [reflexivity|
          split; [intros _; eexists; reflexivity|discriminate]]]].
        repeat split. exists [EvPrint "Max ports (%d) reached."]. split; reflexivity.
      * unfold bind at 1.
        destruct (store_at_ok (g_port_params (globs w)) np
                    (fun pr => set_iface_queue 0 (set_iface (Some s) pr)) w)
          as (x & Hx & ->); [lia|].
        unfold bind at 1. unfold put_globs.
        match goal with |- context [Fwd2.getopt_loop _ _ ?w1] => set (w1' := w1) end.
        assert (Hok1 : cli_state_ok w1').
        { unfold cli_state_ok, Fwd2.MAX_PORTS, Fwd2.MAX_THREADS. cbn.
          rewrite length_insert. fold np nt. lia. }
        destruct (IH w1' Hok1) as (w' & Hrun & Hfr & Hok' & Hgp & Hrej' & Hacc').
        cbn [w1' globs set_globs n_ports n_threads set_n_ports set_g_port_params
             g_port_params g_thread_data g_ports] in Hrun, Hacc', Hgp.
        fold np nt in Hrun, Hacc'.
        assert (Hacc : accepted_from np nt (OptI s :: rest)
                       = accepted_from (np + 1) nt rest).
        { unfold accepted_from. cbn [forallb count_opt is_OptC is_OptI is_OptUnknown q_first negb].
          rewrite andb_true_l.
          destruct (Z.ltb_spec 0 (np + 1)); [|lia].
          rewrite !orb_true_r || rewrite orb_true_l.
          cbn. rewrite !andb_true_r. do 2 f_equal; f_equal; lia. }
        rewrite Hacc. exists w'. split; [exact Hrun|].
        split; [eapply only_printed_trans; [|exact Hfr]; repeat split;
                exists []; split; reflexivity|].
        split; [exact Hok'|]. split; [exact Hgp|].
        split; [intros Hr; destruct (Hrej' Hr) as (msg & Hm); exists msg; exact Hm|].
        intros Ha. destruct (Hacc' Ha) as (Htr & Hn1 & Hn2 & T1 & T2 & T3 & C1 & C2).
        cbn [count_opt is_OptC is_OptI queue_for cli_ifaces cli_cores].
        split; [exact Htr|]. split; [lia|]. split; [lia|].
        split.
        { intros k e Hk He. apply T1; [lia|].
          rewrite list_lookup_insert_ne by lia. exact He. }
        split.
        { intros e Hpos He. rewrite set_iface_queue_same. apply T1; [lia|].
          rewrite list_lookup_insert_ne by lia. exact He. }
        split.
        { intros k s' q e Hk He. destruct k as [|k].
          - cbn in Hk. injection Hk as <- <-. rewrite Nat.add_0_r in *.
            rewrite He in Hx. injection Hx as <-.
            specialize (T2 (set_iface_queue 0 (set_iface (Some s) e)) ltac:(lia)).
            replace (Z.to_nat (np + 1 - 1)) with (Z.to_nat np) in T2 by lia.
            rewrite T2 by (apply list_lookup_insert_eq; lia). reflexivity.
          - cbn in Hk.
            replace (Z.to_nat np + S k)%nat with (Z.to_nat (np + 1) + k)%nat by lia.
            apply T3; [exact Hk|].
            rewrite list_lookup_insert_ne by lia.
            replace (Z.to_nat (np + 1) + k)%nat with (Z.to_nat np + S k)%nat by lia.
            exact He. }
        split; [exact C1|exact C2].
    + (* -q *)
      fold np.
      destruct (Z.eqb_spec np 0) as [E|E].
      * assert (Hacc : accepted_from np nt (OptQ s :: rest) = false).
        { unfold accepted_from. cbn [q_first]. rewrite E. cbn.
          rewrite !andb_false_r. reflexivity. }
        rewrite Hacc. cbn. eexists. split; [reflexivity|].
        split; [|split; [exact Hok|split; [reflexivity|
          split; [intros _; eexists; reflexivity|discriminate]]]].
        repeat split. exists [EvPrint "No port specified for queue."]. split; reflexivity.
      * unfold bind at 1.
        destruct (store_at_ok (g_port_params (globs w)) (np - 1)
                    (set_iface_queue (u32 (atoi s))) w)
          as (x & Hx & ->); [lia|].
        unfold bind at 1. unfold put_globs.
        match goal with |- context [Fwd2.getopt_loop _ _ ?w1] => set (w1' := w1) end.
        assert (Hok1 : cli_state_ok w1').
        { unfold cli_state_ok, Fwd2.MAX_PORTS, Fwd2.MAX_THREADS. cbn.
          rewrite length_insert. fold np nt. lia. }
        destruct (IH w1' Hok1) as (w' & Hrun & Hfr & Hok' & Hgp & Hrej' & Hacc').
        cbn [w1' globs set_globs n_ports n_threads set_n_ports set_g_port_params
             g_port_params g_thread_data g_ports] in Hrun, Hacc', Hgp.
        fold np nt in Hrun, Hacc'.
        assert (Hacc : accepted_from np nt (OptQ s :: rest)
                       = accepted_from np nt rest).
        { unfold accepted_from. cbn [forallb count_opt is_OptC is_OptI is_OptUnknown q_first negb].
          rewrite andb_true_l.
          destruct (Z.ltb_spec 0 np); [|lia]. cbn. reflexivity. }
        rewrite Hacc. exists w'. split; [exact Hrun|].
        split; [eapply only_printed_trans; [|exact Hfr]; repeat split;
                exists []; split; reflexivity|].
        split; [exact Hok'|]. split; [exact Hgp|].
        split; [intros Hr; destruct (Hrej' Hr) as (msg & Hm); exists msg; exact Hm|].
        intros Ha. destruct (Hacc' Ha) as (Htr & Hn1 & Hn2 & T1 & T2 & T3 & C1 & C2).
        cbn [count_opt is_OptC is_OptI queue_for cli_ifaces cli_cores].
        split; [exact Htr|]. split; [lia|]. split; [lia|].
        split.
        { intros k e Hk He. apply T1; [lia|].
          rewrite list_lookup_insert_ne by lia. exact He. }
        split.
        { intros e Hpos He. rewrite He in Hx. injection Hx as <-.
          rewrite (T2 (set_iface_queue (u32 (atoi s)) e) Hpos)
            by (apply list_lookup_insert_eq; lia).
          reflexivity. }
        split.
        { intros k s' q e Hk He. apply T3; [exact Hk|].
          rewrite list_lookup_insert_ne by lia. exact He. }
        split; [exact C1|exact C2].
    + (* unknown *)
      assert (Hacc : accepted_from np nt (OptUnknown :: rest) = false) by reflexivity.
      rewrite Hacc. cbn. eexists. split; [reflexivity|].
      split; [|split; [exact Hok|split; [reflexivity|
          split; [intros _; eexists; reflexivity|discriminate]]]].
      repeat split. exists [EvPrint "Illegal argument."]. split; reflexivity.
Qed.

End CliFacts.

Section ParseArgs.

Variable atoi : string -> Z.
Variable hdr : xsk_defs.

Lemma cli_world_ok o : cli_state_ok (cli_world hdr o).
Proof.
  unfold cli_state_ok. vm_compute. repeat split; congruence.
Qed.

Lemma cli_accepts_split opts :
  cli_accepts opts =
    accepted_from 0 0 opts &&
    (0 <? count_opt is_OptI opts) && (0 <? count_opt is_OptC opts) &&
    (count_opt is_OptI opts mod count_opt is_OptC opts =? 0).
Proof. unfold cli_accepts, accepted_from. cbn. reflexivity. Qed.

Lemma parse_args_spec o opts :
  exists w',
    Fwd2.parse_args atoi opts (cli_world hdr o)
      = Done (if cli_accepts opts then 0 else -1) w' /\
    only_printed (cli_world hdr o) w' /\
    (cli_accepts opts = false -> exists msg, trace w' = [EvPrint msg]) /\
    (cli_accepts opts = true ->
     n_ports (globs w') = count_opt is_OptI opts /\
     n_threads (globs w') = count_opt is_OptC opts /\
     trace w' = [] /\
     g_ports (globs w') = replicate (Z.to_nat Fwd2.MAX_PORTS) None /\
     (forall k s q, cli_ifaces atoi opts !! k = Some (s, q) ->
        g_port_params (globs w') !! k
          = Some (set_iface_queue q (set_iface (Some s) (Fwd2.port_params_default hdr)))) /\
     (forall k c, cli_cores atoi opts !! k = Some c ->
        g_thread_data (globs w') !! k
          = Some (set_cpu_core_id c Fwd2.zero_thread_data))).
Proof.
  destruct (getopt_loop_spec atoi opts (cli_world hdr o) (cli_world_ok o))
    as (w1 & Hrun & Hfr & Hok1 & Hgp & Hrej & Hacc).
  change (n_ports (globs (cli_world hdr o))) with 0 in Hrun, Hacc, Hrej.
  change (n_threads (globs (cli_world hdr o))) with 0 in Hrun, Hacc, Hrej.
  pose proof (count_opt_nonneg is_OptI opts) as Hci.
  pose proof (count_opt_nonneg is_OptC opts) as Hcc.
  unfold Fwd2.parse_args. unfold bind at 1. rewrite Hrun.
  rewrite cli_accepts_split.
  destruct (accepted_from 0 0 opts) eqn:Ha.
  2:{ exists w1. split; [reflexivity|]. split; [exact Hfr|].
      split; [intros _; exact (Hrej eq_refl)|discriminate]. }
  destruct (Hacc eq_refl) as (Htr & Hn1 & Hn2 & _ & _ & T3 & _ & C2).
  rewrite Z.add_0_l in Hn1, Hn2.
  unfold bind at 1. unfold get_globs. rewrite Hn1, Hn2. cbn [andb].
  assert (Hpr : forall msg, only_printed (cli_world hdr o)
                              (set_trace (EvPrint msg :: trace w1) w1)).
  { intros msg. eapply only_printed_trans; [exact Hfr|].
    repeat split. exists [EvPrint msg]. split; reflexivity. }
  assert (Hmsg : forall msg, exists m,
             trace (set_trace (EvPrint msg :: trace w1) w1) = [EvPrint m]).
  { intros msg. exists msg. cbn. rewrite Htr. reflexivity. }
  destruct (Z.eqb_spec (count_opt is_OptI opts) 0) as [Ei|Ei].
  { rewrite Ei. cbn. eexists. split; [reflexivity|].
    split; [apply Hpr|]. split; [intros _; apply Hmsg|discriminate]. }
  destruct (Z.ltb_spec 0 (count_opt is_OptI opts)) as [_|]; [|lia].
  destruct (Z.eqb_spec (count_opt is_OptC opts) 0) as [Ec|Ec].
  { rewrite Ec. cbn. eexists. split; [reflexivity|].
    split; [apply Hpr|]. split; [intros _; apply Hmsg|discriminate]. }
  destruct (Z.ltb_spec 0 (count_opt is_OptC opts)) as [_|]; [|lia].
  rewrite Z.rem_mod_nonneg by lia. cbn [andb].
  destruct (Z.eqb_spec (count_opt is_OptI opts mod count_opt is_OptC opts) 0) as [Em|Em].
  - cbn. exists w1. split; [reflexivity|]. split; [exact Hfr|].
    split; [discriminate|].
    intros _. split; [exact Hn1|]. split; [exact Hn2|]. split; [exact Htr|].
    split; [exact Hgp|].
    split.
    + intros k s q Hk.
      assert (Hlt : (k < length (cli_ifaces atoi opts))%nat)
        by (eapply lookup_lt_Some; exact Hk).
      apply (T3 k s q _ Hk). cbn.
      apply lookup_replicate_2.
      destruct Hok1 as (Hb & _). rewrite Hn1 in Hb.
      assert (Hlen : Z.of_nat (length (cli_ifaces atoi opts)) = count_opt is_OptI opts).
      { clear. induction opts as [|[]]; cbn [cli_ifaces count_opt is_OptI length]; lia. }
      unfold Fwd2.MAX_PORTS in *. lia.
    + intros k c Hk.
      assert (Hlt : (k < length (cli_cores atoi opts))%nat)
        by (eapply lookup_lt_Some; exact Hk).
      apply (C2 k c _ Hk). cbn.
      apply lookup_replicate_2.
      destruct Hok1 as (_ & Hb & _). rewrite Hn2 in Hb.
      assert (Hlen : Z.of_nat (length (cli_cores atoi opts)) = count_opt is_OptC opts).
      { clear. induction opts as [|[]]; cbn [cli_cores count_opt is_OptC length]; lia. }
      unfold Fwd2.MAX_THREADS in *. lia.
  - cbn. eexists. split; [reflexivity|].
    split; [apply Hpr|]. split; [intros _; apply Hmsg|discriminate].
Qed.

End ParseArgs.

(** X8.  parse_args of xdp_fwd2.c, run on the initial process image with the
    default port table, returns 0 exactly on the command lines that have
    only known options, at most MAX_PORTS -i and MAX_THREADS -c options,
    no -q before the first -i, at least one -i and one -c, and a number
    of -i divisible by the number of -c; on every other command line it
    returns -1. It only prints and writes the file-scope tables; when it
    returns 0 it has printed nothing, n_ports and n_threads are the
    numbers of -i and -c options, and 1 <= n_threads <= n_ports <=
    MAX_PORTS with n_ports mod n_threads = 0. *)
Theorem parse_args_accepts_exactly
    (atoi : string -> Z) (hdr : xsk_defs) (o : nat -> Z) (opts : list cli_opt) :
  exists w',
    Fwd2.parse_args atoi opts (cli_world hdr o)
      = Done (if cli_accepts opts then 0 else -1) w' /\
    only_printed (cli_world hdr o) w' /\
    (cli_accepts opts = true ->
     trace w' = [] /\
     n_ports (globs w') = count_opt is_OptI opts /\
     n_threads (globs w') = count_opt is_OptC opts /\
     1 <= n_threads (globs w') <= n_ports (globs w') /\
     n_ports (globs w') <= Fwd2.MAX_PORTS /\
     n_ports (globs w') mod n_threads (globs w') = 0).
Proof.
  destruct (parse_args_spec atoi hdr o opts) as (w' & Hrun & Hfr & _ & Hacc).
  exists w'. split; [exact Hrun|]. split; [exact Hfr|].
  intros Ha. destruct (Hacc Ha) as (Hn1 & Hn2 & Htr & _).
  rewrite Hn1, Hn2. split; [exact Htr|]. split; [reflexivity|]. split; [reflexivity|].
  unfold cli_accepts in Ha.
  repeat (apply andb_prop in Ha as [Ha ?]).
  repeat match goal with
         | H : (_ <=? _) = true |- _ => apply Z.leb_le in H
         | H : (_ <? _) = true |- _ => apply Z.ltb_lt in H
         | H : (_ =? _) = true |- _ => apply Z.eqb_eq in H
         end.
  split; [|split; [assumption|assumption]].
  split; [lia|].
  match goal with H : _ mod _ = 0 |- _ => apply Z.mod_divide in H; [|lia];
    apply Z.divide_pos_le in H; lia end.
Qed.

(** X9.  On a command line it accepts, parse_args of xdp_fwd2.c leaves in
    port_params[k] the k-th -i argument as interface name, as queue the
    value (atoi, as u32) of the last -q that follows it before the next
    -i, or 0 when there is none, and the default socket configuration;
    and in thread_data[k].cpu_core_id the value of the k-th -c argument. *)
Theorem parse_args_fills_tables
    (atoi : string -> Z) (hdr : xsk_defs) (o : nat -> Z) (opts : list cli_opt) :
  cli_accepts opts = true ->
  exists w',
    Fwd2.parse_args atoi opts (cli_world hdr o) = Done 0 w' /\
    Z.of_nat (length (cli_ifaces atoi opts)) = n_ports (globs w') /\
    Z.of_nat (length (cli_cores atoi opts)) = n_threads (globs w') /\
    (forall k s q, cli_ifaces atoi opts !! k = Some (s, q) ->
       g_port_params (globs w') !! k
         = Some {| xsk_cfg := xsk_cfg (Fwd2.port_params_default hdr);
                   iface := Some s; iface_queue := q |}) /\
    (forall k c, cli_cores atoi opts !! k = Some c ->
       cpu_core_id <$> g_thread_data (globs w') !! k = Some c).
Proof.
  intros Ha.
  destruct (parse_args_spec atoi hdr o opts) as (w' & Hrun & Hfr & _ & Hacc).
  rewrite Ha in Hrun. destruct (Hacc Ha) as (Hn1 & Hn2 & _ & _ & T & C).
  exists w'. split; [exact Hrun|].
  split.
  { rewrite Hn1. clear. induction opts as [|[]]; cbn [cli_ifaces count_opt is_OptI length]; lia. }
  split.
  { rewrite Hn2. clear. induction opts as [|[]]; cbn [cli_cores count_opt is_OptC length]; lia. }
  split.
  - intros k s q Hk. rewrite (T k s q Hk). reflexivity.
  - intros k c Hk. rewrite (C k c Hk). reflexivity.
Qed.

Lemma parse_args_fills_tables_witness :
  exists w',
    Fwd2.parse_args demo_atoi
      [OptC "3"; OptI "eth0"; OptQ "333"; OptQ "22"; OptI "eth1"] (cli_world demo_hdr (answers []))
      = Done 0 w' /\
    Z.of_nat (length (cli_ifaces demo_atoi
      [OptC "3"; OptI "eth0"; OptQ "333"; OptQ "22"; OptI "eth1"])) = n_ports (globs w') /\
    Z.of_nat (length (cli_cores demo_atoi
      [OptC "3"; OptI "eth0"; OptQ "333"; OptQ "22"; OptI "eth1"])) = n_threads (globs w') /\
    (forall k s q, cli_ifaces demo_atoi
         [OptC "3"; OptI "eth0"; OptQ "333"; OptQ "22"; OptI "eth1"] !! k = Some (s, q) ->
       g_port_params (globs w') !! k
         = Some {| xsk_cfg := xsk_cfg (Fwd2.port_params_default demo_hdr);
                   iface := Some s; iface_queue := q |}) /\
    (forall k c, cli_cores demo_atoi
         [OptC "3"; OptI "eth0"; OptQ "333"; OptQ "22"; OptI "eth1"] !! k = Some c ->
       cpu_core_id <$> g_thread_data (globs w') !! k = Some c).
Proof.
  apply (parse_args_fills_tables demo_atoi demo_hdr (answers [])
           [OptC "3"; OptI "eth0"; OptQ "333"; OptQ "22"; OptI "eth1"]).
  reflexivity.
Defined.

(** X10.  On every command line parse_args rejects, main of xdp_fwd2.c
    returns -1 without making a call that takes an answer from the
    system and without creating a UMEM manager or a port; the calls the
    program itself makes are prints only, the usage text last. When
    every option is one getopt_long recognises with its argument, so
    that getopt_long (whose opterr the program leaves set) writes no
    message of its own, the program prints exactly one diagnostic and
    then the usage text. For an unknown option or a missing argument
    getopt_long's own message precedes 'Illegal argument.' and is not
    part of the program's calls. *)
Theorem main_exits_on_rejected_command_line
    (atoi : string -> Z) (hdr : xsk_defs) (o : nat -> Z) (opts : list cli_opt) :
  cli_accepts opts = false ->
  exists w',
    Fwd2.main atoi hdr opts (Fwd2.initial_world o) = Done (Exit (-1)) w' /\
    clock w' = O /\ umem w' = None /\ ports w' = [] /\
    head (trace w') = Some (EvPrint "Usage:") /\
    forallb is_print (trace w') = true /\
    (forallb (fun o => negb (is_OptUnknown o)) opts = true ->
     exists msg, trace w' = [EvPrint "Usage:"; EvPrint msg]).
Proof.
  intros Ha.
  destruct (parse_args_spec atoi hdr o opts)
    as (w1 & Hrun & (_ & Hck & Hum & _ & Hps & _) & Hrej & _).
  rewrite Ha in Hrun. destruct (Hrej Ha) as (msg & Hmsg).
  unfold Fwd2.main.
  unfold bind at 1. unfold get_globs. unfold bind at 1. unfold put_globs.
  change (set_globs _ (Fwd2.initial_world o)) with (cli_world hdr o).
  unfold bind at 1. rewrite Hrun. cbn.
  eexists. split; [reflexivity|]. cbn. rewrite Hmsg.
  split; [exact Hck|]. split; [exact Hum|]. split; [exact Hps|].
  split; [reflexivity|]. split; [reflexivity|].
  intros _. exists msg. reflexivity.
Qed.

(** [-c 0 -c 1 -i a -i b -i c]: three ports do not divide among two
    threads. *)
Lemma main_exits_on_rejected_command_line_witness :
  exists w',
    Fwd2.main demo_atoi demo_hdr [OptC "0"; OptC "1"; OptI "a"; OptI "b"; OptI "c"]
      (Fwd2.initial_world (answers [])) = Done (Exit (-1)) w' /\
    clock w' = O /\ umem w' = None /\ ports w' = [] /\
    head (trace w') = Some (EvPrint "Usage:") /\
    forallb is_print (trace w') = true /\
    (forallb (fun o => negb (is_OptUnknown o))
       [OptC "0"; OptC "1"; OptI "a"; OptI "b"; OptI "c"] = true ->
     exists msg, trace w' = [EvPrint "Usage:"; EvPrint msg]).
Proof.
  apply (main_exits_on_rejected_command_line demo_atoi demo_hdr (answers [])
           [OptC "0"; OptC "1"; OptI "a"; OptI "b"; OptI "c"]).
  reflexivity.
Defined.

(* ===================================================================== *)
(** * Creating and destroying the manager; initialising ports and rings *)

(** X11.  umem_mgr_destroy (the same code in both files), called on the
    manager a successful umem_mgr_create returned, gives back the five
    resources of the manager in the reverse order of their acquisition:
    the mutex is destroyed, free_addrs is freed, the kernel UMEM is
    deleted, the area is unmapped with the length it was mapped with,
    and the manager object is freed. Nothing stays held. *)
Theorem create_then_destroy_releases_everything
    (pp : umem_mgr_params) (cfg : xsk_umem_config) (w w1 : world) (u : umem_mgr) :
  Fwd2.umem_mgr_create pp cfg w = Done (Some u) w1 ->
  exists w2 new,
    Fwd2.umem_mgr_destroy (Some u) w1 = Done tt w2 /\
    Refactored.umem_mgr_destroy (Some u) w1 = Done tt w2 /\
    trace w2 = new ++ trace w /\
    unwound_after (reverse new) [] = Some [] /\
    omap gives_back (reverse new)
      = [ObjMutex; ObjFreeAddrs; ObjKernelUmem; ObjMapping; ObjUmemMgr] /\
    In (EvMmap (total_sz (pp_n_frames pp) (pp_frame_size pp)) (pp_mmap_flags pp) true) new /\
    In (EvMunmap (total_sz (pp_n_frames pp) (pp_frame_size pp))) new /\
    umem w2 = None.
Proof.
  unfold Fwd2.umem_mgr_create.
  unfold setrlimit_memlock, calloc, mmap, xsk_umem__create, malloc,
    pthread_mutex_init, ask_int, ask_bool, ask, print, free, munmap,
    xsk_umem__delete, emit, bind, ret.
  cbn.
  repeat split_answer; intros H; try discriminate H.
  all: injection H as <- <-.
  all: eexists _, _; split; [reflexivity|]; split; [reflexivity|]; cbn.
  all: split; [solve_trace|].
  all: split; [reflexivity|]; split; [reflexivity|]; cbn; auto 20.
Qed.

Lemma fill_loop_run r pos frames : forall i w,
  fill_loop r pos frames i w
    = Done tt (set_trace (reverse (fill_events r pos frames i) ++ trace w) w).
Proof.
  induction frames as [|a rest IH]; intros i w; cbn [fill_loop fill_events].
  - destruct w; reflexivity.
  - unfold bind, xsk_ring_prod__fill_addr, emit. rewrite IH.
    rewrite reverse_cons, <- app_assoc. reflexivity.
Qed.







Lemma refactored_fill_fq_ok want w u :
  umem w = Some u -> umem_wf u -> 0 < want -> 0 < free_top u ->
  s32 (u32 (oracle w (clock w))) = s32 (Z.min want (free_top u)) ->
  Refactored.umem_mgr_fill_fq want w =
    Done (s32 (Z.min want (free_top u)))
      (set_umem (Some (set_free (free_addrs u)
                         (free_top u - Z.min want (free_top u)) u))
         (set_trace
            (EvSubmit UMEM_FQ (Z.min want (free_top u))
             :: reverse (fill_events UMEM_FQ (u32 (oracle w (S (clock w))))
                           (popped u (Z.min want (free_top u))) 0)
             ++ EvReserve UMEM_FQ (Z.min want (free_top u))
                  (u32 (oracle w (clock w))) (u32 (oracle w (S (clock w))))
             :: trace w)
            (set_clock (S (S (clock w))) w))).
Proof.
  intros Hu Hwf Hw Htop Hres. pose proof Hwf as (Hlen & Htop' & Hn).
  unfold Refactored.umem_mgr_fill_fq.
  destruct (Z.eqb_spec want 0) as [E|_]; [lia|].
  unfold bind at 1. unfold with_umem at 1. rewrite Hu.
  rewrite umem_alloc_agree, fwd2_umem_alloc_spec by (assumption || lia).
  cbn [fst snd].
  set (got := Z.min want (free_top u)) in *.
  destruct (Z.eqb_spec got 0) as [E|_]; [lia|].
  unfold xsk_ring_prod__reserve, ask_u32, ask, emit, ret.
  unfold bind at 1 2 3 4 5 6. cbn.
  destruct (Z.eqb_spec (s32 (u32 (oracle w (clock w)))) (s32 got)) as [_|E];
    [|contradiction].
  cbn. unfold bind at 1. rewrite fill_loop_run.
  unfold xsk_ring_prod__submit, emit, bind, ret. cbn.
  destruct w; reflexivity.
Qed.

Lemma fwd2_port_init_ok pr w u :
  umem w = Some u -> umem_wf u -> 0 < fill_size (umem_cfg u) -> 0 < free_top u ->
  oracle w (clock w) <> 0 ->
  s32 (oracle w (S (clock w))) = 0 ->
  s32 (u32 (oracle w (S (S (clock w)))))
    = s32 (Z.min (Z.min (fill_size (umem_cfg u)) 4096) (free_top u)) ->
  exists w',
    Fwd2.port_init pr w = Done (Some (length (ports w))) w' /\
    umem w' = Some (set_free (free_addrs u)
                      (free_top u - Z.min (Z.min (fill_size (umem_cfg u)) 4096) (free_top u))
                      u) /\
    trace w' =
      EvSubmit (PORT_FQ (length (ports w)))
        (Z.min (Z.min (fill_size (umem_cfg u)) 4096) (free_top u))
      :: reverse (fill_events (PORT_FQ (length (ports w)))
                    (u32 (oracle w (S (S (S (clock w))))))
                    (popped u (Z.min (Z.min (fill_size (umem_cfg u)) 4096) (free_top u))) 0)
      ++ [EvReserve (PORT_FQ (length (ports w)))
            (Z.min (Z.min (fill_size (umem_cfg u)) 4096) (free_top u))
            (u32 (oracle w (S (S (clock w))))) (u32 (oracle w (S (S (S (clock w))))));
          EvSocketCreate (length (ports w)) (iface pr) (iface_queue pr) 0;
          EvCalloc (ObjPort (length (ports w))) true]
      ++ trace w /\
    ports w' = ports w ++
      [ {| params := pr; xsk := true; umem_fq_initialized := 1;
           n_pkts_rx := 0; n_pkts_tx := 0 |} ] /\
    clock w' = S (S (S (S (clock w)))) /\ oracle w' = oracle w /\
    globs w' = globs w /\ umem_area w' = umem_area w.
Proof.
  intros Hu Hwf Hfill Htop Hcalloc Hsock Hres. pose proof Hwf as (Hlen & Htop' & Hn).
  set (need := Z.min (fill_size (umem_cfg u)) 4096) in *.
  unfold Fwd2.port_init.
  unfold bind at 1. unfold calloc_port, calloc, ask_bool, ask, emit, bind at 1 2 3, ret.
  cbn. destruct (Z.eqb_spec (oracle w (clock w)) 0) as [E|_]; [contradiction|]. cbn.
  unfold bind at 1. unfold update_port at 1. cbn.
  rewrite lookup_app_r, Nat.sub_diag by reflexivity. cbn.
  unfold bind at 1. unfold xsk_socket__create_shared, ask_int, ask, emit, ret.
  unfold bind at 1 2 3 4 5 6. cbn. rewrite Hsock. cbn.
  unfold update_port at 1. cbn.
  rewrite list_lookup_insert_eq by (rewrite length_app; cbn; lia). cbn.
  rewrite list_insert_insert_eq.
  assert (Hins : forall q : port, <[length (ports w) := q]> (ports w ++ [zero_port])
                                 = ports w ++ [q]).
  { intros q. rewrite insert_app_r_alt, Nat.sub_diag by reflexivity. reflexivity. }
  rewrite Hins.
  unfold bind at 1. unfold get_umem. cbn. rewrite Hu.
  destruct (Z.ltb_spec 0 (fill_size (umem_cfg u))) as [_|E]; [|lia].
  assert (Hneed : (if 4096 <? fill_size (umem_cfg u) then 4096
                   else fill_size (umem_cfg u)) = need).
  { unfold need. destruct (Z.ltb_spec 4096 (fill_size (umem_cfg u))); lia. }
  rewrite Hneed.
  unfold bind at 1. unfold with_umem at 1. cbn. rewrite Hu.
  rewrite fwd2_umem_alloc_spec by (assumption || (unfold need; lia)).
  cbn [fst snd].
  set (got := Z.min need (free_top u)) in *.
  destruct (Z.eqb_spec got 0) as [Eg|Eg]; [unfold got, need in Eg; lia|].
  unfold xsk_ring_prod__reserve, ask_u32, ask, emit, ret.
  unfold bind at 1 2 3 4 5 6. cbn.
  destruct (Z.eqb_spec (s32 (u32 (oracle w (S (S (clock w)))))) (s32 got)) as [_|Er];
    [|contradiction].
  cbn. unfold bind at 1. rewrite fill_loop_run.
  unfold xsk_ring_prod__submit, emit, update_port, bind, ret. cbn.
  rewrite lookup_app_r, Nat.sub_diag by reflexivity. cbn.
  eexists. split; [reflexivity|]. cbn.
  split; [reflexivity|]. split; [reflexivity|].
  split; [rewrite insert_app_r_alt, Nat.sub_diag by reflexivity; reflexivity|].
  repeat split; reflexivity.
Qed.

Lemma popped_conserved u got :
  umem_wf u -> 0 <= got <= free_top u ->
  freelist u = freelist (set_free (free_addrs u) (free_top u - got) u)
               ++ reverse (popped u got) /\
  Z.of_nat (length (popped u got)) = got.
Proof.
  intros (Hlen & Htop & Hn) Hg. unfold popped. split.
  - rewrite reverse_involutive. unfold freelist at 2. cbn [free_top free_addrs set_free].
    rewrite <- (take_drop (Z.to_nat (free_top u - got)) (freelist u)) at 1.
    f_equal. unfold freelist. rewrite take_take. f_equal. lia.
  - rewrite length_reverse, length_drop. unfold freelist. rewrite length_take. lia.
Qed.

(** X13.  When the freelist is well formed and not empty and the Fill ring
    grants exactly the slots asked for, umem_mgr_fill_fq (refactored)
    and the initial fill of port_init (xdp_fwd2.c, once the port and its
    socket exist, want being fill_size capped at 4096) reserve got =
    min(want, free_top) slots, write exactly the got popped frames at
    positions pos, pos + 1, ... in the order they were popped, submit
    got once, and leave a well-formed freelist which, followed by the
    popped frames, is the freelist before. *)
Theorem fill_posts_the_popped_frames
    (pr : port_params) (want : Z) (w : world) (u : umem_mgr) :
  umem w = Some u -> umem_wf u -> 0 < free_top u ->
  (0 < want ->
   s32 (u32 (oracle w (clock w))) = s32 (Z.min want (free_top u)) ->
   exists w',
     Refactored.umem_mgr_fill_fq want w = Done (s32 (Z.min want (free_top u))) w' /\
     trace w' =
       EvSubmit UMEM_FQ (Z.min want (free_top u))
       :: reverse (fill_events UMEM_FQ (u32 (oracle w (S (clock w))))
                     (popped u (Z.min want (free_top u))) 0)
       ++ EvReserve UMEM_FQ (Z.min want (free_top u))
            (u32 (oracle w (clock w))) (u32 (oracle w (S (clock w))))
       :: trace w /\
     exists u', umem w' = Some u' /\ umem_wf u' /\
       freelist u = freelist u' ++ reverse (popped u (Z.min want (free_top u)))) /\
  (0 < fill_size (umem_cfg u) ->
   oracle w (clock w) <> 0 ->
   s32 (oracle w (S (clock w))) = 0 ->
   s32 (u32 (oracle w (S (S (clock w)))))
     = s32 (Z.min (Z.min (fill_size (umem_cfg u)) 4096) (free_top u)) ->
   exists w',
     Fwd2.port_init pr w = Done (Some (length (ports w))) w' /\
     trace w' =
       EvSubmit (PORT_FQ (length (ports w)))
         (Z.min (Z.min (fill_size (umem_cfg u)) 4096) (free_top u))
       :: reverse (fill_events (PORT_FQ (length (ports w)))
                     (u32 (oracle w (S (S (S (clock w))))))
                     (popped u (Z.min (Z.min (fill_size (umem_cfg u)) 4096) (free_top u))) 0)
       ++ [EvReserve (PORT_FQ (length (ports w)))
             (Z.min (Z.min (fill_size (umem_cfg u)) 4096) (free_top u))
             (u32 (oracle w (S (S (clock w))))) (u32 (oracle w (S (S (S (clock w))))));
           EvSocketCreate (length (ports w)) (iface pr) (iface_queue pr) 0;
           EvCalloc (ObjPort (length (ports w))) true]
       ++ trace w /\
     exists u', umem w' = Some u' /\ umem_wf u' /\
       freelist u = freelist u'
         ++ reverse (popped u (Z.min (Z.min (fill_size (umem_cfg u)) 4096) (free_top u)))).
Proof.
  intros Hu Hwf Htop. pose proof Hwf as (Hlen & Htop' & Hn). split.
  - intros Hw Hres.
    rewrite (refactored_fill_fq_ok want w u) by assumption.
    eexists. split; [reflexivity|]. split; [reflexivity|].
    eexists. split; [reflexivity|].
    split; [unfold umem_wf; cbn; lia|].
    apply popped_conserved; [assumption|lia].
  - intros Hfill Hcalloc Hsock Hres.
    destruct (fwd2_port_init_ok pr w u Hu Hwf Hfill Htop Hcalloc Hsock Hres)
      as (w' & Hrun & Hum & Htr & _).
    exists w'. split; [exact Hrun|]. split; [exact Htr|].
    eexists. split; [exact Hum|].
    split; [unfold umem_wf; cbn; lia|].
    apply popped_conserved; [assumption|lia].
Qed.

(** The initial fill of a fresh, four-frame manager with a Fill ring of two
    slots: both files post the frames at 48 and 32, in that order. *)
Lemma fill_posts_the_popped_frames_witness :
  (exists w',
     Refactored.umem_mgr_fill_fq 2 (demo_world (answers [2; 7]) 0) = Done 2 w' /\
     trace w' = [EvSubmit UMEM_FQ 2; EvFillAddr UMEM_FQ 8 32; EvFillAddr UMEM_FQ 7 48;
                 EvReserve UMEM_FQ 2 2 7] /\
     exists u', umem w' = Some u' /\ umem_wf u' /\ [0; 16; 32; 48] = freelist u' ++ [32; 48]) /\
  (exists w',
     Fwd2.port_init (params zero_port) (demo_world (answers [1; 0; 2; 7]) 0)
       = Done (Some O) w' /\
     trace w' = [EvSubmit (PORT_FQ 0) 2; EvFillAddr (PORT_FQ 0) 8 32;
                 EvFillAddr (PORT_FQ 0) 7 48; EvReserve (PORT_FQ 0) 2 2 7;
                 EvSocketCreate 0 None 0 0; EvCalloc (ObjPort 0) true] /\
     exists u', umem w' = Some u' /\ umem_wf u' /\ [0; 16; 32; 48] = freelist u' ++ [32; 48]).
Proof.
  split.
  - refine (proj1 (fill_posts_the_popped_frames (params zero_port) 2
                     (demo_world (answers [2; 7]) 0) demo_umem _ _ _) _ _).
    + reflexivity.
    + unfold umem_wf. cbn. lia.
    + cbn. lia.
    + lia.
    + reflexivity.
  - refine (proj2 (fill_posts_the_popped_frames (params zero_port) 2
                     (demo_world (answers [1; 0; 2; 7]) 0) demo_umem _ _ _) _ _ _ _).
    + reflexivity.
    + unfold umem_wf. cbn. lia.
    + cbn. lia.
    + cbn. lia.
    + intros H. vm_compute in H. discriminate H.
    + reflexivity.
    + reflexivity.
Defined.

Lemma create_then_destroy_releases_everything_witness :
  exists w2 new,
    Fwd2.umem_mgr_destroy (Some demo_umem)
      (final (Fwd2.umem_mgr_create
                {| pp_n_frames := 4; pp_frame_size := 16; pp_mmap_flags := 0 |}
                demo_cfg (Fwd2.initial_world (answers [0; 1; 1; 0; 1; 0]))))
      = Done tt w2 /\
    Refactored.umem_mgr_destroy (Some demo_umem)
      (final (Fwd2.umem_mgr_create
                {| pp_n_frames := 4; pp_frame_size := 16; pp_mmap_flags := 0 |}
                demo_cfg (Fwd2.initial_world (answers [0; 1; 1; 0; 1; 0]))))
      = Done tt w2 /\
    trace w2 = new ++ trace (Fwd2.initial_world (answers [0; 1; 1; 0; 1; 0])) /\
    unwound_after (reverse new) [] = Some [] /\
    omap gives_back (reverse new)
      = [ObjMutex; ObjFreeAddrs; ObjKernelUmem; ObjMapping; ObjUmemMgr] /\
    In (EvMmap (total_sz 4 16) 0 true) new /\
    In (EvMunmap (total_sz 4 16)) new /\
    umem w2 = None.
Proof.
  apply (create_then_destroy_releases_everything
           {| pp_n_frames := 4; pp_frame_size := 16; pp_mmap_flags := 0 |}
           demo_cfg (Fwd2.initial_world (answers [0; 1; 1; 0; 1; 0]))
           (final (Fwd2.umem_mgr_create
                     {| pp_n_frames := 4; pp_frame_size := 16; pp_mmap_flags := 0 |}
                     demo_cfg (Fwd2.initial_world (answers [0; 1; 1; 0; 1; 0]))))
           demo_umem).
  vm_compute. reflexivity.
Defined.


Lemma same_config_preorder : PreOrder same_config.
Proof.
  split.
  - intros o u Hu. exists u. repeat split; assumption || reflexivity.
  - intros o1 o2 o3 H12 H23 u Hu.
    destruct (H12 u Hu) as (u2 & Hu2 & ? & ? & ? & ? & ?).
    destruct (H23 u2 Hu2) as (u3 & Hu3 & ? & ? & ? & ? & ?).
    exists u3. repeat split; congruence.
Qed.
#[global] Existing Instance same_config_preorder.

Lemma umem_alloc_loop_config n : forall u out out' u',
  umem_alloc_loop n u out = Ok (out', u') ->
  umem_cfg u' = umem_cfg u /\ n_frames u' = n_frames u /\
  frame_size u' = frame_size u /\ fq_initialized u' = fq_initialized u /\
  length (free_addrs u') = length (free_addrs u).
Proof.
  induction n as [|n IH]; intros u out out' u'; cbn [umem_alloc_loop].
  - intros H. injection H as <- <-. repeat split; reflexivity.
  - destruct (free_addrs u !! _); [|discriminate].
    intros H. apply IH in H. cbn in H. exact H.
Qed.

Lemma push_frame_config u a u' :
  push_frame u a = Ok u' ->
  umem_cfg u' = umem_cfg u /\ n_frames u' = n_frames u /\
  frame_size u' = frame_size u /\ fq_initialized u' = fq_initialized u /\
  length (free_addrs u') = length (free_addrs u).
Proof.
  unfold push_frame. destruct (_ <? _); [|discriminate].
  intros H. injection H as <-. cbn. rewrite length_insert. repeat split; reflexivity.
Qed.

Lemma umem_free_loop_config addrs : forall u u',
  Refactored.umem_free_loop addrs u = Ok u' ->
  umem_cfg u' = umem_cfg u /\ n_frames u' = n_frames u /\
  frame_size u' = frame_size u /\ fq_initialized u' = fq_initialized u /\
  length (free_addrs u') = length (free_addrs u).
Proof.
  induction addrs as [|a rest IH]; intros u u'; cbn [Refactored.umem_free_loop].
  - intros H. injection H as <-. repeat split; reflexivity.
  - destruct (_ <? _); [|apply IH].
    destruct (push_frame u a) as [u1|] eqn:Hp; [|discriminate].
    intros H. apply IH in H. apply push_frame_config in Hp.
    destruct H as (? & ? & ? & ? & ?), Hp as (? & ? & ? & ? & ?).
    repeat split; congruence.
Qed.

Lemma keeps_config_with_umem {A} (f : umem_mgr -> res (A * umem_mgr)) :
  (forall u a u', f u = Ok (a, u') ->
     umem_cfg u' = umem_cfg u /\ n_frames u' = n_frames u /\
     frame_size u' = frame_size u /\ fq_initialized u' = fq_initialized u /\
     length (free_addrs u') = length (free_addrs u)) ->
  keeps umem same_config (with_umem f).
Proof.
  intros Hf w u Hu. unfold with_umem. rewrite Hu.
  destruct (f u) as [[a u']|e] eqn:Hr; cbn.
  - exists u'. split; [reflexivity|]. eapply Hf. exact Hr.
  - exists u. split; [assumption|]. repeat split; reflexivity.
Qed.

Lemma keeps_config_fwd2_alloc want :
  keeps umem same_config (with_umem (fun u => Fwd2.umem_alloc u want)).
Proof.
  apply keeps_config_with_umem. intros u a u'. unfold Fwd2.umem_alloc.
  destruct (umem_alloc_loop _ u []) as [[out u1]|] eqn:Hl; [|discriminate].
  intros H. injection H as <- <-. eapply umem_alloc_loop_config. exact Hl.
Qed.

Lemma keeps_config_refactored_alloc want :
  keeps umem same_config (with_umem (fun u => Refactored.umem_alloc u want)).
Proof.
  apply keeps_config_with_umem. intros u a u'. unfold Refactored.umem_alloc.
  destruct (want =? 0).
  { intros H. injection H as <- <-. repeat split; reflexivity. }
  destruct (umem_alloc_loop _ u []) as [[out u1]|] eqn:Hl; [|discriminate].
  intros H. injection H as <- <-. eapply umem_alloc_loop_config. exact Hl.
Qed.

Lemma keeps_config_push a :
  keeps umem same_config (with_umem_ (fun u => push_frame u a)).
Proof.
  apply keeps_config_with_umem. intros u [] u'.
  destruct (push_frame u a) as [u1|] eqn:Hp; [|discriminate].
  intros H. injection H as <-. eapply push_frame_config. exact Hp.
Qed.

Lemma keeps_config_fwd2_free_one a :
  keeps umem same_config (with_umem_ (fun u => Fwd2.umem_free_one u a)).
Proof. apply keeps_config_push. Qed.

Lemma keeps_config_refactored_free addrs :
  keeps umem same_config (with_umem_ (fun u => Refactored.umem_free u addrs)).
Proof.
  apply keeps_config_with_umem. intros u [] u'. unfold Refactored.umem_free.
  destruct (_ =? 0).
  { intros H. injection H as <-. repeat split; reflexivity. }
  destruct (Refactored.umem_free_loop addrs u) as [u1|] eqn:Hp; [|discriminate].
  intros H. injection H as <-. eapply umem_free_loop_config. exact Hp.
Qed.

Lemma keeps_config_refactored_free_one a :
  keeps umem same_config (with_umem_ (fun u => Refactored.umem_free_one u a)).
Proof. apply keeps_config_refactored_free. Qed.

#[global] Hint Resolve keeps_config_fwd2_alloc keeps_config_refactored_alloc
  keeps_config_fwd2_free_one keeps_config_refactored_free
  keeps_config_refactored_free_one : keeps.

Lemma fill_loop_config r pos frames i : keeps umem same_config (fill_loop r pos frames i).
Proof. revert i. induction frames; intros i; cbn [fill_loop]; keeps_go. Qed.
#[global] Hint Resolve fill_loop_config : keeps.

Lemma refactored_fill_fq_config want :
  keeps umem same_config (Refactored.umem_mgr_fill_fq want).
Proof. unfold Refactored.umem_mgr_fill_fq. keeps_go. Qed.
#[global] Hint Resolve refactored_fill_fq_config : keeps.

Lemma s32_small z : 0 <= z < 2 ^ 31 -> s32 z = z.
Proof.
  intros H. unfold s32. rewrite u32_small by lia.
  destruct (Z.ltb_spec z (2 ^ 31)); lia.
Qed.

Lemma refactored_init_fq_first (w : world) (u : umem_mgr) :
  umem w = Some u -> umem_wf u -> n_frames u < 2 ^ 31 ->
  0 <= fill_size (umem_cfg u) ->
  fq_initialized u = 0 ->
  exists r w' u',
    Refactored.umem_mgr_init_fq w = Done r w' /\
    umem w' = Some u' /\ umem_wf u' /\
    ((r = 0 /\ fq_initialized u' = 1 /\
      (exists got,
         0 < got /\
         got = Z.min (if fill_size (umem_cfg u) =? 0 then 64 else fill_size (umem_cfg u))
                     (free_top u) /\
         free_top u' = free_top u - got /\
         freelist u = freelist u' ++ reverse (popped u got)) /\
      Refactored.umem_mgr_init_fq w' = Done 0 w')
     \/
     (r = -1 /\ fq_initialized u' = 0 /\
      free_top u' = free_top u /\ freelist u' ≡ₚ freelist u /\
      head (trace w') = Some (EvPrint "Failed to initialize FQ with %u frames"))).
Proof.
  intros Hu Hwf Hn31 Hfs Hz. pose proof Hwf as (Hlen & Htop & Hn).
  assert (Hagain : forall w' u', umem w' = Some u' -> fq_initialized u' = 1 ->
            Refactored.umem_mgr_init_fq w' = Done 0 w').
  { intros w' u' Hu' Hf. unfold Refactored.umem_mgr_init_fq.
    unfold bind at 1. unfold get_umem at 1. rewrite Hu', Hf. reflexivity. }
  unfold Refactored.umem_mgr_init_fq at 1.
  unfold bind at 1. unfold get_umem at 1. rewrite Hu, Hz. cbn [Z.eqb negb].
  set (want := if fill_size (umem_cfg u) =? 0 then 64 else fill_size (umem_cfg u)).
  assert (Hw : 0 < want).
  { unfold want. destruct (Z.eqb_spec (fill_size (umem_cfg u)) 0); lia. }
  unfold bind at 1.
  destruct (Z.eq_dec (free_top u) 0) as [Hempty|Hnonempty].
  { (* nothing to pop *)
    unfold Refactored.umem_mgr_fill_fq.
    destruct (Z.eqb_spec want 0) as [E|_]; [lia|].
    unfold bind at 1. unfold with_umem at 1. rewrite Hu.
    unfold Refactored.umem_alloc.
    destruct (Z.eqb_spec want 0) as [E|_]; [lia|].
    rewrite Hempty. destruct (Z.ltb_spec 0 want) as [_|]; [|lia].
    cbn. exists (-1). eexists. exists u.
    split; [reflexivity|]. split; [reflexivity|]. split; [exact Hwf|].
    right. repeat split; try reflexivity; assumption. }
  destruct (Z.eq_dec (s32 (u32 (oracle w (clock w)))) (s32 (Z.min want (free_top u))))
    as [Hres|Hshort].
  + rewrite (refactored_fill_fq_ok want w u) by (assumption || lia).
    set (got := Z.min want (free_top u)) in *.
    rewrite (s32_small got) by lia.
    destruct (Z.leb_spec got 0) as [|_]; [lia|].
    unfold with_umem_, with_umem, print, emit, bind, ret. cbn.
    exists 0. eexists. eexists.
    split; [reflexivity|]. cbn. split; [reflexivity|].
    split; [unfold umem_wf; cbn; lia|].
    left. split; [reflexivity|]. split; [reflexivity|]. split.
    * exists got. split; [lia|]. split; [reflexivity|]. split; [reflexivity|].
      apply (popped_conserved u got Hwf). lia.
    * first [reflexivity | eapply Hagain; reflexivity].
  + destruct (refactored_fill_fq_short want w u Hu Hwf Hw ltac:(lia) Hshort)
      as (u' & Hrun & Hwf' & Htop'' & Hperm).
    rewrite Hrun.
    assert (Hle : (if s32 (u32 (oracle w (clock w))) <? 0
                   then s32 (u32 (oracle w (clock w))) else 0) <= 0).
    { destruct (Z.ltb_spec (s32 (u32 (oracle w (clock w)))) 0); lia. }
    destruct (Z.leb_spec (if s32 (u32 (oracle w (clock w))) <? 0
                          then s32 (u32 (oracle w (clock w))) else 0) 0) as [_|]; [|lia].
    unfold print, emit, bind, ret. cbn.
    exists (-1). eexists. exists u'.
    split; [reflexivity|]. split; [reflexivity|]. split; [exact Hwf'|].
    right. split; [reflexivity|]. split; [|split; [exact Htop''|split; [exact Hperm|reflexivity]]].
    pose proof (refactored_fill_fq_config want w u Hu) as (u2 & Hu2 & _ & _ & _ & Hfq & _).
    rewrite Hrun in Hu2. cbn in Hu2. injection Hu2 as <-. congruence.
Qed.

(** X14.  umem_mgr_init_fq on a well-formed manager with n_frames < 2^31: if
    fq_initialized is set it returns 0 and changes nothing. Otherwise it
    either returns 0, has set fq_initialized and taken got =
    min(fill_size, or 64 when fill_size is 0, and free_top) > 0 frames
    off the freelist, and a second call changes nothing; or it returns
    -1 after printing the failure, with fq_initialized still clear and
    the freelist holding the same frames, possibly in another order. *)
Theorem init_fq_runs_once (w : world) (u : umem_mgr) :
  umem w = Some u -> umem_wf u -> n_frames u < 2 ^ 31 ->
  0 <= fill_size (umem_cfg u) ->
  (fq_initialized u <> 0 -> Refactored.umem_mgr_init_fq w = Done 0 w) /\
  (fq_initialized u = 0 ->
   exists r w' u',
     Refactored.umem_mgr_init_fq w = Done r w' /\
     umem w' = Some u' /\ umem_wf u' /\
     ((r = 0 /\ fq_initialized u' = 1 /\
       (exists got,
          0 < got /\
          got = Z.min (if fill_size (umem_cfg u) =? 0 then 64 else fill_size (umem_cfg u))
                      (free_top u) /\
          free_top u' = free_top u - got /\
          freelist u = freelist u' ++ reverse (popped u got)) /\
       Refactored.umem_mgr_init_fq w' = Done 0 w')
      \/
      (r = -1 /\ fq_initialized u' = 0 /\
       free_top u' = free_top u /\ freelist u' ≡ₚ freelist u /\
       head (trace w') = Some (EvPrint "Failed to initialize FQ with %u frames")))).
Proof.
  intros Hu Hwf Hn31 Hfs. split.
  - intros Hne. unfold Refactored.umem_mgr_init_fq.
    unfold bind at 1. unfold get_umem at 1. rewrite Hu.
    destruct (Z.eqb_spec (fq_initialized u) 0); [contradiction|]. reflexivity.
  - intros Hz. exact (refactored_init_fq_first w u Hu Hwf Hn31 Hfs Hz).
Qed.

(** A first [umem_mgr_init_fq] on a fresh four-frame manager whose Fill
    ring grants the two slots asked for. *)
Lemma init_fq_runs_once_witness :
  exists r w' u',
    Refactored.umem_mgr_init_fq (demo_world (answers [2; 7]) 0) = Done r w' /\
    umem w' = Some u' /\ umem_wf u' /\
    ((r = 0 /\ fq_initialized u' = 1 /\
      (exists got,
         0 < got /\
         got = Z.min (if fill_size (umem_cfg demo_umem) =? 0 then 64
                      else fill_size (umem_cfg demo_umem))
                     (free_top demo_umem) /\
         free_top u' = free_top demo_umem - got /\
         freelist demo_umem = freelist u' ++ reverse (popped demo_umem got)) /\
      Refactored.umem_mgr_init_fq w' = Done 0 w')
     \/
     (r = -1 /\ fq_initialized u' = 0 /\
      free_top u' = free_top demo_umem /\ freelist u' ≡ₚ freelist demo_umem /\
      head (trace w') = Some (EvPrint "Failed to initialize FQ with %u frames"))).
Proof.
  apply (proj2 (init_fq_runs_once (demo_world (answers [2; 7]) 0) demo_umem
                  eq_refl
                  ltac:(unfold umem_wf; cbn; lia) ltac:(cbn; lia) ltac:(cbn; lia))).
  reflexivity.
Defined.

(* ===================================================================== *)
(** * One pump: counters, posts, a full TX ring *)

Lemma bind_done {A B} (m : M A) (k : A -> M B) w r w' :
  bind m k w = Done r w' -> exists a w1, m w = Done a w1 /\ k a w1 = Done r w'.
Proof. unfold bind. destruct (m w) as [a w1|s w1]; [eauto|discriminate]. Qed.

Lemma keeps_done {A F} (f : world -> F) (m : M A) w a w1 :
  keeps f eq m -> m w = Done a w1 -> f w1 = f w.
Proof. intros Hk Hr. specialize (Hk w). rewrite Hr in Hk. symmetry. exact Hk. Qed.

Lemma insert_lookup_alter {A} (f : A -> A) (l : list A) i x :
  l !! i = Some x -> <[i := f x]> l = alter f i l.
Proof.
  intros Hx. apply list_eq. intros j.
  destruct (decide (i = j)) as [<-|Hne].
  - rewrite list_lookup_alter_eq, Hx.
    apply list_lookup_insert_eq. eapply lookup_lt_Some. exact Hx.
  - rewrite list_lookup_alter_ne, list_lookup_insert_ne by assumption. reflexivity.
Qed.

Lemma update_port_done p f w w1 :
  update_port p f w = Done tt w1 ->
  w1 = set_ports (alter f p (ports w)) w /\ is_Some (ports w !! p).
Proof.
  unfold update_port. destruct (ports w !! p) as [q|] eqn:Hq; [|discriminate].
  intros H. injection H as <-. rewrite (insert_lookup_alter f _ _ _ Hq). eauto.
Qed.

Lemma fwd2_tx_reserve_loop_ports fuel p : keeps ports eq (Fwd2.tx_reserve_loop fuel p).
Proof. induction fuel; cbn [Fwd2.tx_reserve_loop]; keeps_go. Qed.
Lemma fwd2_fresh_frame_loop_ports fuel p q :
  keeps ports eq (Fwd2.fresh_frame_loop fuel p q).
Proof. induction fuel; cbn [Fwd2.fresh_frame_loop]; keeps_go. Qed.
Lemma fwd2_fq_reserve_loop_ports fuel p : keeps ports eq (Fwd2.fq_reserve_loop fuel p).
Proof. induction fuel; cbn [Fwd2.fq_reserve_loop]; keeps_go. Qed.
Lemma refactored_tx_reserve_loop_ports fuel p :
  keeps ports eq (Refactored.tx_reserve_loop fuel p).
Proof. induction fuel; cbn [Refactored.tx_reserve_loop]; keeps_go. Qed.
Lemma fill_loop_ports r pos frames i : keeps ports eq (fill_loop r pos frames i).
Proof. revert i. induction frames; intros i; cbn [fill_loop]; keeps_go. Qed.
#[global] Hint Resolve fwd2_tx_reserve_loop_ports fwd2_fresh_frame_loop_ports
  fwd2_fq_reserve_loop_ports refactored_tx_reserve_loop_ports fill_loop_ports : keeps.

Lemma fwd2_recycle_completions_ports tx want :
  keeps ports eq (Fwd2.recycle_completions tx want).
Proof. unfold Fwd2.recycle_completions. keeps_go. Qed.
Lemma refactored_process_cq_ports : keeps ports eq Refactored.umem_mgr_process_cq.
Proof. unfold Refactored.umem_mgr_process_cq. keeps_go. Qed.
Lemma refactored_fill_fq_ports want : keeps ports eq (Refactored.umem_mgr_fill_fq want).
Proof. unfold Refactored.umem_mgr_fill_fq. keeps_go. Qed.
Lemma swap_mac_addresses_ports o : keeps ports eq (Fwd2.swap_mac_addresses o).
Proof. unfold Fwd2.swap_mac_addresses. keeps_go. Qed.
#[global] Hint Resolve fwd2_recycle_completions_ports refactored_process_cq_ports
  refactored_fill_fq_ports swap_mac_addresses_ports : keeps.

(** Invert the first [bind] of a run that returned. *)
Ltac step_run H :=
  let a := fresh "a" in
  let w1 := fresh "w" in
  let Hm := fresh "Hm" in
  apply bind_done in H as (a & w1 & Hm & H).

(** A run that returned and never writes [ports]. *)
Ltac ports_kept Hm :=
  lazymatch type of Hm with
  | ?m ?w = Done _ ?w1 =>
      let E := fresh "Ep" in
      assert (E : ports w1 = ports w)
        by (refine (keeps_done ports m w _ w1 _ Hm); keeps_go);
      clear Hm
  end.

Lemma fwd2_pump_counts off fuel rx tx w r w' :
  Fwd2.port_pump_once off fuel rx tx w = Done r w' ->
  (r = 0 /\ ports w' = ports w) \/
  (r = 1 /\ ports w' = count_forwarded rx tx (ports w) /\
   is_Some (ports w !! rx) /\ is_Some (ports w !! tx)).
Proof.
  unfold Fwd2.port_pump_once. intros H.
  step_run H. ports_kept Hm.
  step_run H. ports_kept Hm.
  step_run H. ports_kept Hm.
  destruct (a1.1 =? 0).
  - step_run H. ports_kept Hm. step_run H. ports_kept Hm.
    injection H as <- <-. left. split; [reflexivity|]. congruence.
  - unfold Fwd2.forward_peeked in H.
    step_run H. ports_kept Hm.
    step_run H. ports_kept Hm.
    step_run H. destruct a4. apply update_port_done in Hm as (-> & Hrx).
    step_run H. ports_kept Hm.
    unfold Fwd2.transmit_and_replenish in H.
    step_run H. ports_kept Hm.
    step_run H. ports_kept Hm.
    step_run H. ports_kept Hm.
    step_run H. ports_kept Hm.
    step_run H. ports_kept Hm.
    step_run H. destruct a10. apply update_port_done in Hm as (-> & Htx).
    step_run H. ports_kept Hm.
    step_run H. ports_kept Hm.
    step_run H. ports_kept Hm.
    step_run H. ports_kept Hm.
    injection H as <- <-. right. split; [reflexivity|].
    cbn [ports set_ports] in *.
    repeat match goal with E : ports _ = _ |- _ => rewrite E in *; clear E end.
    unfold count_forwarded. split; [reflexivity|].
    split; [exact Hrx|].
    rewrite list_lookup_alter in Htx.
    destruct (decide (rx = tx)) as [<-|_]; [exact Hrx|exact Htx].
Qed.

Lemma refactored_forward_counts fuel rx tx w r w' :
  Refactored.forward_one_packet fuel rx tx w = Done r w' ->
  (r = 0 /\ ports w' = ports w) \/
  (r = 1 /\ ports w' = count_forwarded rx tx (ports w) /\
   is_Some (ports w !! rx) /\ is_Some (ports w !! tx)).
Proof.
  unfold Refactored.forward_one_packet. intros H.
  step_run H. ports_kept Hm.
  step_run H. ports_kept Hm.
  destruct (a0.1 =? 0).
  - step_run H. ports_kept Hm. step_run H. ports_kept Hm.
    injection H as <- <-. left. split; [reflexivity|]. congruence.
  - step_run H. ports_kept Hm.
    step_run H. ports_kept Hm.
    step_run H. ports_kept Hm.
    step_run H. ports_kept Hm.
    step_run H. ports_kept Hm.
    step_run H. ports_kept Hm.
    step_run H. ports_kept Hm.
    step_run H. ports_kept Hm.
    step_run H. ports_kept Hm.
    step_run H. ports_kept Hm.
    step_run H. destruct a11. apply update_port_done in Hm as (-> & Hrx).
    step_run H. destruct a11. apply update_port_done in Hm as (-> & Htx).
    injection H as <- <-. right. split; [reflexivity|].
    cbn [ports set_ports] in *.
    repeat match goal with E : ports _ = _ |- _ => rewrite E in *; clear E end.
    unfold count_forwarded. split; [reflexivity|].
    split; [exact Hrx|].
    rewrite list_lookup_alter in Htx.
    destruct (decide (rx = tx)) as [<-|_]; [exact Hrx|exact Htx].
Qed.


(** X15.  Whenever port_pump_once (xdp_fwd2.c) or forward_one_packet
    (refactored) returns, it returns 0 or 1. If 0, no field of any port
    has changed. If 1, n_pkts_rx of the RX port and n_pkts_tx of the TX
    port have each grown by one and nothing else in any port has
    changed. *)
Theorem pump_counts_what_it_forwards
    (off : Z -> Z) (fuel rx tx : nat) (w : world) :
  (forall r w', Fwd2.port_pump_once off fuel rx tx w = Done r w' ->
     (r = 0 /\ ports w' = ports w) \/
     (r = 1 /\ ports w' = count_forwarded rx tx (ports w) /\
      is_Some (ports w !! rx) /\ is_Some (ports w !! tx))) /\
  (forall r w', Refactored.forward_one_packet fuel rx tx w = Done r w' ->
     (r = 0 /\ ports w' = ports w) \/
     (r = 1 /\ ports w' = count_forwarded rx tx (ports w) /\
      is_Some (ports w !! rx) /\ is_Some (ports w !! tx))).
Proof.
  split; intros r w'.
  - apply fwd2_pump_counts.
  - apply refactored_forward_counts.
Qed.

Lemma pump_counts_what_it_forwards_witness :
  (exists w',
     Fwd2.port_pump_once demo_add_offset 1 0 1 (demo_rx_world (answers demo_fwd2_answers))
       = Done 1 w' /\
     map (fun q => (n_pkts_rx q, n_pkts_tx q)) (ports w') = [(1, 0); (0, 1)]) /\
  (exists w',
     Refactored.forward_one_packet 1 0 1 (demo_rx_world (answers demo_refactored_answers))
       = Done 1 w' /\
     map (fun q => (n_pkts_rx q, n_pkts_tx q)) (ports w') = [(1, 0); (0, 1)]).
Proof.
  split.
  - destruct (Fwd2.port_pump_once demo_add_offset 1 0 1
                (demo_rx_world (answers demo_fwd2_answers))) as [r w'|s w'] eqn:Hrun;
      [|vm_compute in Hrun; discriminate Hrun].
    destruct (proj1 (pump_counts_what_it_forwards demo_add_offset 1 0 1
                       (demo_rx_world (answers demo_fwd2_answers))) r w' Hrun)
      as [[-> _]|(-> & Hp & _)].
    + vm_compute in Hrun. discriminate Hrun.
    + exists w'. split; [reflexivity|]. rewrite Hp. reflexivity.
  - destruct (Refactored.forward_one_packet 1 0 1
                (demo_rx_world (answers demo_refactored_answers))) as [r w'|s w'] eqn:Hrun;
      [|vm_compute in Hrun; discriminate Hrun].
    destruct (proj2 (pump_counts_what_it_forwards demo_add_offset 1 0 1
                       (demo_rx_world (answers demo_refactored_answers))) r w' Hrun)
      as [[-> _]|(-> & Hp & _)].
    + vm_compute in Hrun. discriminate Hrun.
    + exists w'. split; [reflexivity|]. rewrite Hp. reflexivity.
Defined.

(** ** No resource call on the data path *)

Local Abbreviation NR := (grows_by (all_events no_resource_call)).

Lemma fwd2_cq_loop_no_resource k r pos i : keeps trace NR (Fwd2.cq_loop k r pos i).
Proof. revert i. induction k; intros i; cbn [Fwd2.cq_loop]; keeps_go. Qed.
Lemma fwd2_tx_reserve_loop_no_resource fuel p :
  keeps trace NR (Fwd2.tx_reserve_loop fuel p).
Proof. induction fuel; cbn [Fwd2.tx_reserve_loop]; keeps_go. Qed.
#[global] Hint Resolve fwd2_cq_loop_no_resource fwd2_tx_reserve_loop_no_resource : keeps.
Lemma fwd2_fresh_frame_loop_no_resource fuel p q :
  keeps trace NR (Fwd2.fresh_frame_loop fuel p q).
Proof. induction fuel; cbn [Fwd2.fresh_frame_loop]; keeps_go. Qed.
Lemma fwd2_fq_reserve_loop_no_resource fuel p :
  keeps trace NR (Fwd2.fq_reserve_loop fuel p).
Proof. induction fuel; cbn [Fwd2.fq_reserve_loop]; keeps_go. Qed.
#[global] Hint Resolve fwd2_fresh_frame_loop_no_resource
  fwd2_fq_reserve_loop_no_resource : keeps.
Lemma fwd2_port_pump_once_no_resource off fuel rx tx :
  keeps trace NR (Fwd2.port_pump_once off fuel rx tx).
Proof. unfold Fwd2.port_pump_once. keeps_go. Qed.
#[global] Hint Resolve fwd2_port_pump_once_no_resource : keeps.
Lemma fwd2_thread_loop_no_resource off iters fuel t i :
  keeps trace NR (Fwd2.thread_loop off iters fuel t i).
Proof.
  revert i. induction iters as [|iters IH]; intros i; cbn [Fwd2.thread_loop]; keeps_go.
Qed.
#[global] Hint Resolve fwd2_thread_loop_no_resource : keeps.
Lemma fwd2_thread_func_no_resource off iters fuel t :
  keeps trace NR (Fwd2.thread_func off iters fuel t).
Proof. unfold Fwd2.thread_func. keeps_go. Qed.

Lemma refactored_cq_loop_no_resource k r pos i :
  keeps trace NR (Refactored.cq_loop k r pos i).
Proof. revert i. induction k; intros i; cbn [Refactored.cq_loop]; keeps_go. Qed.
Lemma fill_loop_no_resource r pos frames i : keeps trace NR (fill_loop r pos frames i).
Proof. revert i. induction frames; intros i; cbn [fill_loop]; keeps_go. Qed.
Lemma refactored_tx_reserve_loop_no_resource fuel p :
  keeps trace NR (Refactored.tx_reserve_loop fuel p).
Proof. induction fuel; cbn [Refactored.tx_reserve_loop]; keeps_go. Qed.
#[global] Hint Resolve refactored_cq_loop_no_resource fill_loop_no_resource
  refactored_tx_reserve_loop_no_resource : keeps.
Lemma refactored_forward_one_packet_no_resource fuel rx tx :
  keeps trace NR (Refactored.forward_one_packet fuel rx tx).
Proof. unfold Refactored.forward_one_packet. keeps_go. Qed.
#[global] Hint Resolve refactored_forward_one_packet_no_resource : keeps.
Lemma refactored_sweep_tx_no_resource k fuel t i j fw :
  keeps trace NR (Refactored.sweep_tx k fuel t i j fw).
Proof.
  revert j fw. induction k as [|k IH]; intros j fw; cbn [Refactored.sweep_tx]; keeps_go.
Qed.
#[global] Hint Resolve refactored_sweep_tx_no_resource : keeps.
Lemma refactored_sweep_rx_no_resource k fuel t i fw :
  keeps trace NR (Refactored.sweep_rx k fuel t i fw).
Proof.
  revert i fw. induction k as [|k IH]; intros i fw; cbn [Refactored.sweep_rx]; keeps_go.
Qed.
#[global] Hint Resolve refactored_sweep_rx_no_resource : keeps.
Lemma refactored_thread_loop_no_resource iters fuel t :
  keeps trace NR (Refactored.thread_loop iters fuel t).
Proof. induction iters as [|iters IH]; cbn [Refactored.thread_loop]; keeps_go. Qed.
#[global] Hint Resolve refactored_thread_loop_no_resource : keeps.
Lemma refactored_thread_func_no_resource iters fuel t :
  keeps trace NR (Refactored.thread_func iters fuel t).
Proof. unfold Refactored.thread_func. keeps_go. Qed.

(** X16.  No run of thread_func of either file, however long and wherever it
    is cut, allocates or frees memory, maps or unmaps, creates, deletes
    or destroys a UMEM, a socket or a mutex, or calls setrlimit: the
    worker only sets its affinity, works the rings, polls, sends, sleeps
    and prints. *)
Theorem worker_makes_no_resource_call
    (off : Z -> Z) (iters fuel : nat)
    (t : thread_data) (t' : Refactored.thread_data) (w : world) :
  (exists new,
     trace (final (Fwd2.thread_func off iters fuel t w)) = new ++ trace w /\
     forallb no_resource_call new = true) /\
  (exists new,
     trace (final (Refactored.thread_func iters fuel t' w)) = new ++ trace w /\
     forallb no_resource_call new = true).
Proof.
  split.
  - apply (fwd2_thread_func_no_resource off iters fuel t w).
  - apply (refactored_thread_func_no_resource iters fuel t' w).
Qed.

(** ** What a forwarding pump posts *)

Local Abbreviation QT := (grows_by (all_events posts_nothing)).

Lemma fwd2_cq_loop_quiet k r pos i : keeps trace QT (Fwd2.cq_loop k r pos i).
Proof. revert i. induction k; intros i; cbn [Fwd2.cq_loop]; keeps_go. Qed.
Lemma fwd2_tx_reserve_loop_quiet fuel p : keeps trace QT (Fwd2.tx_reserve_loop fuel p).
Proof. induction fuel; cbn [Fwd2.tx_reserve_loop]; keeps_go. Qed.
#[global] Hint Resolve fwd2_cq_loop_quiet fwd2_tx_reserve_loop_quiet : keeps.
Lemma fwd2_fresh_frame_loop_quiet fuel p q :
  keeps trace QT (Fwd2.fresh_frame_loop fuel p q).
Proof. induction fuel; cbn [Fwd2.fresh_frame_loop]; keeps_go. Qed.
Lemma fwd2_fq_reserve_loop_quiet fuel p : keeps trace QT (Fwd2.fq_reserve_loop fuel p).
Proof. induction fuel; cbn [Fwd2.fq_reserve_loop]; keeps_go. Qed.
#[global] Hint Resolve fwd2_fresh_frame_loop_quiet fwd2_fq_reserve_loop_quiet : keeps.

Lemma fwd2_fq_reserve_loop_umem fuel p : keeps umem eq (Fwd2.fq_reserve_loop fuel p).
Proof. induction fuel; cbn [Fwd2.fq_reserve_loop]; keeps_go. Qed.
#[global] Hint Resolve fwd2_fq_reserve_loop_umem : keeps.

Lemma keeps_done_grows {A} P (m : M A) w a w1 :
  keeps trace (grows_by P) m -> m w = Done a w1 ->
  exists new, trace w1 = new ++ trace w /\ P new.
Proof. intros Hk Hr. specialize (Hk w). rewrite Hr in Hk. exact Hk. Qed.

Lemma omap_post_of_quiet l : all_events posts_nothing l -> omap post_of l = [].
Proof.
  unfold all_events. induction l as [|e l IH]; [reflexivity|].
  cbn [forallb]. intros H. apply andb_prop in H as [He Hl].
  change (omap post_of (e :: l))
    with (match post_of e with
          | Some y => y :: omap post_of l
          | None => omap post_of l
          end).
  unfold post_of at 1. rewrite He. apply IH, Hl.
Qed.

(** The frame [fresh_frame_loop] returns is the one the freelist handed
    out last: the entry right above the new top. *)
Lemma fwd2_fresh_frame_loop_pops fuel rx tx : forall w fresh w1,
  Fwd2.fresh_frame_loop fuel rx tx w = Done fresh w1 ->
  exists u1, umem w1 = Some u1 /\
    free_addrs u1 !! Z.to_nat (free_top u1) = Some fresh.
Proof.
  induction fuel as [|fuel IH]; intros w fresh w1; cbn [Fwd2.fresh_frame_loop].
  - discriminate.
  - intros H. step_run H.
    destruct (a.1 =? 1) eqn:Eg.
    + unfold with_umem in Hm. destruct (umem w) as [u|]; [|discriminate Hm].
      unfold Fwd2.umem_alloc in Hm.
      destruct (umem_alloc_loop _ u []) as [[out u1]|] eqn:Hl; [|discriminate Hm].
      injection Hm as <- <-. cbn [fst snd] in *. apply Z.eqb_eq in Eg.
      rewrite Eg in Hl. change (Z.to_nat 1) with 1%nat in Hl.
      cbn [umem_alloc_loop] in Hl.
      destruct (free_addrs u !! Z.to_nat (u32 (free_top u - 1))) as [x|] eqn:Hx;
        [|discriminate Hl].
      injection Hl as <- <-. cbn in H. injection H as <- <-.
      eexists. split; [reflexivity|]. cbn. exact Hx.
    + step_run H. step_run H. step_run H. eapply IH. exact H.
Qed.

Lemma emit_done e w a w1 : emit e w = Done a w1 -> w1 = set_trace (e :: trace w) w.
Proof. unfold emit. intros H. injection H as _ <-. reflexivity. Qed.

(** A run that returned and leaves the manager alone. *)
Ltac umem_kept Hm :=
  lazymatch type of Hm with
  | ?m ?w = Done _ ?w1 =>
      let E := fresh "Eu" in
      assert (E : umem w1 = umem w)
        by (refine (keeps_done umem m w _ w1 _ Hm); keeps_go)
  end.

(** A call that recorded one event. *)
Ltac emit_run Hm :=
  apply emit_done in Hm;
  lazymatch type of Hm with ?x = _ => subst x end.

(** A run that returned and posts nothing. *)
Ltac quiet_run Hm :=
  lazymatch type of Hm with
  | ?m ?w = Done _ ?w1 =>
      let n := fresh "n" in
      let Et := fresh "Et" in
      let Eq := fresh "Eq" in
      let Hk := fresh "Hk" in
      assert (Hk : keeps trace QT m) by keeps_go;
      destruct (keeps_done_grows _ m w _ w1 Hk Hm) as (n & Et & Eq);
      apply omap_post_of_quiet in Eq; clear Hk
  end.

(** X17.  Whenever port_pump_once of xdp_fwd2.c returns 1 it has read one RX
    descriptor (addr, len) and released it, and what it put on producer
    rings is exactly, in this order: one TX descriptor with that addr
    and len on the TX port's ring, a submit of 1, one fresh frame on the
    RX port's Fill ring, a submit of 1. The fresh frame is the one it
    popped: the array entry just above the new free_top. *)
Theorem fwd2_pump_posts_one_packet_one_frame
    (off : Z -> Z) (fuel rx tx : nat) (w w' : world) :
  Fwd2.port_pump_once off fuel rx tx w = Done 1 w' ->
  exists new rpos tpos fpos addr len fresh u',
    trace w' = new ++ trace w /\
    omap post_of new =
      [EvSubmit (PORT_FQ rx) 1; EvFillAddr (PORT_FQ rx) fpos fresh;
       EvSubmit (TXQ tx) 1; EvTxDesc (TXQ tx) tpos addr len] /\
    In (EvRxDesc (RXQ rx) rpos addr len) new /\
    In (EvConsRelease (RXQ rx) 1) new /\
    umem w' = Some u' /\
    free_addrs u' !! Z.to_nat (free_top u') = Some fresh.
Proof.
  unfold Fwd2.port_pump_once. intros H.
  step_run H. quiet_run Hm. clear Hm.
  step_run H. quiet_run Hm. clear Hm.
  step_run H. quiet_run Hm. clear Hm.
  destruct (a1.1 =? 0).
  { step_run H. step_run H. injection H as H _. discriminate H. }
  unfold Fwd2.forward_peeked in H.
  step_run H.
  unfold xsk_ring_cons__rx_desc, ask_u64, ask_u32, ask, emit, bind, ret in Hm.
  injection Hm as <- <-. cbn [fst snd] in H.
  step_run H. emit_run Hm.
  step_run H. quiet_run Hm. clear Hm.
  step_run H. quiet_run Hm. clear Hm.
  unfold Fwd2.transmit_and_replenish in H.
  step_run H. quiet_run Hm. clear Hm.
  step_run H. emit_run Hm.
  step_run H. emit_run Hm.
  step_run H. quiet_run Hm. clear Hm.
  step_run H. quiet_run Hm. clear Hm.
  step_run H. quiet_run Hm. clear Hm.
  step_run H. quiet_run Hm.
  destruct (fwd2_fresh_frame_loop_pops _ _ _ _ _ _ Hm) as (u1 & Hu1 & Hfresh). clear Hm.
  step_run H. quiet_run Hm.
  umem_kept Hm. clear Hm.
  step_run H. emit_run Hm.
  step_run H. emit_run Hm.
  injection H as <-.
  cbn [trace set_trace umem] in *.
  repeat match goal with E : umem _ = umem _ |- _ => rewrite E; clear E end.
  repeat match goal with E : trace _ = _ |- _ => rewrite E; clear E end.
  cbn [trace set_trace].
  eexists _, _, _, _, _, _, _, u1.
  split; [rewrite !app_comm_cons, !app_assoc; reflexivity|].
  split.
  { rewrite !omap_app. cbn [omap list_omap].
    repeat match goal with E : omap post_of _ = [] |- _ => rewrite E; clear E end.
    cbn. reflexivity. }
  split; [rewrite !in_app_iff; cbn; eauto 20|].
  split; [rewrite !in_app_iff; cbn; eauto 20|].
  split; assumption.
Qed.

Lemma fwd2_pump_posts_one_packet_one_frame_witness :
  exists new rpos tpos fpos addr len fresh u',
    trace (final (Fwd2.port_pump_once demo_add_offset 1 0 1
                    (demo_rx_world (answers demo_fwd2_answers))))
      = new ++ trace (demo_rx_world (answers demo_fwd2_answers)) /\
    omap post_of new =
      [EvSubmit (PORT_FQ 0) 1; EvFillAddr (PORT_FQ 0) fpos fresh;
       EvSubmit (TXQ 1) 1; EvTxDesc (TXQ 1) tpos addr len] /\
    In (EvRxDesc (RXQ 0) rpos addr len) new /\
    In (EvConsRelease (RXQ 0) 1) new /\
    umem (final (Fwd2.port_pump_once demo_add_offset 1 0 1
                   (demo_rx_world (answers demo_fwd2_answers)))) = Some u' /\
    free_addrs u' !! Z.to_nat (free_top u') = Some fresh.
Proof.
  apply (fwd2_pump_posts_one_packet_one_frame demo_add_offset 1 0 1
           (demo_rx_world (answers demo_fwd2_answers))
           (final (Fwd2.port_pump_once demo_add_offset 1 0 1
                     (demo_rx_world (answers demo_fwd2_answers))))).
  vm_compute. reflexivity.
Defined.

Lemma fwd2_tx_reserve_loop_refused fuel tx : forall w,
  (forall k, u32 (oracle w (clock w + 3 * k)%nat) <> 1) ->
  Fwd2.tx_reserve_loop fuel tx w =
    Stop OutOfFuel
      (set_trace (refused_reserves (EvSendto tx) tx (oracle w) (clock w) fuel ++ trace w)
         (set_clock (clock w + 3 * fuel) w)).
Proof.
  induction fuel as [|fuel IH]; intros w Hs; cbn [Fwd2.tx_reserve_loop refused_reserves].
  - unfold out_of_fuel. cbn. rewrite Nat.add_0_r. destruct w; reflexivity.
  - pose proof (Hs 0%nat) as H0. rewrite Nat.mul_0_r, Nat.add_0_r in H0.
    unfold xsk_ring_prod__reserve, xsk_ring_prod__needs_wakeup, ask_u32, ask_bool, ask,
      emit, ret. unfold bind at 1 2 3 4 5 6. cbn.
    destruct (Z.eqb_spec (u32 (oracle w (clock w))) 1) as [E|_]; [contradiction|].
    unfold bind at 1 2 3 4 5. cbn.
    replace (clock w + 2)%nat with (S (S (clock w))) by lia.
    replace (clock w + 1)%nat with (S (clock w)) by lia.
    replace (clock w + 3)%nat with (S (S (S (clock w)))) by lia.
    destruct (negb (oracle w (S (S (clock w))) =? 0)); unfold sendto, emit, bind;
      cbn [app];
      (rewrite IH;
       [| intros k; cbn [oracle clock set_trace set_clock];
          replace (S (S (S (clock w))) + 3 * k)%nat with (clock w + 3 * S k)%nat by lia;
          apply Hs]);
      cbn [trace set_trace clock set_clock oracle]; f_equal;
      rewrite <- !app_assoc; cbn [app];
      replace (S (S (S (clock w))) + 3 * fuel)%nat with (clock w + 3 * S fuel)%nat by lia;
      destruct w; reflexivity.
Qed.

Lemma refactored_tx_reserve_loop_refused fuel tx : forall w,
  (forall k, u32 (oracle w (clock w + 3 * k)%nat) <> 1) ->
  Refactored.tx_reserve_loop fuel tx w =
    Stop OutOfFuel
      (set_trace (refused_reserves (EvPoll tx POLLOUT 0) tx (oracle w) (clock w) fuel
                  ++ trace w)
         (set_clock (clock w + 3 * fuel) w)).
Proof.
  induction fuel as [|fuel IH]; intros w Hs;
    cbn [Refactored.tx_reserve_loop refused_reserves].
  - unfold out_of_fuel. cbn. rewrite Nat.add_0_r. destruct w; reflexivity.
  - pose proof (Hs 0%nat) as H0. rewrite Nat.mul_0_r, Nat.add_0_r in H0.
    unfold xsk_ring_prod__reserve, xsk_ring_prod__needs_wakeup, ask_u32, ask_bool, ask,
      emit, ret. unfold bind at 1 2 3 4 5 6. cbn.
    destruct (Z.eqb_spec (u32 (oracle w (clock w))) 1) as [E|_]; [contradiction|].
    unfold bind at 1 2 3 4 5. cbn.
    replace (clock w + 2)%nat with (S (S (clock w))) by lia.
    replace (clock w + 1)%nat with (S (clock w)) by lia.
    replace (clock w + 3)%nat with (S (S (S (clock w)))) by lia.
    destruct (negb (oracle w (S (S (clock w))) =? 0)); unfold poll, emit, bind;
      cbn [app];
      (rewrite IH;
       [| intros k; cbn [oracle clock set_trace set_clock];
          replace (S (S (S (clock w))) + 3 * k)%nat with (clock w + 3 * S k)%nat by lia;
          apply Hs]);
      cbn [trace set_trace clock set_clock oracle]; f_equal;
      rewrite <- !app_assoc; cbn [app];
      replace (S (S (S (clock w))) + 3 * fuel)%nat with (clock w + 3 * S fuel)%nat by lia;
      destruct w; reflexivity.
Qed.

Lemma swap_mac_addresses_ok o w u :
  umem w = Some u -> 0 <= o -> o + 12 <= total_sz (n_frames u) (frame_size u) ->
  exists m',
    Fwd2.swap_mac_addresses o w = Done tt (set_umem_area m' w) /\
    macs_swapped (umem_area w) m' o.
Proof.
  intros Hu Ho Hb.
  unfold Fwd2.swap_mac_addresses, load_bytes, store_bytes, get_umem, bind, crash, ret.
  rewrite Hu.
  change (Z.of_nat ETH_ALEN) with 6. change ETH_ALEN with 6%nat.
  destruct (Z.leb_spec 0 (o + 6)); [|lia].
  destruct (Z.leb_spec (o + 6 + 6) (total_sz (n_frames u) (frame_size u))); [|lia].
  cbn [andb]. rewrite Hu.
  destruct (Z.leb_spec 0 o); [|lia].
  destruct (Z.leb_spec (o + 6) (total_sz (n_frames u) (frame_size u))); [|lia].
  cbn [andb]. rewrite Hu. rewrite !length_map, !length_seq.
  change (Z.of_nat 6) with 6.
  destruct (Z.leb_spec 0 (o + 6)); [|lia].
  destruct (Z.leb_spec (o + 6 + 6) (total_sz (n_frames u) (frame_size u))); [|lia].
  cbn [andb umem set_umem_area]. rewrite Hu.
  destruct (Z.leb_spec 0 o); [|lia].
  destruct (Z.leb_spec (o + 6) (total_sz (n_frames u) (frame_size u))); [|lia].
  cbn [andb].
  eexists. split; [destruct w; reflexivity|].
  cbn [umem_area set_umem_area]. apply macs_swapped_write.
Qed.

(** X18.  With a packet waiting on the RX ring and a TX ring that never
    grants a slot (reserve never returns 1), whatever the needs-wakeup
    flag answers, neither pump returns: for every fuel bound the run
    ends inside the TX reserve loop, each refused reserve followed by
    the needs-wakeup test and, when the flag is set, by the kick (sendto
    in xdp_fwd2.c, poll with POLLOUT and timeout 0 in the refactored
    file). By then xdp_fwd2.c has released the RX descriptor, counted
    the packet on the RX port and swapped the MAC addresses in the
    frame; the refactored file has not released the descriptor and has
    changed no counter and no byte of the area. *)
Theorem tx_ring_full_pump_spins
    (off : Z -> Z) (fuel rx tx : nat) (w w1 : world) (u u1 : umem_mgr) (q : port) :
  umem w = Some u -> umem w1 = Some u1 -> ports w1 !! rx = Some q ->
  u32 (oracle w1 (clock w1)) <> 0 ->
  (forall k, u32 (oracle w1 (clock w1 + 4 + 3 * k)%nat) <> 1) ->
  (Fwd2.recycle_completions tx
     (if comp_size (umem_cfg u) =? 0 then 64 else comp_size (umem_cfg u)) w
     = Done tt w1 ->
   0 <= off (u64 (oracle w1 (S (S (clock w1))))) ->
   off (u64 (oracle w1 (S (S (clock w1))))) + 12
     <= total_sz (n_frames u1) (frame_size u1) ->
   exists w',
     Fwd2.port_pump_once off fuel rx tx w = Stop OutOfFuel w' /\
     trace w' =
       refused_reserves (EvSendto tx) tx (oracle w1) (clock w1 + 4) fuel
       ++ [EvConsRelease (RXQ rx) 1;
           EvRxDesc (RXQ rx) (u32 (oracle w1 (S (clock w1))))
             (u64 (oracle w1 (S (S (clock w1)))))
             (u32 (oracle w1 (S (S (S (clock w1))))));
           EvPeek (RXQ rx) 1 (u32 (oracle w1 (clock w1)))
             (u32 (oracle w1 (S (clock w1))))]
       ++ trace w1 /\
     ports w' = alter incr_n_pkts_rx rx (ports w1) /\
     macs_swapped (umem_area w1) (umem_area w')
       (off (u64 (oracle w1 (S (S (clock w1))))))) /\
  (Refactored.umem_mgr_process_cq w = Done tt w1 ->
   exists w',
     Refactored.forward_one_packet fuel rx tx w = Stop OutOfFuel w' /\
     trace w' =
       refused_reserves (EvPoll tx POLLOUT 0) tx (oracle w1) (clock w1 + 4) fuel
       ++ [EvRxDesc (RXQ rx) (u32 (oracle w1 (S (clock w1))))
             (u64 (oracle w1 (S (S (clock w1)))))
             (u32 (oracle w1 (S (S (S (clock w1))))));
           EvPeek (RXQ rx) 1 (u32 (oracle w1 (clock w1)))
             (u32 (oracle w1 (S (clock w1))))]
       ++ trace w1 /\
     ports w' = ports w1 /\ umem_area w' = umem_area w1).
Proof.
  intros Hu Hu1 Hq Hpeek Hfull. split.
  - intros Hrec Ho Hb.
    unfold Fwd2.port_pump_once.
    unfold bind at 1. unfold get_umem. rewrite Hu.
    unfold bind at 1. rewrite Hrec.
    unfold xsk_ring_cons__peek, ask_u32, ask, emit, ret.
    unfold bind at 1 2 3 4 5 6. cbn.
    destruct (Z.eqb_spec (u32 (oracle w1 (clock w1))) 0) as [E|_]; [contradiction|].
    unfold Fwd2.forward_peeked.
    unfold xsk_ring_cons__rx_desc, xsk_ring_cons__release, ask_u64, ask_u32, ask,
      emit, ret. unfold bind at 1 2 3 4 5 6 7. cbn.
    unfold bind at 1. unfold update_port at 1. cbn. rewrite Hq. cbn.
    unfold bind at 1.
    match goal with |- context [Fwd2.swap_mac_addresses ?o ?w4] =>
      destruct (swap_mac_addresses_ok o w4 u1 Hu1 Ho Hb) as (m' & -> & Hsw) end.
    unfold Fwd2.transmit_and_replenish. unfold bind at 1.
    rewrite fwd2_tx_reserve_loop_refused
      by (intros k; cbn [oracle clock set_trace set_clock set_ports set_umem_area];
          replace (S (S (S (S (clock w1)))) + 3 * k)%nat
            with (clock w1 + 4 + 3 * k)%nat by lia;
          apply Hfull).
    replace (S (S (S (S (clock w1))))) with (clock w1 + 4)%nat by lia.
    eexists. split; [reflexivity|]. cbn.
    split; [reflexivity|]. split; [apply insert_lookup_alter; exact Hq|exact Hsw].
  - intros Hrec.
    unfold Refactored.forward_one_packet.
    unfold bind at 1. rewrite Hrec.
    unfold xsk_ring_cons__peek, ask_u32, ask, emit, ret.
    unfold bind at 1 2 3 4 5 6. cbn.
    destruct (Z.eqb_spec (u32 (oracle w1 (clock w1))) 0) as [E|_]; [contradiction|].
    unfold xsk_ring_cons__rx_desc, ask_u64, ask_u32, ask, emit, ret.
    unfold bind at 1 2 3 4 5 6. cbn.
    unfold bind at 1.
    rewrite refactored_tx_reserve_loop_refused
      by (intros k; cbn [oracle clock set_trace set_clock];
          replace (S (S (S (S (clock w1)))) + 3 * k)%nat
            with (clock w1 + 4 + 3 * k)%nat by lia;
          apply Hfull).
    replace (S (S (S (S (clock w1))))) with (clock w1 + 4)%nat by lia.
    eexists. split; [reflexivity|]. cbn. repeat split; reflexivity.
Qed.

Lemma demo_tx_full_refuses k : u32 (demo_tx_full (2 + 4 + 3 * k)) <> 1.
Proof.
  unfold demo_tx_full.
  destruct (Nat.ltb_spec (2 + 4 + 3 * k) 6) as [E|_]; [lia|].
  destruct (Nat.eqb_spec ((2 + 4 + 3 * k) mod 6) 2) as [E|_]; [|discriminate].
  exfalso.
  pose proof (Nat.Div0.div_mod (2 + 4 + 3 * k) 6) as Hd.
  rewrite E in Hd. lia.
Qed.

(** A packet is waiting (descriptor at position 5: address 16, length 60)
    and the TX ring never has a slot; it asks for a wakeup after the first
    refusal and not after the second.  Both files are cut in their spin on
    the TX ring, for this bound as for any other, xdp_fwd2.c kicking with
    [sendto] and the refactored file with [poll] where the wakeup is asked
    for. *)
Lemma tx_ring_full_pump_spins_witness :
  (exists w',
     Fwd2.port_pump_once demo_add_offset 2 0 1 (demo_rx_world demo_tx_full)
       = Stop OutOfFuel w' /\
     trace w' =
       [EvNeedsWakeup (TXQ 1) false; EvReserve (TXQ 1) 1 0 0;
        EvSendto 1; EvNeedsWakeup (TXQ 1) true; EvReserve (TXQ 1) 1 0 0;
        EvConsRelease (RXQ 0) 1; EvRxDesc (RXQ 0) 5 16 60; EvPeek (RXQ 0) 1 1 5;
        EvPeek (PORT_CQ 1) 2 0 0] /\
     map n_pkts_rx (ports w') = [1; 0] /\
     macs_swapped demo_area (umem_area w') 16) /\
  (exists w',
     Refactored.forward_one_packet 2 0 1 (demo_rx_world demo_tx_full)
       = Stop OutOfFuel w' /\
     trace w' =
       [EvNeedsWakeup (TXQ 1) false; EvReserve (TXQ 1) 1 0 0;
        EvPoll 1 POLLOUT 0; EvNeedsWakeup (TXQ 1) true; EvReserve (TXQ 1) 1 0 0;
        EvRxDesc (RXQ 0) 5 16 60; EvPeek (RXQ 0) 1 1 5; EvPeek UMEM_CQ 64 0 0] /\
     map n_pkts_rx (ports w') = [0; 0] /\
     umem_area w' = demo_area).
Proof.
  split.
  - destruct (proj1 (tx_ring_full_pump_spins demo_add_offset 2 0 1
                       (demo_rx_world demo_tx_full)
                       (final (Fwd2.recycle_completions 1 2 (demo_rx_world demo_tx_full)))
                       demo_umem_half demo_umem_half zero_port
                       eq_refl eq_refl eq_refl
                       ltac:(vm_compute; discriminate) demo_tx_full_refuses)
                eq_refl ltac:(vm_compute; discriminate) ltac:(vm_compute; discriminate))
      as (w' & Hrun & Htr & Hp & Hsw).
    exists w'. split; [exact Hrun|]. split; [exact Htr|].
    split; [rewrite Hp; reflexivity|exact Hsw].
  - destruct (proj2 (tx_ring_full_pump_spins demo_add_offset 2 0 1
                       (demo_rx_world demo_tx_full)
                       (final (Refactored.umem_mgr_process_cq (demo_rx_world demo_tx_full)))
                       demo_umem_half demo_umem_half zero_port
                       eq_refl eq_refl eq_refl
                       ltac:(vm_compute; discriminate) demo_tx_full_refuses)
                eq_refl)
      as (w' & Hrun & Htr & Hp & Ha).
    exists w'. split; [exact Hrun|]. split; [exact Htr|].
    split; [rewrite Hp; reflexivity|exact Ha].
Defined.

(* ===================================================================== *)
(** * The wiring loops of [main] *)

Lemma load_at_ok {A} (arr : list A) i w :
  0 <= i < Z.of_nat (length arr) ->
  exists x, arr !! Z.to_nat i = Some x /\ load_at arr i w = Done x w.
Proof.
  intros Hi. unfold load_at.
  destruct (Z.leb_spec 0 i); [|lia].
  destruct (lookup_lt_is_Some_2 arr (Z.to_nat i)) as [x Hx]; [lia|].
  exists x. rewrite Hx. split; reflexivity.
Qed.

Lemma wire_ports_spec tbl i K : forall k j t w,
  Z.of_nat (length tbl) = 64 -> 0 <= i -> 1 <= K <= 16 -> i * K + K <= 64 ->
  0 <= j -> j + Z.of_nat k = K ->
  Z.of_nat (length (ports_rx t)) = 16 -> Z.of_nat (length (ports_tx t)) = 16 ->
  exists t',
    Fwd2.wire_ports k tbl i K j t w = Done t' w /\
    Z.of_nat (length (ports_rx t')) = 16 /\ Z.of_nat (length (ports_tx t')) = 16 /\
    n_ports_rx t' = n_ports_rx t /\ cpu_core_id t' = cpu_core_id t /\
    (forall j', 0 <= j' < j ->
       ports_rx t' !! Z.to_nat j' = ports_rx t !! Z.to_nat j' /\
       ports_tx t' !! Z.to_nat j' = ports_tx t !! Z.to_nat j') /\
    (forall j', j <= j' < K ->
       ports_rx t' !! Z.to_nat j' = Some (default None (tbl !! Z.to_nat (i * K + j'))) /\
       ports_tx t' !! Z.to_nat j'
         = Some (default None (tbl !! Z.to_nat (i * K + (j' + 1) mod K)))).
Proof.
  induction k as [|k IH]; intros j t w Hlen Hi HK Hfit Hj Hjk Hrx Htx;
    cbn [Fwd2.wire_ports].
  - exists t. split; [reflexivity|]. repeat (split; [assumption || reflexivity|]).
    split; [intros; split; reflexivity|]. intros j' Hj'. lia.
  - assert (Hjlt : j < K) by lia.
    assert (Hm : 0 <= (j + 1) mod K < K) by (apply Z.mod_pos_bound; lia).
    unfold bind at 1.
    rewrite (u32_small (i * K + j)) by nia.
    destruct (load_at_ok tbl (i * K + j) w) as (prx & Hprx & ->); [nia|].
    unfold bind at 1.
    destruct (store_at_ok (ports_rx t) j (fun _ => prx) w) as (x & Hx & ->); [lia|].
    unfold bind at 1.
    rewrite (u32_small (j + 1)) by lia.
    rewrite (u32_small (i * K + (j + 1) mod K)) by nia.
    destruct (load_at_ok tbl (i * K + (j + 1) mod K) w) as (ptx & Hptx & ->); [nia|].
    unfold bind at 1.
    destruct (store_at_ok (ports_tx t) j (fun _ => ptx) w) as (y & Hy & ->); [lia|].
    destruct (IH (j + 1)
                (set_ports_tx (<[Z.to_nat j := ptx]> (ports_tx t))
                   (set_ports_rx (<[Z.to_nat j := prx]> (ports_rx t)) t)) w)
      as (t' & Hrun & Hl1 & Hl2 & Hn & Hc & Hlow & Hhigh);
      try assumption; try lia;
      try (cbn; rewrite length_insert; assumption).
    exists t'. split; [exact Hrun|].
    split; [exact Hl1|]. split; [exact Hl2|].
    split; [exact Hn|]. split; [exact Hc|]. split.
    + intros j' Hj'. destruct (Hlow j' ltac:(lia)) as [H1 H2]. cbn in H1, H2.
      rewrite list_lookup_insert_ne in H1, H2 by lia. split; assumption.
    + intros j' Hj'. destruct (Z.eq_dec j' j) as [->|Hne].
      * destruct (Hlow j ltac:(lia)) as [H1 H2]. cbn in H1, H2.
        rewrite list_lookup_insert_eq in H1, H2 by lia.
        rewrite H1, H2, Hprx, Hptx. split; reflexivity.
      * apply Hhigh. lia.
Qed.

Lemma wiring_ready_facts K T w :
  wiring_ready K T w ->
  1 <= T /\ 1 <= K <= 16 /\ n_threads (globs w) = T /\ n_ports (globs w) = K * T /\
  K * T <= 64 /\ Z.of_nat (length (g_ports (globs w))) = 64 /\
  T <= Z.of_nat (length (g_thread_data (globs w))).
Proof. unfold wiring_ready, Fwd2.MAX_PORTS, Fwd2.MAX_PORTS_PER_THREAD. tauto. Qed.

Lemma wire_threads_spec K T : forall k i w,
  wiring_ready K T w -> 0 <= i -> i + Z.of_nat k = T ->
  exists w',
    Fwd2.wire_threads k i w = Done tt w' /\
    only_printed w w' /\ wiring_ready K T w' /\
    g_ports (globs w') = g_ports (globs w) /\
    g_port_params (globs w') = g_port_params (globs w) /\
    length (g_thread_data (globs w')) = length (g_thread_data (globs w)) /\
    (forall i', (i' < Z.to_nat i)%nat ->
       g_thread_data (globs w') !! i' = g_thread_data (globs w) !! i') /\
    (forall i', i <= i' < T ->
       exists t t',
         g_thread_data (globs w) !! Z.to_nat i' = Some t /\
         g_thread_data (globs w') !! Z.to_nat i' = Some t' /\
         n_ports_rx t' = K /\ cpu_core_id t' = cpu_core_id t /\
         forall j, 0 <= j < K ->
           ports_rx t' !! Z.to_nat j
             = Some (default None (g_ports (globs w) !! Z.to_nat (i' * K + j))) /\
           ports_tx t' !! Z.to_nat j
             = Some (default None
                       (g_ports (globs w) !! Z.to_nat (i' * K + (j + 1) mod K)))).
Proof.
  induction k as [|k IH]; intros i w Hready Hi Hik; cbn [Fwd2.wire_threads].
  - exists w. split; [reflexivity|]. split; [apply only_printed_refl|].
    split; [exact Hready|]. do 3 (split; [reflexivity|]).
    split; [reflexivity|]. intros i' Hi'. lia.
  - pose proof (wiring_ready_facts K T w Hready)
      as (HT & HK & Hnt & Hnp & Hfit & Hlen & Htd).
    pose proof Hready as (_ & _ & _ & _ & _ & _ & _ & Harr).
    unfold bind at 1. unfold get_globs.
    rewrite Hnp, Hnt, Z.quot_mul by lia. rewrite (u32_small K) by lia.
    unfold bind at 1.
    destruct (load_at_ok (g_thread_data (globs w)) i w) as (t & Ht & ->); [lia|].
    assert (Ht16 : Z.of_nat (length (ports_rx t)) = 16 /\
                   Z.of_nat (length (ports_tx t)) = 16).
    { rewrite Forall_lookup in Harr. exact (Harr _ _ Ht). }
    unfold bind at 1.
    destruct (wire_ports_spec (g_ports (globs w)) i K (Z.to_nat K) 0 t w)
      as (t' & Hrun & Hl1 & Hl2 & Hn & Hc & _ & Hhigh); try lia; try tauto; try nia.
    rewrite Hrun.
    unfold bind at 1.
    destruct (store_at_ok (g_thread_data (globs w)) i
                (fun _ => set_n_ports_rx K t') w) as (x & Hx & ->); [lia|].
    unfold bind at 1. unfold put_globs.
    unfold bind at 1. unfold print, emit.
    match goal with |- context [Fwd2.wire_threads k (i + 1) ?w1] => set (w1' := w1) end.
    assert (Hready1 : wiring_ready K T w1').
    { unfold wiring_ready in *. cbn. rewrite length_insert.
      repeat (split; [tauto|]).
      apply Forall_insert; [exact Harr|]. cbn. split; assumption. }
    destruct (IH (i + 1) w1' Hready1 ltac:(lia) ltac:(lia))
      as (w' & Hrun' & Hpr & Hready' & Hgp & Hpp & Hlen' & Hlow & Hrest).
    exists w'. split; [exact Hrun'|].
    split.
    { eapply only_printed_trans; [|exact Hpr].
      repeat split. exists [EvPrint "Thread %u (CPU core %u): "]. split; reflexivity. }
    split; [exact Hready'|]. split; [exact Hgp|]. split; [exact Hpp|].
    split; [rewrite Hlen'; cbn; apply length_insert|].
    split.
    { intros i' Hi'. rewrite Hlow by lia. cbn.
      apply list_lookup_insert_ne. lia. }
    intros i' Hi'. destruct (Z.eq_dec i' i) as [->|Hne].
    + exists t, (set_n_ports_rx K t').
      split; [exact Ht|]. split.
      { rewrite Hlow by lia. cbn. apply list_lookup_insert_eq. lia. }
      split; [reflexivity|]. split; [exact Hc|].
      intros j Hj. cbn. apply Hhigh. lia.
    + destruct (Hrest i' ltac:(lia)) as (t0 & t0' & Ht0 & Ht0' & H1 & H2 & H3).
      cbn in Ht0. rewrite list_lookup_insert_ne in Ht0 by lia.
      exists t0, t0'. repeat (split; [assumption|]). exact H3.
Qed.



(* ===================================================================== *)
(** * The default pool and the number of ports *)

Lemma fwd2_port_init_no_frames pr w u :
  umem w = Some u -> free_top u = 0 -> 0 < fill_size (umem_cfg u) ->
  oracle w (clock w) <> 0 ->
  s32 (oracle w (S (clock w))) = 0 ->
  exists w',
    Fwd2.port_init pr w = Done None w' /\
    trace w' =
      [EvFree (ObjPort (length (ports w)));
       EvSocketDelete (length (ports w));
       EvPrint "Initial UMEM FQ fill: no frames";
       EvSocketCreate (length (ports w)) (iface pr) (iface_queue pr) 0;
       EvCalloc (ObjPort (length (ports w))) true]
      ++ trace w /\
    umem w' = Some u /\ globs w' = globs w /\
    length (ports w') = S (length (ports w)) /\
    clock w' = S (S (clock w)).
Proof.
  intros Hu Htop Hfill Hcalloc Hsock.
  unfold Fwd2.port_init.
  unfold bind at 1. unfold calloc_port, calloc, ask_bool, ask, emit, bind at 1 2 3, ret.
  cbn. destruct (Z.eqb_spec (oracle w (clock w)) 0) as [E|_]; [contradiction|]. cbn.
  unfold bind at 1. unfold update_port at 1. cbn.
  rewrite lookup_app_r, Nat.sub_diag by reflexivity. cbn.
  unfold bind at 1. unfold xsk_socket__create_shared, ask_int, ask, emit, ret.
  unfold bind at 1 2 3 4 5 6. cbn. rewrite Hsock. cbn.
  unfold update_port at 1. cbn.
  rewrite list_lookup_insert_eq by (rewrite length_app; cbn; lia). cbn.
  unfold bind at 1. unfold get_umem. cbn. rewrite Hu.
  destruct (Z.ltb_spec 0 (fill_size (umem_cfg u))) as [_|E]; [|lia].
  unfold bind at 1. unfold with_umem at 1. cbn. rewrite Hu.
  unfold Fwd2.umem_alloc. rewrite Htop.
  assert (Hgot : (if (if 4096 <? fill_size (umem_cfg u) then 4096
                      else fill_size (umem_cfg u)) <=? 0
                  then if 4096 <? fill_size (umem_cfg u) then 4096
                       else fill_size (umem_cfg u)
                  else 0) = 0).
  { destruct (Z.ltb_spec 4096 (fill_size (umem_cfg u)));
      match goal with |- (if ?c then _ else _) = _ => destruct c eqn:Ec end;
      try reflexivity; apply Z.leb_le in Ec; lia. }
  rewrite Hgot. change (Z.to_nat 0) with 0%nat. cbn.
  unfold print, port_free, free, get_port, emit, bind, ret. cbn.
  rewrite list_lookup_insert_eq
    by (rewrite length_insert, length_app; cbn; lia).
  cbn. eexists. split; [reflexivity|]. cbn.
  split; [reflexivity|]. split; [reflexivity|]. split; [reflexivity|].
  split; [|reflexivity].
  rewrite !length_insert, length_app. cbn. lia.
Qed.

Lemma init_ports_runs_dry o :
  grants_all o ->
  forall k i w,
    ports_inited o i w -> 0 <= i <= 16 -> 16 < i + Z.of_nat k ->
    exists w',
      Fwd2.init_ports k i w = Done false w' /\
      Z.of_nat (length (ports w')) = 17 /\
      (exists rest,
         trace w' =
           EvPrint "Port %d initialization failed."
           :: EvFree (ObjPort 16) :: EvSocketDelete 16
           :: EvPrint "Initial UMEM FQ fill: no frames" :: rest) /\
      (exists u, umem w' = Some u /\ free_top u = 0) /\
      clock w' = 72%nat.
Proof.
  intros (_ & _ & _ & _ & _ & _ & Hgrant).
  induction k as [|k IH]; intros i w Hinv Hi Hk; [lia|].
  destruct Hinv as (Ho & Hck & Hlp & Hlpp & Hlgp & u & Hu & Hwf & Htop & Hfill).
  destruct (Hgrant (Z.to_nat i) ltac:(lia)) as (Hcalloc & Hsock & Hres).
  cbn [Fwd2.init_ports].
  unfold bind at 1. unfold get_globs.
  unfold bind at 1.
  destruct (load_at_ok (g_port_params (globs w)) i w) as (pr & Hpr & ->); [lia|].
  unfold bind at 1.
  destruct (Z.eq_dec i 16) as [->|Hne].
  - destruct (fwd2_port_init_no_frames pr w u Hu ltac:(lia) ltac:(lia))
      as (w1 & Hrun & Htr & Hu1 & Hg1 & Hl1 & Hck1).
    { rewrite Ho, Hck. exact Hcalloc. }
    { rewrite Ho, Hck. exact Hsock. }
    rewrite Hrun.
    unfold bind at 1.
    destruct (store_at_ok (g_ports (globs w)) 16 (fun _ => None) w1)
      as (x & Hx & ->); [lia|].
    unfold put_globs, print, emit, bind, ret. cbn.
    eexists. split; [reflexivity|]. cbn.
    split; [lia|]. split.
    { rewrite Htr. replace (length (ports w)) with 16%nat by lia.
      eexists. reflexivity. }
    split; [exists u; split; [exact Hu1|lia]|].
    rewrite Hck1, Hck. reflexivity.
  - assert (Hlt : i < 16) by lia.
    destruct (fwd2_port_init_ok pr w u Hu Hwf ltac:(lia) ltac:(lia))
      as (w1 & Hrun & Hu1 & Htr & Hp1 & Hck1 & Ho1 & Hg1 & _).
    { rewrite Ho, Hck. exact Hcalloc. }
    { rewrite Ho, Hck. exact Hsock. }
    { replace (Z.min (Z.min (fill_size (umem_cfg u)) 4096) (free_top u))
        with 4096 by lia.
      rewrite Ho, Hck. exact (Hres ltac:(lia)). }
    rewrite Hrun.
    unfold bind at 1.
    destruct (store_at_ok (g_ports (globs w)) i (fun _ => Some (length (ports w))) w1)
      as (x & Hx & ->); [lia|].
    unfold bind at 1. unfold put_globs.
    unfold bind at 1. unfold print, emit.
    apply IH; [|lia|lia].
    unfold ports_inited. cbn.
    split; [rewrite Ho1; exact Ho|].
    split; [rewrite Hck1, Hck; lia|].
    split; [rewrite Hp1, length_app; cbn; lia|].
    split; [exact Hlpp|].
    split; [rewrite length_insert; exact Hlgp|].
    eexists. split; [exact Hu1|].
    destruct Hwf as (Hlen & Htop' & Hn).
    replace (Z.min (Z.min (fill_size (umem_cfg u)) 4096) (free_top u))
      with 4096 by lia.
    split; [unfold umem_wf; cbn; lia|]. cbn. split; [lia|exact Hfill].
Qed.

Lemma parse_args_state_ok atoi hdr o opts r w' :
  Fwd2.parse_args atoi opts (cli_world hdr o) = Done r w' -> cli_state_ok w'.
Proof.
  destruct (getopt_loop_spec atoi opts (cli_world hdr o) (cli_world_ok hdr o))
    as (w1 & Hrun & _ & Hok & _).
  unfold Fwd2.parse_args. unfold bind at 1. rewrite Hrun.
  destruct (accepted_from _ _ opts).
  - unfold get_globs, print, emit, bind, ret.
    repeat match goal with
           | |- context [if ?c then _ else _] => destruct c
           end; intros [= <- <-]; exact Hok.
  - unfold ret. intros [= <- <-]. exact Hok.
Qed.

Lemma fwd2_umem_mgr_create_ok pp cfg w :
  0 <= pp_n_frames pp < 2 ^ 32 ->
  s32 (oracle w (clock w)) = 0 ->
  oracle w (1 + clock w)%nat <> 0 ->
  oracle w (2 + clock w)%nat <> 0 ->
  s32 (oracle w (3 + clock w)%nat) = 0 ->
  oracle w (4 + clock w)%nat <> 0 ->
  s32 (oracle w (5 + clock w)%nat) = 0 ->
  exists u w',
    Fwd2.umem_mgr_create pp cfg w = Done (Some u) w' /\
    umem_wf u /\ free_top u = pp_n_frames pp /\ umem_cfg u = cfg /\
    oracle w' = oracle w /\ clock w' = (6 + clock w)%nat /\
    ports w' = ports w /\ globs w' = globs w.
Proof.
  intros Hn H0 H1 H2 H3 H4 H5.
  unfold Fwd2.umem_mgr_create.
  unfold setrlimit_memlock, calloc, mmap, xsk_umem__create, malloc,
    pthread_mutex_init, ask_int, ask_bool, ask, print, free, munmap,
    xsk_umem__delete, emit, bind, ret.
  cbn in *. rewrite H0. cbn.
  destruct (Z.eqb_spec (oracle w (S (clock w))) 0) as [E|_]; [contradiction|]. cbn.
  destruct (Z.eqb_spec (oracle w (S (S (clock w)))) 0) as [E|_]; [contradiction|]. cbn.
  rewrite H3. cbn.
  destruct (Z.eqb_spec (oracle w (S (S (S (S (clock w)))))) 0) as [E|_]; [contradiction|]. cbn.
  rewrite H5. cbn.
  eexists _, _. split; [reflexivity|].
  split.
  { unfold umem_wf. cbn. rewrite length_map, length_seq. lia. }
  repeat split.
Qed.

(** X20.  With the default UMEM of 64 * 1024 frames and a fill size of at
    least 4096 (XSK_RING_PROD__DEFAULT_NUM_DESCS >= 2048) every port
    takes 4096 frames when it is initialised, so the pool feeds exactly
    16 ports: on an accepted command line with 17 or more interfaces,
    even if every call succeeds, main of xdp_fwd2.c fails at port 16
    with 'Initial UMEM FQ fill: no frames', frees that port and returns
    -1 with the freelist empty. *)
Theorem default_pool_feeds_sixteen_ports
    (atoi : string -> Z) (hdr : xsk_defs) (o : nat -> Z) (opts : list cli_opt) :
  cli_accepts opts = true ->
  17 <= count_opt is_OptI opts ->
  2048 <= XSK_RING_PROD__DEFAULT_NUM_DESCS hdr < 2 ^ 31 ->
  grants_all o ->
  exists w',
    Fwd2.main atoi hdr opts (Fwd2.initial_world o) = Done (Exit (-1)) w' /\
    Z.of_nat (length (ports w')) = 17 /\
    (exists rest,
       trace w' =
         EvPrint "Port %d initialization failed."
         :: EvFree (ObjPort 16) :: EvSocketDelete 16
         :: EvPrint "Initial UMEM FQ fill: no frames" :: rest) /\
    (exists u, umem w' = Some u /\ free_top u = 0) /\
    clock w' = 72%nat.
Proof.
  intros Ha Hn Hd Hg.
  destruct (parse_args_spec atoi hdr o opts)
    as (w1 & Hrun & (Ho1 & Hck1 & Hum1 & _ & Hps1 & _) & _ & Hacc).
  pose proof (parse_args_state_ok atoi hdr o opts _ w1 Hrun) as (_ & _ & Hlpp & _).
  rewrite Ha in Hrun. destruct (Hacc Ha) as (Hn1 & _ & _ & Hgp & _).
  pose proof Hg as (G0 & G1 & G2 & G3 & G4 & G5 & _).
  destruct (fwd2_umem_mgr_create_ok (Fwd2.umem_params_default hdr)
              (Fwd2.umem_cfg_default hdr) w1)
    as (u & w2 & Hcr & Hwf & Htop & Hcfg & Ho2 & Hck2 & Hps2 & Hg2).
  { unfold Fwd2.umem_params_default. cbn [pp_n_frames]. lia. }
  1-6: rewrite Ho1, Hck1; cbn [oracle clock Fwd2.initial_world cli_world set_globs];
       assumption.
  unfold Fwd2.main.
  unfold bind at 1. unfold get_globs. unfold bind at 1. unfold put_globs.
  change (set_globs _ (Fwd2.initial_world o)) with (cli_world hdr o).
  unfold bind at 1. rewrite Hrun.
  change (negb (0 =? 0)) with false. cbv iota.
  unfold bind at 1. rewrite Hcr.
  unfold bind at 1. unfold bind at 1. unfold print at 1, emit at 1.
  unfold bind at 1. unfold bind at 1.
  match goal with
  | |- context [Fwd2.init_ports ?k 0 ?w] =>
      destruct (init_ports_runs_dry o Hg k 0 w) as (w3 & Hrun3 & Hl & Htr & Hu & Hck)
  end.
  { unfold ports_inited. cbn [oracle clock ports globs umem set_trace set_umem].
    rewrite Ho2, Ho1, Hck2, Hck1, Hps2, Hps1, Hg2, Hgp.
    split; [reflexivity|]. split; [reflexivity|]. split; [reflexivity|].
    split; [exact Hlpp|]. split; [rewrite length_replicate; reflexivity|].
    exists u. split; [reflexivity|]. split; [exact Hwf|].
    rewrite Htop, Hcfg. unfold Fwd2.umem_params_default, Fwd2.umem_cfg_default.
    cbn [pp_n_frames fill_size]. lia. }
  { lia. }
  { cbn [globs set_trace set_umem]. rewrite Hg2, Hn1. lia. }
  rewrite Hrun3. cbn.
  exists w3. split; [reflexivity|]. repeat split; assumption.
Qed.

Lemma demo_oracle_grants_all : grants_all demo_grants_all.
Proof.
  unfold grants_all.
  do 6 (split; [vm_compute; congruence|]).
  intros i Hi.
  assert (Hm : forall r, (r < 4)%nat ->
            demo_grants_all (6 + r + 4 * i) = nth r [1; 0; 4096; 0] 0).
  { intros r Hr. unfold demo_grants_all.
    destruct (Nat.ltb_spec (6 + r + 4 * i) 6) as [E|_]; [lia|].
    replace (6 + r + 4 * i - 6)%nat with (r + i * 4)%nat by lia.
    rewrite Nat.Div0.mod_add, Nat.mod_small by lia. reflexivity. }
  split; [|split].
  - replace (6 + 4 * i)%nat with (6 + 0 + 4 * i)%nat by lia.
    rewrite (Hm 0%nat) by lia. cbn. discriminate.
  - replace (7 + 4 * i)%nat with (6 + 1 + 4 * i)%nat by lia.
    rewrite (Hm 1%nat) by lia. reflexivity.
  - intros _. replace (8 + 4 * i)%nat with (6 + 2 + 4 * i)%nat by lia.
    rewrite (Hm 2%nat) by lia. reflexivity.
Qed.

Lemma default_pool_feeds_sixteen_ports_witness :
  exists w',
    Fwd2.main demo_atoi demo_hdr demo_17_ports (Fwd2.initial_world demo_grants_all)
      = Done (Exit (-1)) w' /\
    Z.of_nat (length (ports w')) = 17 /\
    (exists rest,
       trace w' =
         EvPrint "Port %d initialization failed."
         :: EvFree (ObjPort 16) :: EvSocketDelete 16
         :: EvPrint "Initial UMEM FQ fill: no frames" :: rest) /\
    (exists u, umem w' = Some u /\ free_top u = 0) /\
    clock w' = 72%nat.
Proof.
  apply (default_pool_feeds_sixteen_ports demo_atoi demo_hdr demo_grants_all demo_17_ports).
  - reflexivity.
  - vm_compute. discriminate.
  - vm_compute. split; [discriminate|reflexivity].
  - exact demo_oracle_grants_all.
Defined.

(* ===================================================================== *)
(** * The refactored worker and the shares of the threads *)

Lemma lone_port_sweep fuel t w :
  0 <= Refactored.t_n_ports t <= 1 ->
  Refactored.sweep_rx (Z.to_nat (Refactored.t_n_ports t)) fuel t 0 0 w = Done 0 w.
Proof.
  intros Hn.
  assert (Refactored.t_n_ports t = 0 \/ Refactored.t_n_ports t = 1) as [E|E] by lia;
    rewrite E; [reflexivity|].
  change (Z.to_nat 1) with 1%nat. cbn [Refactored.sweep_rx].
  unfold bind at 1. rewrite E. reflexivity.
Qed.

Lemma lone_port_loop fuel t n : forall iters w,
  0 <= Refactored.t_n_ports t <= 1 ->
  (n < iters)%nat ->
  (forall k, (k < n)%nat -> oracle w (clock w + k)%nat = 0) ->
  oracle w (clock w + n)%nat <> 0 ->
  Refactored.thread_loop iters fuel t w =
    Done tt (set_trace (replicate n (EvUsleep 1) ++ trace w)
               (set_clock (clock w + S n)%nat w)).
Proof.
  induction n as [|n IH]; intros iters w Hp Hlt Hrun Hstop;
    (destruct iters as [|iters]; [lia|]); cbn [Refactored.thread_loop].
  - unfold bind at 1. unfold ask_bool, ask, bind, ret.
    rewrite Nat.add_0_r in Hstop.
    destruct (Z.eqb_spec (oracle w (clock w)) 0) as [E|_]; [contradiction|].
    cbn. rewrite Nat.add_1_r. destruct w; reflexivity.
  - unfold bind at 1. unfold ask_bool, ask. unfold bind at 1. unfold ret at 1.
    pose proof (Hrun 0%nat ltac:(lia)) as H0. rewrite Nat.add_0_r in H0.
    rewrite H0. cbn [Z.eqb negb].
    unfold bind at 1. rewrite lone_port_sweep by exact Hp.
    cbn [Z.eqb]. unfold bind at 1. unfold usleep, emit.
    rewrite IH; [| exact Hp | lia | |].
    + destruct w as [o c tr um ar ps g]. unfold set_trace, set_clock. cbn.
      change (EvUsleep 1 :: replicate n (EvUsleep 1) ++ tr)
        with ((EvUsleep 1 :: replicate n (EvUsleep 1)) ++ tr).
      rewrite (replicate_cons_app n), <- app_assoc. cbn.
      replace (S (c + S n))%nat with (c + S (S n))%nat by lia. reflexivity.
    + intros k Hk. specialize (Hrun (S k) ltac:(lia)).
      destruct w as [o c tr um ar ps g]. cbn in *.
      replace (S (c + k))%nat with (c + S k)%nat by lia. exact Hrun.
    + destruct w as [o c tr um ar ps g]. cbn in *.
      replace (S (c + n))%nat with (c + S n)%nat by lia. exact Hstop.
Qed.

(** X21.  A worker of xdp_fwd2_refactored.c with one port (or none) never
    calls forward_one_packet: its sweep skips i == j, so each iteration
    only tests the stop flag and calls usleep(1). If the flag reads 0 n
    times and then nonzero, thread_func returns after its start message
    and n sleeps and has changed no port, no frame and no freelist
    entry. *)
Theorem lone_port_worker_only_sleeps
    (iters fuel n : nat) (t : Refactored.thread_data) (w : world) :
  0 <= Refactored.t_n_ports t <= 1 ->
  (n < iters)%nat ->
  (forall k, (k < n)%nat -> oracle w (clock w + k)%nat = 0) ->
  oracle w (clock w + n)%nat <> 0 ->
  Refactored.thread_func iters fuel t w =
    Done tt (set_trace (replicate n (EvUsleep 1)
                        ++ EvPrint "Thread %d: managing %u ports" :: trace w)
               (set_clock (clock w + S n)%nat w)).
Proof.
  intros Hp Hlt Hrun Hstop.
  unfold Refactored.thread_func, print, emit. unfold bind at 1.
  rewrite (lone_port_loop fuel t n) by assumption.
  destruct w; reflexivity.
Qed.

Lemma lone_port_worker_only_sleeps_witness :
  Refactored.thread_func 5 1 demo_lone_thread demo_lone_world =
    Done tt (set_trace (replicate 2 (EvUsleep 1)
                        ++ EvPrint "Thread %d: managing %u ports"
                        :: trace demo_lone_world)
               (set_clock (clock demo_lone_world + 3)%nat demo_lone_world)).
Proof.
  apply (lone_port_worker_only_sleeps 5 1 2 demo_lone_thread demo_lone_world).
  - cbn. lia.
  - lia.
  - intros k Hk. destruct k as [|[|k]]; [reflexivity|reflexivity|lia].
  - vm_compute. discriminate.
Defined.

Lemma parse_n_threads_bounds atoi argv1 :
  1 <= Refactored.parse_n_threads atoi argv1 <= Refactored.MAX_THREADS.
Proof.
  unfold Refactored.parse_n_threads, Refactored.MAX_THREADS.
  destruct argv1 as [s|]; [|lia].
  assert (0 <= u32 (atoi s)) by (unfold u32; apply Z.mod_pos_bound; lia).
  destruct (Z.eqb_spec (u32 (atoi s)) 0);
    match goal with |- context [?a <? ?b] => destruct (Z.ltb_spec a b) end; lia.
Qed.

(** X22.  main of xdp_fwd2_refactored.c brings the thread count of argv[1]
    into 1..MAX_THREADS (8) and shares its two ports like this: one
    thread gets both; with 2 or 3 threads, thread i starts at ports[i]
    and gets 1 port for i < 2 and 0 ports for i = 2; with 4 or more
    threads every thread but the last starts at ports[i] with 1 port,
    and the last starts at ports[n_threads - 1] with n_interfaces -
    (n_threads - 1) ports computed in u32, that is 2^32 - (n_threads -
    3). *)
Theorem thread_shares_fit_up_to_three_threads
    (atoi : string -> Z) (argv1 : option string) :
  let n := Refactored.parse_n_threads atoi argv1 in
  1 <= n <= Refactored.MAX_THREADS /\
  (n = 1 ->
   Refactored.first_port n 0 = 0 /\ Refactored.share_n_ports n 0 = 2) /\
  (2 <= n <= 3 ->
   forall i, 0 <= i < n ->
     Refactored.first_port n i = i /\
     Refactored.share_n_ports n i = (if i <? 2 then 1 else 0)) /\
  (4 <= n ->
   (forall i, 0 <= i < n - 1 ->
      Refactored.first_port n i = i /\ Refactored.share_n_ports n i = 1) /\
   Refactored.first_port n (n - 1) = n - 1 /\
   Refactored.share_n_ports n (n - 1) = 2 ^ 32 - (n - 3)).
Proof.
  intros n. pose proof (parse_n_threads_bounds atoi argv1) as Hb.
  fold n in Hb. clearbody n. unfold Refactored.MAX_THREADS in *.
  split; [exact Hb|].
  assert (Hn : n = 1 \/ n = 2 \/ n = 3 \/ n = 4 \/ n = 5 \/ n = 6 \/ n = 7 \/ n = 8)
    by lia.
  assert (Hi : forall i, 0 <= i < n ->
            i = 0 \/ i = 1 \/ i = 2 \/ i = 3 \/ i = 4 \/ i = 5 \/ i = 6 \/ i = 7)
    by (intros; lia).
  split; [intros ->; split; reflexivity|].
  split.
  - intros Hr i Hlt. specialize (Hi i Hlt).
    assert (n = 2 \/ n = 3) as [-> | ->] by lia;
      repeat (destruct Hi as [-> | Hi]; [try lia; split; reflexivity|]);
      subst; try lia; split; reflexivity.
  - intros Hr. split.
    + intros i Hlt. specialize (Hi i ltac:(lia)).
      repeat (destruct Hn as [-> | Hn]; [try lia;
        repeat (destruct Hi as [-> | Hi]; [try lia; split; reflexivity|]);
        subst; try lia; split; reflexivity|]).
      subst. 
      repeat (destruct Hi as [-> | Hi]; [try lia; split; reflexivity|]);
        subst; try lia; split; reflexivity.
    + repeat (destruct Hn as [-> | Hn]; [try lia; split; reflexivity|]).
      subst. split; reflexivity.
Qed.

(* ===================================================================== *)
(** * Start-up and cleanup of the refactored forwarder *)

Lemma unwound_after_app evs1 : forall evs2 st,
  unwound_after (evs1 ++ evs2) st =
    match unwound_after evs1 st with
    | Some st' => unwound_after evs2 st'
    | None => None
    end.
Proof.
  induction evs1 as [|e evs1 IH]; intros evs2 st; cbn [app unwound_after]; [reflexivity|].
  destruct (acquired e); [apply IH|].
  destruct (gives_back e); [|apply IH].
  destruct st as [|top below]; [reflexivity|].
  destruct (decide (o = top)); [apply IH|reflexivity].
Qed.

Lemma unwound_after_quiet evs : forall st,
  all_events no_resource_call evs -> unwound_after evs st = Some st.
Proof.
  unfold all_events.
  induction evs as [|e evs IH]; intros st H; cbn [unwound_after]; [reflexivity|].
  cbn [forallb] in H. apply andb_prop in H as [He H].
  destruct e; cbn in He; try discriminate He; cbn; apply IH, H.
Qed.

Lemma unwound_step new1 new2 st0 st1 st2 :
  unwound_after (reverse new1) st0 = Some st1 ->
  unwound_after (reverse new2) st1 = Some st2 ->
  unwound_after (reverse (new2 ++ new1)) st0 = Some st2.
Proof.
  intros H1 H2. rewrite reverse_app, unwound_after_app, H1. exact H2.
Qed.

Lemma all_events_reverse q l : all_events q l -> all_events q (reverse l).
Proof.
  unfold all_events. rewrite !forallb_forall. intros H e He.
  apply H. apply list_elem_of_In. apply list_elem_of_In in He.
  rewrite elem_of_reverse in He. exact He.
Qed.

Lemma unwound_quiet_step new1 new2 st0 st1 :
  unwound_after (reverse new1) st0 = Some st1 ->
  all_events no_resource_call new2 ->
  unwound_after (reverse (new2 ++ new1)) st0 = Some st1.
Proof.
  intros H1 H2. eapply unwound_step; [exact H1|].
  apply unwound_after_quiet, all_events_reverse, H2.
Qed.

Lemma refactored_create_cases pp cfg w :
  exists r w' new,
    Refactored.umem_mgr_create pp cfg w = Done r w' /\
    trace w' = new ++ trace w /\ umem w' = umem w /\ ports w' = ports w /\
    match r with
    | None =>
        (forall st, unwound_after (reverse new) st = Some st) /\
        existsb step_failed new = true
    | Some u =>
        u = {| umem_cfg := cfg;
               free_addrs := map (fun i => u64 (Z.of_nat i * pp_frame_size pp))
                                 (seq 0 (Z.to_nat (pp_n_frames pp)));
               free_top := pp_n_frames pp; n_frames := pp_n_frames pp;
               frame_size := pp_frame_size pp; fq_initialized := 0 |} /\
        (forall st, unwound_after (reverse new) st = Some (manager_held ++ st)) /\
        existsb step_failed new = false
    end.
Proof.
  unfold Refactored.umem_mgr_create.
  unfold setrlimit_memlock, calloc, mmap, xsk_umem__create, malloc,
    pthread_mutex_init, ask_int, ask_bool, ask, print, free, munmap,
    xsk_umem__delete, emit, bind, ret.
  cbn.
  repeat split_answer.
  all: eexists _, _, _; split; [reflexivity|]; cbn.
  all: split; [solve_trace|]; split; [reflexivity|]; split; [reflexivity|].
  all: repeat (split; [first [reflexivity | intros st; reflexivity]|]); reflexivity.
Qed.

Lemma refactored_port_init_unwound pr w :
  exists po w' new,
    Refactored.port_init pr w = Done po w' /\
    trace w' = new ++ trace w /\ umem w' = umem w /\
    (exists extra, ports w' = ports w ++ extra) /\
    match po with
    | Some p =>
        p = length (ports w) /\
        (forall st, unwound_after (reverse new) st
                    = Some (ObjSocket p :: ObjPort p :: st)) /\
        existsb step_failed new = false /\
        ports w' = ports w ++
          [ {| params := pr; xsk := true; umem_fq_initialized := 0;
               n_pkts_rx := 0; n_pkts_tx := 0 |} ]
    | None =>
        (forall st, unwound_after (reverse new) st = Some st) /\
        existsb step_failed new = true
    end.
Proof.
  unfold Refactored.port_init.
  unfold bind at 1. unfold calloc_port, calloc, ask_bool, ask, emit, bind at 1 2 3, ret.
  cbn. destruct (Z.eqb_spec (oracle w (clock w)) 0) as [E|_]; cbn.
  { eexists _, _, _. split; [reflexivity|]. cbn. split; [solve_trace|].
    split; [reflexivity|]. split; [exists []; rewrite app_nil_r; reflexivity|].
    split; [intros st; reflexivity|reflexivity]. }
  unfold bind at 1. unfold update_port at 1. cbn.
  rewrite lookup_app_r, Nat.sub_diag by reflexivity. cbn.
  unfold bind at 1. unfold xsk_socket__create_shared, ask_int, ask, emit, ret.
  unfold bind at 1 2 3 4 5 6. cbn.
  destruct (s32 (oracle w (S (clock w))) =? 0) eqn:Est; cbn; rewrite ?Est; cbn.
  2:{ unfold print, port_free, free, get_port, emit, bind, ret. cbn.
      rewrite list_lookup_insert_eq by (rewrite length_app; cbn; lia). cbn.
      eexists _, _, _. split; [reflexivity|]. cbn. split; [solve_trace|].
      split; [reflexivity|].
      split.
      { rewrite insert_app_r_alt, Nat.sub_diag by reflexivity. eexists. reflexivity. }
      cbn. rewrite Est. cbn.
      split; [|reflexivity]. intros st.
      destruct (s32 (oracle w (S (clock w)))); [discriminate Est| |]; cbn;
        rewrite decide_True by reflexivity; reflexivity. }
  apply Z.eqb_eq in Est.
  rewrite Est. unfold update_port at 1. cbn.
  rewrite list_lookup_insert_eq by (rewrite length_app; cbn; lia). cbn.
  rewrite list_insert_insert_eq.
  rewrite insert_app_r_alt, Nat.sub_diag by reflexivity.
  eexists _, _, _. split; [reflexivity|]. cbn. split; [solve_trace|].
  split; [reflexivity|]. split; [eexists; reflexivity|].
  cbn. repeat split; reflexivity.
Qed.

Lemma refactored_init_fq_trace :
  keeps trace (grows_by (all_events no_resource_call)) Refactored.umem_mgr_init_fq.
Proof. unfold Refactored.umem_mgr_init_fq, Refactored.umem_mgr_fill_fq. keeps_go. Qed.

Lemma refactored_init_fq_ports : keeps ports eq Refactored.umem_mgr_init_fq.
Proof. unfold Refactored.umem_mgr_init_fq. keeps_go. Qed.

Lemma refactored_destroy_run u w :
  Refactored.umem_mgr_destroy (Some u) w =
    Done tt (set_umem None
               (set_trace ([EvFree ObjUmemMgr;
                            EvMunmap (total_sz (n_frames u) (frame_size u));
                            EvUmemDelete; EvFree ObjFreeAddrs; EvMutexDestroy]
                           ++ trace w) w)).
Proof. destruct w; reflexivity. Qed.

Lemma refactored_fill_fq_trace want :
  keeps trace (grows_by (all_events no_resource_call)) (Refactored.umem_mgr_fill_fq want).
Proof. unfold Refactored.umem_mgr_fill_fq. keeps_go. Qed.

Lemma refactored_init_fq_failed w r w' :
  Refactored.umem_mgr_init_fq w = Done r w' -> r <> 0 ->
  exists new,
    trace w' = EvPrint "Failed to initialize FQ with %u frames" :: new ++ trace w.
Proof.
  unfold Refactored.umem_mgr_init_fq. intros H Hr.
  step_run H. unfold get_umem in Hm.
  destruct (umem w) as [u|]; [|discriminate Hm]. injection Hm as <- <-.
  destruct (negb (fq_initialized u =? 0)).
  { unfold ret in H. injection H as <- <-. contradiction. }
  step_run H.
  destruct (keeps_done_grows _ _ _ _ _ (refactored_fill_fq_trace _) Hm)
    as (new & Htr & _).
  destruct (a <=? 0).
  - unfold print, emit, bind, ret in H. injection H as <- <-. cbn.
    exists new. rewrite Htr. reflexivity.
  - unfold with_umem_, with_umem, print, emit, bind, ret in H.
    destruct (umem w0); [|discriminate H]. injection H as <- <-. contradiction.
Qed.

Lemma cleanup_frees_first_port p0 q w :
  ports w !! p0 = Some q -> xsk q = true ->
  Refactored.cleanup_ports 2 0 (Some (Some p0) :: Some None :: replicate 6 None) w
    = Done None (set_trace (EvFree (ObjPort p0) :: EvSocketDelete p0 :: trace w) w).
Proof.
  intros Hq Hx. cbn [Refactored.cleanup_ports].
  unfold bind at 1.
  change (load_at (Some (Some p0) :: Some None :: replicate 6 None) 0 w)
    with (Done (Some (Some p0)) w).
  cbv iota. unfold bind at 1.
  unfold port_free, get_port, free, emit, bind, ret. rewrite Hq, Hx.
  destruct w; reflexivity.
Qed.

Lemma refactored_main_cases atoi hdr argv1 w :
  0 <= XSK_RING_PROD__DEFAULT_NUM_DESCS hdr -> umem w = None ->
  exists r w' new,
    Refactored.main atoi hdr argv1 w = Done r w' /\
    trace w' = new ++ trace w /\
    match r with
    | Refactored.Returned rc =>
        unwound_after (reverse new) [] = Some [] /\ umem w' = None /\
        ((rc = 1 /\ ports w' = ports w /\
          (existsb step_failed new = true \/
           In (EvPrint "Failed to initialize FQ with %u frames") new)) \/
         (rc = 0 /\ existsb step_failed new = true /\
          head new = Some (EvPrint "Shutdown complete") /\
          In (EvPrint "Failed to create port %u (%s)") new))
    | Refactored.ReadsUnassigned i =>
        i = 1 /\ unwound_after (reverse new) [] = Some manager_held /\
        existsb step_failed new = true /\
        head new = Some (EvPrint "Failed to create port %u (%s)") /\
        exists u, umem w' = Some u /\ fq_initialized u = 1
    | Refactored.PortsCreated n ps =>
        n = Refactored.parse_n_threads atoi argv1 /\
        ps = Some (Some (length (ports w))) :: Some (Some (S (length (ports w))))
             :: replicate 6 None /\
        unwound_after (reverse new) []
          = Some ([ObjSocket (S (length (ports w))); ObjPort (S (length (ports w)));
                   ObjSocket (length (ports w)); ObjPort (length (ports w))]
                  ++ manager_held) /\
        existsb step_failed new = false /\
        ports w' = ports w ++
          [ {| params := Refactored.port_params_for hdr "veth0s8"; xsk := true;
               umem_fq_initialized := 0; n_pkts_rx := 0; n_pkts_tx := 0 |};
            {| params := Refactored.port_params_for hdr "veth0s1"; xsk := true;
               umem_fq_initialized := 0; n_pkts_rx := 0; n_pkts_tx := 0 |} ] /\
        exists u, umem w' = Some u /\ umem_wf u /\ fq_initialized u = 1 /\
          free_top u = 4096 -
            Z.min (if XSK_RING_PROD__DEFAULT_NUM_DESCS hdr =? 0 then 64
                   else XSK_RING_PROD__DEFAULT_NUM_DESCS hdr) 4096
    end.
Proof.
  intros Hfs Hnone.
  unfold Refactored.main.
  unfold bind at 1. unfold print at 1, emit at 1.
  unfold bind at 1. unfold print at 1, emit at 1.
  unfold bind at 1.
  match goal with
  | |- context [Refactored.umem_mgr_create ?pp ?cfg ?w0] =>
      destruct (refactored_create_cases pp cfg w0)
        as (um & w1 & new1 & Hcr & Htr1 & Hum1 & Hps1 & Hcase1);
      rewrite Hcr; set (pp0 := pp) in *; set (cfg0 := cfg) in *
  end.
  cbn [trace ports umem set_trace] in Htr1, Hps1, Hum1.
  set (banner := [EvPrint "Interfaces: %u, Threads: %u, Frames: %u";
                  EvPrint "AF_XDP Forwarder (Refactored)"]) in *.
  change (trace w1 = new1 ++ banner ++ trace w) in Htr1.
  assert (Hban : forall st, unwound_after (reverse banner) st = Some st)
    by (intros st; reflexivity).
  destruct um as [u|].
  2:{ (* the manager could not be created *)
      destruct Hcase1 as (Hun1 & Hf1).
      unfold print, emit, bind, ret.
      exists (Refactored.Returned 1). eexists.
      exists (EvPrint "Failed to create UMEM manager" :: new1 ++ banner).
      split; [reflexivity|]. cbn [trace set_trace umem ports].
      split; [rewrite Htr1, <- app_comm_cons, <- app_assoc; reflexivity|].
      split.
      { change (EvPrint "Failed to create UMEM manager" :: new1 ++ banner)
          with ([EvPrint "Failed to create UMEM manager"] ++ new1 ++ banner).
        eapply unwound_step; [|reflexivity].
        eapply unwound_step; [apply Hban|apply Hun1]. }
      split; [congruence|].
      left. split; [reflexivity|]. split; [congruence|].
      left. cbn. rewrite existsb_app, Hf1. reflexivity. }
  destruct Hcase1 as (Hu & Hun1 & Hf1).
  assert (Hwf : umem_wf u).
  { subst u. unfold umem_wf. cbn [free_addrs n_frames free_top pp0 pp_n_frames].
    rewrite length_map, length_seq. lia. }
  assert (Htop : free_top u = 4096) by (subst u; reflexivity).
  assert (Hnf : n_frames u = 4096) by (subst u; reflexivity).
  assert (Hcfg : fill_size (umem_cfg u) = XSK_RING_PROD__DEFAULT_NUM_DESCS hdr)
    by (subst u; reflexivity).
  assert (Hfq0 : fq_initialized u = 0) by (subst u; reflexivity).
  clear Hu.
  unfold bind at 1.
  destruct (refactored_init_fq_first (set_umem (Some u) w1) u eq_refl Hwf
              ltac:(lia) ltac:(rewrite Hcfg; lia) Hfq0)
    as (r & w2 & u2 & Hin & Hu2 & Hwf2 & Hres).
  unfold bind at 1. rewrite Hin.
  destruct (keeps_done_grows _ _ _ _ _ refactored_init_fq_trace Hin)
    as (new2 & Htr2 & Hq2).
  pose proof (keeps_done ports _ _ _ _ refactored_init_fq_ports Hin) as Hps2.
  cbn [trace ports set_umem] in Htr2, Hps2.
  assert (Hun2 : forall st, unwound_after (reverse (new2 ++ new1 ++ banner)) st
                            = Some (manager_held ++ st)).
  { intros st. eapply unwound_quiet_step; [|exact Hq2].
    eapply unwound_step; [apply Hban|apply Hun1]. }
  destruct Hres as [(-> & Hfq & (got & Hgot & Hgoteq & Htop2 & _) & _)
                   |(-> & Hfq & Htop2 & _ & Hhead)].
  2:{ (* the Fill ring could not be primed *)
      change (-1 <? 0) with true. cbv iota.
      unfold bind at 1. unfold get_umem at 1. rewrite Hu2.
      unfold bind at 1. rewrite refactored_destroy_run. unfold ret.
      exists (Refactored.Returned 1). eexists.
      exists ([EvFree ObjUmemMgr;
               EvMunmap (total_sz (n_frames u2) (frame_size u2));
               EvUmemDelete; EvFree ObjFreeAddrs; EvMutexDestroy]
              ++ new2 ++ new1 ++ banner).
      split; [reflexivity|]. cbn [trace set_trace set_umem umem ports].
      split; [rewrite Htr2, Htr1, <- !app_assoc; reflexivity|].
      split; [eapply unwound_step; [apply Hun2|reflexivity]|].
      split; [reflexivity|].
      left. split; [reflexivity|]. split; [congruence|].
      right. apply in_or_app. right. apply in_or_app. left.
      destruct (refactored_init_fq_failed _ _ _ Hin ltac:(lia)) as (n2 & Hn2).
      cbn [trace set_umem] in Hn2. rewrite Htr2 in Hn2.
      change (EvPrint "Failed to initialize FQ with %u frames" :: n2 ++ trace w1)
        with ((EvPrint "Failed to initialize FQ with %u frames" :: n2) ++ trace w1)
        in Hn2.
      apply app_inv_tail in Hn2. subst new2. left. reflexivity. }
  change (0 <? 0) with false. cbv iota.
  change (Z.to_nat Refactored.n_interfaces) with 2%nat.
  change (Z.to_nat Refactored.MAX_INTERFACES) with 8%nat.
  unfold bind at 1. cbn [Refactored.create_ports].
  unfold bind at 1.
  change (load_at Refactored.interfaces 0 w2) with (Done "veth0s8"%string w2).
  cbv iota. unfold bind at 1.
  destruct (refactored_port_init_unwound (Refactored.port_params_for hdr "veth0s8") w2)
    as (po0 & w3 & new3 & Hp0 & Htr3 & Hum3 & (ex3 & Hex3) & Hcase3).
  rewrite Hp0. unfold bind at 1.
  match goal with
  | |- context [store_at (replicate 8 None) 0 ?f w3] =>
      change (store_at (replicate 8 None) 0 f w3)
        with (Done (Some po0 :: replicate 7 None) w3)
  end.
  cbv iota.
  destruct po0 as [p0|].
  2:{ (* the first port could not be created *)
      destruct Hcase3 as (Hun3 & Hf3).
      unfold bind at 1. unfold print at 1, emit at 1. unfold ret at 1.
      cbn [fst snd]. cbv iota. unfold bind at 1.
      match goal with
      | |- context [Refactored.cleanup_ports 2 0 ?ps ?w0] =>
          change (Refactored.cleanup_ports 2 0 ps w0) with (Done (Some 1) w0)
      end.
      cbv iota. unfold ret.
      exists (Refactored.ReadsUnassigned 1). eexists.
      exists ([EvPrint "Failed to create port %u (%s)"] ++ new3 ++ new2 ++ new1 ++ banner).
      split; [reflexivity|]. cbn [trace set_trace set_umem umem ports].
      split; [rewrite Htr3, Htr2, Htr1, <- !app_assoc; reflexivity|].
      split; [reflexivity|].
      split.
      { eapply unwound_step; [|reflexivity].
        eapply unwound_step; [apply Hun2|apply Hun3]. }
      split.
      { rewrite !existsb_app, Hf3. reflexivity. }
      split; [reflexivity|].
      exists u2. rewrite Hum3. split; assumption. }
  destruct Hcase3 as (-> & Hun3 & Hf3 & Hps3).
  unfold bind at 1. unfold print at 1, emit at 1.
  unfold bind at 1.
  match goal with
  | |- context [load_at Refactored.interfaces (0 + 1) ?w0] =>
      change (load_at Refactored.interfaces (0 + 1) w0) with (Done "veth0s1"%string w0);
      set (w3' := w0) in *
  end.
  cbv iota. unfold bind at 1.
  destruct (refactored_port_init_unwound (Refactored.port_params_for hdr "veth0s1") w3')
    as (po1 & w4 & new4 & Hp1 & Htr4 & Hum4 & (ex4 & Hex4) & Hcase4).
  rewrite Hp1. unfold bind at 1.
  match goal with
  | |- context [store_at ?arr (0 + 1) ?f w4] =>
      change (store_at arr (0 + 1) f w4)
        with (Done (Some (Some (length (ports w2))) :: Some po1 :: replicate 6 None) w4)
  end.
  cbv iota.
  cbn [trace ports umem set_trace w3'] in Htr4, Hum4, Hex4, Hcase4.
  assert (Hun3' : forall st,
            unwound_after
              (reverse (new4 ++ [EvPrint "Created port %u: %s"] ++ new3 ++ new2 ++ new1 ++ banner))
              st
            = match po1 with
              | Some p => Some ([ObjSocket p; ObjPort p;
                                 ObjSocket (length (ports w2)); ObjPort (length (ports w2))]
                                ++ manager_held ++ st)
              | None => Some ([ObjSocket (length (ports w2)); ObjPort (length (ports w2))]
                              ++ manager_held ++ st)
              end).
  { intros st.
    assert (H3 : unwound_after
                   (reverse ([EvPrint "Created port %u: %s"] ++ new3 ++ new2 ++ new1 ++ banner)) st
                 = Some ([ObjSocket (length (ports w2)); ObjPort (length (ports w2))]
                         ++ manager_held ++ st)).
    { eapply unwound_step; [|reflexivity].
      eapply unwound_step; [apply Hun2|apply Hun3]. }
    destruct po1 as [p1|].
    - destruct Hcase4 as (_ & Hun4 & _). eapply unwound_step; [exact H3|]. apply Hun4.
    - destruct Hcase4 as (Hun4 & _). eapply unwound_step; [exact H3|]. apply Hun4. }
  destruct po1 as [p1|].
  2:{ (* the second port could not be created *)
      destruct Hcase4 as (_ & Hf4).
      unfold bind at 1. unfold print at 1, emit at 1. unfold ret at 1.
      cbn [fst snd]. cbv iota. unfold bind at 1.
      rewrite (cleanup_frees_first_port (length (ports w2))
                 {| params := Refactored.port_params_for hdr "veth0s8"; xsk := true;
                    umem_fq_initialized := 0; n_pkts_rx := 0; n_pkts_tx := 0 |}).
      2:{ cbn [ports set_trace]. rewrite Hex4, Hps3.
          rewrite lookup_app_l by (rewrite length_app; cbn; lia).
          rewrite lookup_app_r, Nat.sub_diag by reflexivity. reflexivity. }
      2:{ reflexivity. }
      cbv iota. unfold bind at 1. unfold get_umem at 1.
      cbn [umem set_trace]. rewrite Hum4, Hum3, Hu2.
      unfold bind at 1. rewrite refactored_destroy_run.
      unfold print, emit, bind, ret.
      exists (Refactored.Returned 0). eexists.
      exists ([EvPrint "Shutdown complete"; EvFree ObjUmemMgr;
               EvMunmap (total_sz (n_frames u2) (frame_size u2));
               EvUmemDelete; EvFree ObjFreeAddrs; EvMutexDestroy;
               EvFree (ObjPort (length (ports w2))); EvSocketDelete (length (ports w2));
               EvPrint "Failed to create port %u (%s)"]
              ++ new4 ++ [EvPrint "Created port %u: %s"] ++ new3 ++ new2 ++ new1 ++ banner).
      split; [reflexivity|]. cbn [trace set_trace set_umem umem ports].
      split; [rewrite Htr4, Htr3, Htr2, Htr1, <- !app_assoc; reflexivity|].
      split.
      { eapply unwound_step; [apply Hun3'|]. cbn.
        rewrite !decide_True by reflexivity. reflexivity. }
      split; [reflexivity|].
      right. split; [reflexivity|].
      split; [rewrite !existsb_app, Hf4; cbn; reflexivity|].
      split; [reflexivity|].
      apply in_or_app. left. cbn. auto 20. }
  destruct Hcase4 as (-> & _ & Hf4 & Hps4).
  unfold bind at 1. unfold print at 1, emit at 1. unfold ret at 1.
  cbn [fst snd]. cbv iota. unfold ret.
  eexists _, _.
  exists ([EvPrint "Created port %u: %s"] ++ new4
          ++ [EvPrint "Created port %u: %s"] ++ new3 ++ new2 ++ new1 ++ banner).
  split; [reflexivity|]. cbn [trace set_trace set_umem umem ports].
  split; [rewrite Htr4, Htr3, Htr2, Htr1, <- !app_assoc; reflexivity|].
  split; [reflexivity|].
  assert (Hl3 : length (ports w3) = S (length (ports w))).
  { rewrite Hps3, length_app, Hps2, Hps1. cbn. lia. }
  split; [rewrite Hl3, Hps2, Hps1; reflexivity|].
  split.
  { eapply unwound_step; [apply Hun3'|]. rewrite Hl3, Hps2, Hps1. reflexivity. }
  split.
  { rewrite !existsb_app, Hf4, Hf3, Hf1. cbn.
    assert (Hq : existsb step_failed new2 = false).
    { clear -Hq2. unfold all_events in Hq2. induction new2 as [|e l IH]; [reflexivity|].
      cbn in *. apply andb_prop in Hq2 as [He Hl]. rewrite (IH Hl), orb_false_r.
      destruct e; try reflexivity; discriminate He. }
    rewrite Hq. reflexivity. }
  split; [rewrite Hps4, Hps3, Hps2, Hps1, <- app_assoc; reflexivity|].
  exists u2. rewrite Hum4, Hum3.
  split; [exact Hu2|]. split; [exact Hwf2|]. split; [exact Hfq|].
  rewrite Htop2, Hgoteq, Hcfg, Htop. reflexivity.
Qed.

(** X23.  Started without a manager and with a non-negative default ring
    size, main of xdp_fwd2_refactored.c, followed up to the creation of
    its ports and through its cleanup, never faults in the embedding and
    ends in one of four ways: it returns 1, it returns 0, its cleanup
    loop tests ports[1] which was never assigned, or both ports exist
    and the thread count is the one derived from argv[1]. *)
Theorem refactored_main_never_faults
    (atoi : string -> Z) (hdr : xsk_defs) (argv1 : option string) (w : world) :
  0 <= XSK_RING_PROD__DEFAULT_NUM_DESCS hdr -> umem w = None ->
  exists r w',
    Refactored.main atoi hdr argv1 w = Done r w' /\
    (r = Refactored.Returned 1 \/ r = Refactored.Returned 0 \/
     r = Refactored.ReadsUnassigned 1 \/
     exists ps, r = Refactored.PortsCreated (Refactored.parse_n_threads atoi argv1) ps).
Proof.
  intros Hfs Hnone.
  destruct (refactored_main_cases atoi hdr argv1 w Hfs Hnone)
    as (r & w' & new & Hrun & _ & Hcase).
  exists r, w'. split; [exact Hrun|].
  destruct r as [rc|i|n ps].
  - destruct Hcase as (_ & _ & [(-> & _)|(-> & _)]); auto.
  - destruct Hcase as (-> & _). auto.
  - destruct Hcase as (-> & _). right. right. right. exists ps. reflexivity.
Qed.

Lemma refactored_main_never_faults_witness :
  exists r w',
    Refactored.main demo_atoi demo_hdr (Some "12") (Fwd2.initial_world (demo_startup [1; 0; 1; 0]))
      = Done r w' /\
    (r = Refactored.Returned 1 \/ r = Refactored.Returned 0 \/
     r = Refactored.ReadsUnassigned 1 \/
     exists ps,
       r = Refactored.PortsCreated (Refactored.parse_n_threads demo_atoi (Some "12")) ps).
Proof.
  apply (refactored_main_never_faults demo_atoi demo_hdr (Some "12")
           (Fwd2.initial_world (demo_startup [1; 0; 1; 0]))).
  - vm_compute. discriminate.
  - reflexivity.
Defined.

(** X24.  Whenever main of xdp_fwd2_refactored.c returns during start-up,
    every resource it acquired has been released, most recent first, and
    the manager is gone. If it returned 1, a step of umem_mgr_create
    failed or the failure to prime the Fill ring was printed, and no
    port object was created. If it returned 0, the last thing it printed
    is 'Shutdown complete' and the creation of a port had failed: a
    failed start-up can exit with status 0. *)
Theorem refactored_main_returns_with_nothing_held
    (atoi : string -> Z) (hdr : xsk_defs) (argv1 : option string)
    (w w' : world) (rc : Z) :
  0 <= XSK_RING_PROD__DEFAULT_NUM_DESCS hdr -> umem w = None ->
  Refactored.main atoi hdr argv1 w = Done (Refactored.Returned rc) w' ->
  exists new,
    trace w' = new ++ trace w /\
    unwound_after (reverse new) [] = Some [] /\ umem w' = None /\
    ((rc = 1 /\ ports w' = ports w /\
      (existsb step_failed new = true \/
       In (EvPrint "Failed to initialize FQ with %u frames") new)) \/
     (rc = 0 /\ existsb step_failed new = true /\
      head new = Some (EvPrint "Shutdown complete") /\
      In (EvPrint "Failed to create port %u (%s)") new)).
Proof.
  intros Hfs Hnone Hrun.
  destruct (refactored_main_cases atoi hdr argv1 w Hfs Hnone)
    as (r & w1 & new & Hrun1 & Htr & Hcase).
  rewrite Hrun in Hrun1. injection Hrun1 as <- <-.
  exists new. split; [exact Htr|exact Hcase].
Qed.

Lemma refactored_main_returns_with_nothing_held_witness :
  exists new,
    trace (final (Refactored.main demo_atoi demo_hdr None
                    (Fwd2.initial_world (demo_startup [1; 0; 1; 7]))))
      = new ++ trace (Fwd2.initial_world (demo_startup [1; 0; 1; 7])) /\
    unwound_after (reverse new) [] = Some [] /\
    umem (final (Refactored.main demo_atoi demo_hdr None
                   (Fwd2.initial_world (demo_startup [1; 0; 1; 7])))) = None /\
    ((0 = 1 /\
      ports (final (Refactored.main demo_atoi demo_hdr None
                      (Fwd2.initial_world (demo_startup [1; 0; 1; 7]))))
        = ports (Fwd2.initial_world (demo_startup [1; 0; 1; 7])) /\
      (existsb step_failed new = true \/
       In (EvPrint "Failed to initialize FQ with %u frames") new)) \/
     (0 = 0 /\ existsb step_failed new = true /\
      head new = Some (EvPrint "Shutdown complete") /\
      In (EvPrint "Failed to create port %u (%s)") new)).
Proof.
  apply (refactored_main_returns_with_nothing_held demo_atoi demo_hdr None
           (Fwd2.initial_world (demo_startup [1; 0; 1; 7]))
           (final (Refactored.main demo_atoi demo_hdr None
                     (Fwd2.initial_world (demo_startup [1; 0; 1; 7]))))
           0).
  - vm_compute. discriminate.
  - reflexivity.
  - vm_compute. reflexivity.
Defined.

(** X25.  If the start-up of main of xdp_fwd2_refactored.c tests an element
    of its local array ports[] that no statement assigned, that element
    is ports[1], tested by the cleanup loop; the last thing printed is
    then the failure to create a port, a step has failed, no port is
    held, and the manager is still held with its Fill ring primed. This
    is the path taken when the first port cannot be created: the array
    is not initialised and the loop runs over both slots. *)
Theorem refactored_main_reads_unassigned_port_slot
    (atoi : string -> Z) (hdr : xsk_defs) (argv1 : option string)
    (w w' : world) (i : Z) :
  0 <= XSK_RING_PROD__DEFAULT_NUM_DESCS hdr -> umem w = None ->
  Refactored.main atoi hdr argv1 w = Done (Refactored.ReadsUnassigned i) w' ->
  i = 1 /\
  exists new,
    trace w' = new ++ trace w /\
    head new = Some (EvPrint "Failed to create port %u (%s)") /\
    existsb step_failed new = true /\
    unwound_after (reverse new) [] = Some manager_held /\
    exists u, umem w' = Some u /\ fq_initialized u = 1.
Proof.
  intros Hfs Hnone Hrun.
  destruct (refactored_main_cases atoi hdr argv1 w Hfs Hnone)
    as (r & w1 & new & Hrun1 & Htr & Hcase).
  rewrite Hrun in Hrun1. injection Hrun1 as <- <-.
  destruct Hcase as (-> & Hun & Hf & Hh & Hu).
  split; [reflexivity|]. exists new. repeat split; assumption.
Qed.

Lemma refactored_main_reads_unassigned_port_slot_witness :
  1 = 1 /\
  exists new,
    trace (final (Refactored.main demo_atoi demo_hdr None
                    (Fwd2.initial_world (demo_startup [1; 7]))))
      = new ++ trace (Fwd2.initial_world (demo_startup [1; 7])) /\
    head new = Some (EvPrint "Failed to create port %u (%s)") /\
    existsb step_failed new = true /\
    unwound_after (reverse new) [] = Some manager_held /\
    exists u,
      umem (final (Refactored.main demo_atoi demo_hdr None
                     (Fwd2.initial_world (demo_startup [1; 7])))) = Some u /\
      fq_initialized u = 1.
Proof.
  apply (refactored_main_reads_unassigned_port_slot demo_atoi demo_hdr None
           (Fwd2.initial_world (demo_startup [1; 7]))
           (final (Refactored.main demo_atoi demo_hdr None
                     (Fwd2.initial_world (demo_startup [1; 7]))))
           1).
  - vm_compute. discriminate.
  - reflexivity.
  - vm_compute. reflexivity.
Defined.

(** X26.  When main of xdp_fwd2_refactored.c gets past the creation of its
    ports, the thread count is the one derived from argv[1], ports[0]
    and ports[1] are two fresh ports on veth0s8 and veth0s1 (queue 0,
    default ring sizes, XDP_USE_NEED_WAKEUP) with their sockets created
    and the other six slots are unassigned, no step failed, the five
    resources of the manager and both ports are held, and 4096 -
    min(fill, 4096) frames are left in the freelist, fill being
    XSK_RING_PROD__DEFAULT_NUM_DESCS, or 64 when that is 0. *)
Theorem refactored_main_starts_with_two_ports
    (atoi : string -> Z) (hdr : xsk_defs) (argv1 : option string)
    (w w' : world) (n : Z) (ps : list (option (option nat))) :
  0 <= XSK_RING_PROD__DEFAULT_NUM_DESCS hdr -> umem w = None ->
  Refactored.main atoi hdr argv1 w = Done (Refactored.PortsCreated n ps) w' ->
  n = Refactored.parse_n_threads atoi argv1 /\
  ps = Some (Some (length (ports w))) :: Some (Some (S (length (ports w))))
       :: replicate 6 None /\
  ports w' = ports w ++
    [ {| params := Refactored.port_params_for hdr "veth0s8"; xsk := true;
         umem_fq_initialized := 0; n_pkts_rx := 0; n_pkts_tx := 0 |};
      {| params := Refactored.port_params_for hdr "veth0s1"; xsk := true;
         umem_fq_initialized := 0; n_pkts_rx := 0; n_pkts_tx := 0 |} ] /\
  (exists new,
     trace w' = new ++ trace w /\
     existsb step_failed new = false /\
     unwound_after (reverse new) []
       = Some ([ObjSocket (S (length (ports w))); ObjPort (S (length (ports w)));
                ObjSocket (length (ports w)); ObjPort (length (ports w))]
               ++ manager_held)) /\
  exists u,
    umem w' = Some u /\ umem_wf u /\ fq_initialized u = 1 /\
    free_top u = 4096 -
      Z.min (if XSK_RING_PROD__DEFAULT_NUM_DESCS hdr =? 0 then 64
             else XSK_RING_PROD__DEFAULT_NUM_DESCS hdr) 4096.
Proof.
  intros Hfs Hnone Hrun.
  destruct (refactored_main_cases atoi hdr argv1 w Hfs Hnone)
    as (r & w1 & new & Hrun1 & Htr & Hcase).
  rewrite Hrun in Hrun1. injection Hrun1 as <- <-.
  destruct Hcase as (Hn & Hps & Hun & Hf & Hp & Hu).
  split; [exact Hn|]. split; [exact Hps|]. split; [exact Hp|].
  split; [|exact Hu].
  exists new. repeat split; assumption.
Qed.

Lemma refactored_main_starts_with_two_ports_witness :
  exists w' u,
    Refactored.main demo_atoi demo_hdr (Some "12")
      (Fwd2.initial_world (demo_startup [1; 0; 1; 0]))
      = Done (Refactored.PortsCreated 2
                (Some (Some 0%nat) :: Some (Some 1%nat) :: replicate 6 None)) w' /\
    iface <$> (params <$> ports w') = [Some "veth0s8"; Some "veth0s1"] /\
    umem w' = Some u /\ free_top u = 2048.
Proof.
  pose proof (refactored_main_starts_with_two_ports demo_atoi demo_hdr (Some "12")
           (Fwd2.initial_world (demo_startup [1; 0; 1; 0]))
           (final (Refactored.main demo_atoi demo_hdr (Some "12")
                     (Fwd2.initial_world (demo_startup [1; 0; 1; 0]))))
           2 (Some (Some 0%nat) :: Some (Some 1%nat) :: replicate 6 None)
           ltac:(vm_compute; discriminate) eq_refl ltac:(vm_compute; reflexivity))
    as (_ & _ & Hp & _ & u & Hu & _ & _ & Htop).
  exists (final (Refactored.main demo_atoi demo_hdr (Some "12")
                   (Fwd2.initial_world (demo_startup [1; 0; 1; 0])))), u.
  split; [vm_compute; reflexivity|].
  split; [rewrite Hp; reflexivity|].
  split; [exact Hu|exact Htop].
Defined.

(* ===================================================================== *)
(** * From the command line to the launch of the threads *)

Lemma getopt_loop_thread_arrays atoi opts : forall w r w',
  Fwd2.getopt_loop atoi opts w = Done r w' ->
  Forall thread_arrays_ok (g_thread_data (globs w)) ->
  Forall thread_arrays_ok (g_thread_data (globs w')).
Proof.
  induction opts as [|opt rest IH]; intros w r w' H Hall; cbn [Fwd2.getopt_loop] in H.
  - unfold ret in H. injection H as <- <-. exact Hall.
  - step_run H. unfold get_globs in Hm. injection Hm as <- <-.
    destruct opt.
    + destruct (n_threads (globs w) =? Fwd2.MAX_THREADS).
      { unfold print, emit, bind, ret in H. injection H as <- <-. exact Hall. }
      step_run H. unfold store_at in Hm.
      destruct (if 0 <=? n_threads (globs w)
                then g_thread_data (globs w) !! Z.to_nat (n_threads (globs w))
                else None) as [t|] eqn:Et; [|discriminate Hm].
      unfold ret in Hm. injection Hm as <- <-.
      step_run H. unfold put_globs in Hm. injection Hm as <- <-.
      apply IH in H; [exact H|]. cbn.
      apply Forall_insert; [exact Hall|].
      destruct (0 <=? n_threads (globs w)); [|discriminate Et].
      rewrite Forall_lookup in Hall. specialize (Hall _ _ Et).
      destruct t; exact Hall.
    + destruct (n_ports (globs w) =? Fwd2.MAX_PORTS).
      { unfold print, emit, bind, ret in H. injection H as <- <-. exact Hall. }
      step_run H. unfold store_at in Hm.
      destruct (if 0 <=? n_ports (globs w)
                then g_port_params (globs w) !! Z.to_nat (n_ports (globs w))
                else None) as [t|] eqn:Et; [|discriminate Hm].
      unfold ret in Hm. injection Hm as <- <-.
      step_run H. unfold put_globs in Hm. injection Hm as <- <-.
      apply IH in H; [exact H|]. exact Hall.
    + destruct (n_ports (globs w) =? 0).
      { unfold print, emit, bind, ret in H. injection H as <- <-. exact Hall. }
      step_run H. unfold store_at in Hm.
      destruct (if 0 <=? n_ports (globs w) - 1
                then g_port_params (globs w) !! Z.to_nat (n_ports (globs w) - 1)
                else None) as [t|] eqn:Et; [|discriminate Hm].
      unfold ret in Hm. injection Hm as <- <-.
      step_run H. unfold put_globs in Hm. injection Hm as <- <-.
      apply IH in H; [exact H|]. exact Hall.
    + unfold print, emit, bind, ret in H. injection H as <- <-. exact Hall.
Qed.

Lemma parse_args_thread_arrays atoi hdr o opts r w' :
  Fwd2.parse_args atoi opts (cli_world hdr o) = Done r w' ->
  Forall thread_arrays_ok (g_thread_data (globs w')).
Proof.
  unfold Fwd2.parse_args. intros H. step_run H.
  apply getopt_loop_thread_arrays in Hm.
  2:{ cbn. apply Forall_replicate. split; reflexivity. }
  destruct a.
  - unfold ret in H. injection H as <- <-. exact Hm.
  - unfold get_globs, print, emit, bind, ret in H.
    repeat match type of H with
           | context [if ?c then _ else _] => destruct c
           end; injection H as <- <-; exact Hm.
Qed.

Lemma init_ports_ok o n :
  (forall i, (i < n)%nat ->
     o (6 + 4 * i)%nat <> 0 /\ s32 (o (7 + 4 * i)%nat) = 0 /\
     s32 (u32 (o (8 + 4 * i)%nat)) = 4096) ->
  (n <= 16)%nat ->
  forall k i w,
    ports_inited o i w -> 0 <= i -> i + Z.of_nat k <= Z.of_nat n ->
    exists w',
      Fwd2.init_ports k i w = Done true w' /\
      ports_inited o (i + Z.of_nat k) w' /\
      n_ports (globs w') = n_ports (globs w) /\
      n_threads (globs w') = n_threads (globs w) /\
      g_thread_data (globs w') = g_thread_data (globs w) /\
      g_port_params (globs w') = g_port_params (globs w) /\
      (forall j, (j < Z.to_nat i)%nat ->
         g_ports (globs w') !! j = g_ports (globs w) !! j /\
         ports w' !! j = ports w !! j) /\
      (forall j, (Z.to_nat i <= j < Z.to_nat i + k)%nat ->
         g_ports (globs w') !! j = Some (Some j) /\
         exists pr, g_port_params (globs w) !! j = Some pr /\
           ports w' !! j = Some {| params := pr; xsk := true; umem_fq_initialized := 1;
                                   n_pkts_rx := 0; n_pkts_tx := 0 |}).
Proof.
  intros Hgrant Hn16.
  induction k as [|k IH]; intros i w Hinv Hi Hk.
  - exists w. cbn [Fwd2.init_ports]. split; [reflexivity|].
    rewrite Z.add_0_r. split; [exact Hinv|].
    do 4 (split; [reflexivity|]). split; [intros j Hj; split; reflexivity|].
    intros j Hj. lia.
  - pose proof Hinv as (Ho & Hck & Hlp & Hlpp & Hlgp & u & Hu & Hwf & Htop & Hfill).
    destruct (Hgrant (Z.to_nat i) ltac:(lia)) as (Hcalloc & Hsock & Hres).
    cbn [Fwd2.init_ports].
    unfold bind at 1. unfold get_globs.
    unfold bind at 1.
    destruct (load_at_ok (g_port_params (globs w)) i w) as (pr & Hpr & ->); [lia|].
    unfold bind at 1.
    destruct (fwd2_port_init_ok pr w u Hu Hwf ltac:(lia) ltac:(lia))
      as (w1 & Hrun & Hu1 & Htr & Hp1 & Hck1 & Ho1 & Hg1 & _).
    { rewrite Ho, Hck. exact Hcalloc. }
    { rewrite Ho, Hck. exact Hsock. }
    { replace (Z.min (Z.min (fill_size (umem_cfg u)) 4096) (free_top u))
        with 4096 by lia.
      rewrite Ho, Hck. exact Hres. }
    rewrite Hrun.
    unfold bind at 1.
    destruct (store_at_ok (g_ports (globs w)) i (fun _ => Some (length (ports w))) w1)
      as (x & Hx & ->); [lia|].
    unfold bind at 1. unfold put_globs.
    unfold bind at 1. unfold print, emit.
    match goal with |- context [Fwd2.init_ports k (i + 1) ?w0] => set (w2 := w0) end.
    assert (Hinv2 : ports_inited o (i + 1) w2).
    { unfold ports_inited, w2. cbn.
      split; [rewrite Ho1; exact Ho|].
      split; [rewrite Hck1, Hck; lia|].
      split; [rewrite Hp1, length_app; cbn; lia|].
      split; [exact Hlpp|].
      split; [rewrite length_insert; exact Hlgp|].
      eexists. split; [exact Hu1|].
      destruct Hwf as (Hlen & Htop' & Hn).
      replace (Z.min (Z.min (fill_size (umem_cfg u)) 4096) (free_top u))
        with 4096 by lia.
      split; [unfold umem_wf; cbn; lia|]. cbn. split; [lia|exact Hfill]. }
    destruct (IH (i + 1) w2 Hinv2 ltac:(lia) ltac:(lia))
      as (w' & Hrun' & Hinv' & Hnp & Hnt & Htd & Hpp & Hlow & Hhigh).
    exists w'. split; [exact Hrun'|].
    split; [replace (i + Z.of_nat (S k)) with (i + 1 + Z.of_nat k) by lia; exact Hinv'|].
    subst w2. cbn in Hnp, Hnt, Htd, Hpp, Hlow, Hhigh.
    split; [exact Hnp|]. split; [exact Hnt|]. split; [exact Htd|]. split; [exact Hpp|].
    assert (Hlen : length (ports w) = Z.to_nat i) by lia.
    split.
    + intros j Hj. destruct (Hlow j ltac:(lia)) as [H1 H2].
      rewrite H1, H2. rewrite list_lookup_insert_ne by lia.
      rewrite Hp1, lookup_app_l by lia. split; reflexivity.
    + intros j Hj. destruct (Nat.eq_dec j (Z.to_nat i)) as [->|Hne].
      * destruct (Hlow (Z.to_nat i) ltac:(lia)) as [H1 H2].
        rewrite H1, H2. rewrite list_lookup_insert_eq by lia.
        split; [rewrite Hlen; reflexivity|].
        exists pr. split; [exact Hpr|].
        rewrite Hp1, lookup_app_r, Hlen, Nat.sub_diag by lia. reflexivity.
      * destruct (Hhigh j ltac:(lia)) as [H1 (pr' & H2 & H3)].
        split; [exact H1|]. exists pr'. split; [exact H2|exact H3].
Qed.

(** X27.  On an accepted command line with at most 16 interfaces, when every
    call succeeds and each Fill ring grants the 4096 slots asked for
    (XSK_RING_PROD__DEFAULT_NUM_DESCS >= 2048), main of xdp_fwd2.c
    reaches the creation of the threads: port k is the k-th -i interface
    with its queue, its socket created and its Fill ring primed; 65536 -
    4096 * n_ports frames are left in the freelist; thread i has the
    core of the i-th -c and is wired as a ring over K = n_ports /
    n_threads ports: its RX slot j is port i * K + j and the TX port of
    that slot is port i * K + (j + 1) mod K. *)
Theorem main_launches_rings_over_the_ports
    (atoi : string -> Z) (hdr : xsk_defs) (o : nat -> Z) (opts : list cli_opt) :
  cli_accepts opts = true ->
  count_opt is_OptI opts <= 16 ->
  2048 <= XSK_RING_PROD__DEFAULT_NUM_DESCS hdr < 2 ^ 31 ->
  grants_ports (Z.to_nat (count_opt is_OptI opts)) o ->
  exists w',
    Fwd2.main atoi hdr opts (Fwd2.initial_world o) = Done Launch w' /\
    Z.of_nat (length (ports w')) = count_opt is_OptI opts /\
    (forall k s q, cli_ifaces atoi opts !! k = Some (s, q) ->
       ports w' !! k
         = Some {| params := {| xsk_cfg := xsk_cfg (Fwd2.port_params_default hdr);
                                iface := Some s; iface_queue := q |};
                   xsk := true; umem_fq_initialized := 1;
                   n_pkts_rx := 0; n_pkts_tx := 0 |}) /\
    (exists u, umem w' = Some u /\
               free_top u = 65536 - 4096 * count_opt is_OptI opts) /\
    (forall i c, cli_cores atoi opts !! i = Some c ->
       exists t,
         g_thread_data (globs w') !! i = Some t /\
         cpu_core_id t = c /\
         n_ports_rx t = count_opt is_OptI opts / count_opt is_OptC opts /\
         forall j, 0 <= j < n_ports_rx t ->
           ports_rx t !! Z.to_nat j
             = Some (Some (Z.to_nat (Z.of_nat i * n_ports_rx t + j))) /\
           ports_tx t !! Z.to_nat j
             = Some (Some (Z.to_nat (Z.of_nat i * n_ports_rx t
                                     + (j + 1) mod n_ports_rx t)))).
Proof.
  intros Ha Hn Hd Hg.
  set (N := count_opt is_OptI opts) in *. set (T := count_opt is_OptC opts) in *.
  destruct (parse_args_spec atoi hdr o opts)
    as (w1 & Hrun & (Ho1 & Hck1 & Hum1 & _ & Hps1 & _) & _ & Hacc).
  pose proof (parse_args_state_ok atoi hdr o opts _ w1 Hrun) as (_ & _ & Hlpp & Hltd).
  pose proof (parse_args_thread_arrays atoi hdr o opts _ w1 Hrun) as Harr.
  rewrite Ha in Hrun. destruct (Hacc Ha) as (Hn1 & Hn2 & _ & Hgp & Hifs & Hcores).
  fold N in Hn1. fold T in Hn2.
  assert (HNT : 1 <= T <= N /\ N mod T = 0).
  { unfold cli_accepts in Ha. fold N T in Ha.
    repeat (apply andb_prop in Ha as [Ha ?]).
    repeat match goal with
           | H : (_ <=? _) = true |- _ => apply Z.leb_le in H
           | H : (_ <? _) = true |- _ => apply Z.ltb_lt in H
           | H : (_ =? _) = true |- _ => apply Z.eqb_eq in H
           end.
    assert (Hm : N mod T = 0) by assumption.
    split; [|exact Hm]. split; [lia|].
    apply Z.mod_divide in Hm; [|lia]. apply Z.divide_pos_le in Hm; lia. }
  destruct HNT as (HT & Hmod).
  set (K := N / T).
  assert (HK : N = K * T).
  { unfold K. rewrite Z.mul_comm. apply Z.div_exact; lia. }
  assert (HK1 : 1 <= K <= 16) by nia.
  pose proof Hg as (G0 & G1 & G2 & G3 & G4 & G5 & Hgrant).
  destruct (fwd2_umem_mgr_create_ok (Fwd2.umem_params_default hdr)
              (Fwd2.umem_cfg_default hdr) w1)
    as (u & w2 & Hcr & Hwf & Htop & Hcfg & Ho2 & Hck2 & Hps2 & Hg2).
  { unfold Fwd2.umem_params_default. cbn [pp_n_frames]. lia. }
  1-6: rewrite Ho1, Hck1; cbn [oracle clock Fwd2.initial_world cli_world set_globs];
       assumption.
  unfold Fwd2.main.
  unfold bind at 1. unfold get_globs. unfold bind at 1. unfold put_globs.
  change (set_globs _ (Fwd2.initial_world o)) with (cli_world hdr o).
  unfold bind at 1. rewrite Hrun.
  change (negb (0 =? 0)) with false. cbv iota.
  unfold bind at 1. rewrite Hcr.
  unfold bind at 1. unfold bind at 1. unfold print at 1, emit at 1.
  unfold bind at 1. unfold bind at 1.
  match goal with
  | |- context [Fwd2.init_ports ?k 0 ?w] =>
      destruct (init_ports_ok o (Z.to_nat N) Hgrant ltac:(lia) k 0 w)
        as (w3 & Hrun3 & Hinv3 & Hnp3 & Hnt3 & Htd3 & Hpp3 & _ & Hnew3)
  end.
  { unfold ports_inited. cbn [oracle clock ports globs umem set_trace set_umem].
    rewrite Ho2, Ho1, Hck2, Hck1, Hps2, Hps1, Hg2, Hgp.
    split; [reflexivity|]. split; [reflexivity|]. split; [reflexivity|].
    split; [exact Hlpp|]. split; [rewrite length_replicate; reflexivity|].
    exists u. split; [reflexivity|]. split; [exact Hwf|].
    rewrite Htop, Hcfg. unfold Fwd2.umem_params_default, Fwd2.umem_cfg_default.
    cbn [pp_n_frames fill_size]. lia. }
  { lia. }
  { cbn [globs set_trace set_umem]. rewrite Hg2, Hn1. lia. }
  rewrite Hrun3. cbn [negb]. cbv iota.
  cbn [globs set_trace set_umem] in Hrun3, Hinv3, Hnp3, Hnt3, Htd3, Hpp3, Hnew3.
  rewrite Hg2 in Hinv3, Hnp3, Hnt3, Htd3, Hpp3, Hnew3.
  rewrite Hn1 in Hinv3, Hnew3. rewrite Z.add_0_l, Z2Nat.id in Hinv3 by lia.
  change (Z.to_nat 0) with 0%nat in Hnew3. rewrite Nat.add_0_l in Hnew3.
  destruct Hinv3 as (_ & _ & Hlp3 & _ & Hlgp3 & u3 & Hu3 & _ & Htop3 & _).
  unfold bind at 1. unfold print at 1, emit at 1.
  unfold bind at 1. unfold bind at 1.
  match goal with
  | |- context [Fwd2.wire_threads ?k 0 ?w] =>
      destruct (wire_threads_spec K T k 0 w)
        as (w5 & Hrun5 & (_ & _ & Hum5 & _ & Hps5 & _) & _ & _ & _ & _ & _ & Hall)
  end.
  { unfold wiring_ready, Fwd2.MAX_PORTS, Fwd2.MAX_PORTS_PER_THREAD.
    cbn [globs set_trace]. rewrite Hnt3, Hnp3, Hn1, Hn2, Htd3.
    unfold Fwd2.MAX_THREADS in Hltd.
    repeat (split; [lia|]). exact Harr. }
  { lia. }
  { cbn [globs set_trace]. rewrite Hnt3, Hn2. lia. }
  rewrite Hrun5. unfold ret.
  cbn [globs ports umem set_trace] in Hum5, Hps5, Hall.
  exists w5. split; [reflexivity|].
  assert (Hlen_if : Z.of_nat (length (cli_ifaces atoi opts)) = N).
  { unfold N. clear. induction opts as [|[]]; cbn [cli_ifaces count_opt is_OptI length]; lia. }
  assert (Hlen_c : Z.of_nat (length (cli_cores atoi opts)) = T).
  { unfold T. clear. induction opts as [|[]]; cbn [cli_cores count_opt is_OptC length]; lia. }
  split; [rewrite Hps5; exact Hlp3|].
  split.
  { intros k s q Hk.
    assert (Hlt : (k < length (cli_ifaces atoi opts))%nat)
      by (eapply lookup_lt_Some; exact Hk).
    destruct (Hnew3 k ltac:(lia)) as (_ & pr & Hpr & Hport).
    rewrite (Hifs k s q Hk) in Hpr. injection Hpr as <-.
    rewrite Hps5, Hport. reflexivity. }
  split; [exists u3; rewrite Hum5; split; [exact Hu3|exact Htop3]|].
  intros i c Hi.
  assert (Hlt : (i < length (cli_cores atoi opts))%nat)
    by (eapply lookup_lt_Some; exact Hi).
  destruct (Hall (Z.of_nat i) ltac:(lia)) as (t & t' & Ht & Ht' & Hnr & Hcpu & Hj).
  rewrite Nat2Z.id in Ht, Ht'.
  exists t'. split; [exact Ht'|].
  split.
  { rewrite Hcpu. rewrite Htd3, (Hcores i c Hi) in Ht. injection Ht as <-. reflexivity. }
  split; [exact Hnr|].
  rewrite Hnr. intros j Hjb. destruct (Hj j Hjb) as [Hrx Htx].
  assert (Hm : 0 <= (j + 1) mod K < K) by (apply Z.mod_pos_bound; lia).
  rewrite Hrx, Htx.
  destruct (Hnew3 (Z.to_nat (Z.of_nat i * K + j)) ltac:(nia)) as (-> & _).
  destruct (Hnew3 (Z.to_nat (Z.of_nat i * K + (j + 1) mod K)) ltac:(nia)) as (-> & _).
  split; reflexivity.
Qed.

Lemma demo_oracle_grants_ports n : grants_ports n demo_grants_all.
Proof.
  unfold grants_ports.
  do 6 (split; [vm_compute; congruence|]).
  intros i Hi.
  assert (Hm : forall r, (r < 4)%nat ->
            demo_grants_all (6 + r + 4 * i) = nth r [1; 0; 4096; 0] 0).
  { intros r Hr. unfold demo_grants_all.
    destruct (Nat.ltb_spec (6 + r + 4 * i) 6) as [E|_]; [lia|].
    replace (6 + r + 4 * i - 6)%nat with (r + i * 4)%nat by lia.
    rewrite Nat.Div0.mod_add, Nat.mod_small by lia. reflexivity. }
  split; [|split].
  - replace (6 + 4 * i)%nat with (6 + 0 + 4 * i)%nat by lia.
    rewrite (Hm 0%nat) by lia. cbn. discriminate.
  - replace (7 + 4 * i)%nat with (6 + 1 + 4 * i)%nat by lia.
    rewrite (Hm 1%nat) by lia. reflexivity.
  - replace (8 + 4 * i)%nat with (6 + 2 + 4 * i)%nat by lia.
    rewrite (Hm 2%nat) by lia. reflexivity.
Qed.

(** [-c 0 -i a -i b -q 1 -c 22 -i c -i d]: thread 0 is wired 0 -> 1 -> 0
    and thread 1 is wired 2 -> 3 -> 2. *)
Lemma main_launches_rings_over_the_ports_witness :
  exists w',
    Fwd2.main demo_atoi demo_hdr demo_two_rings (Fwd2.initial_world demo_grants_all)
      = Done Launch w' /\
    Z.of_nat (length (ports w')) = count_opt is_OptI demo_two_rings /\
    (forall k s q, cli_ifaces demo_atoi demo_two_rings !! k = Some (s, q) ->
       ports w' !! k
         = Some {| params := {| xsk_cfg := xsk_cfg (Fwd2.port_params_default demo_hdr);
                                iface := Some s; iface_queue := q |};
                   xsk := true; umem_fq_initialized := 1;
                   n_pkts_rx := 0; n_pkts_tx := 0 |}) /\
    (exists u, umem w' = Some u /\
               free_top u = 65536 - 4096 * count_opt is_OptI demo_two_rings) /\
    (forall i c, cli_cores demo_atoi demo_two_rings !! i = Some c ->
       exists t,
         g_thread_data (globs w') !! i = Some t /\
         cpu_core_id t = c /\
         n_ports_rx t
           = count_opt is_OptI demo_two_rings / count_opt is_OptC demo_two_rings /\
         forall j, 0 <= j < n_ports_rx t ->
           ports_rx t !! Z.to_nat j
             = Some (Some (Z.to_nat (Z.of_nat i * n_ports_rx t + j))) /\
           ports_tx t !! Z.to_nat j
             = Some (Some (Z.to_nat (Z.of_nat i * n_ports_rx t
                                     + (j + 1) mod n_ports_rx t)))).
Proof.
  apply (main_launches_rings_over_the_ports demo_atoi demo_hdr demo_grants_all
           demo_two_rings).
  - reflexivity.
  - vm_compute. discriminate.
  - vm_compute. split; [discriminate|reflexivity].
  - apply demo_oracle_grants_ports.
Defined.
